(** * NSF memory subsystem (software/esp32/main/nsf.c)

    A shallow embedding of the NSF player's memory subsystem: the header
    parser, the memory image behind the 6502 bus callbacks [read6502] and
    [write6502], the contiguous ROM loader, the ten-slot bank cache with its
    LRU list, the bootstrap program written at $1000, and the entry points
    [nsf_read_header], [nsf_open], [nsf_get_header], [nsf_log_header_fields],
    [nsf_playback_init] and [nsf_playback_frame].

    Conventions of the embedding.
    - C integers are [Z]; a store into a [uint8_t] or [uint16_t] object that
      could exceed the type goes through [u8] or [u16].
    - C arrays are lists, read with [rd] and written with [wr].  An access
      outside the array is undefined behaviour in C; here a read outside
      yields 0 and a write outside is dropped.
    - A heap buffer is the list of its bytes and the null buffer is the empty
      list; [malloc] is taken to succeed.  A pointer into the ROM buffer
      ([rom_block[i]]) is [Some off], the byte offset from [rom]; the null
      pointer is [None].
    - A [FILE] is the byte contents, the position and the end-of-file flag.
      Reads are short only at end of file; a seek fails only on a negative
      offset.
    - The APU callback is external: [apu_write_cb] records whether a callback
      is installed, and each call is recorded as a [bus_event].
    - Logging is left out, except in [nsf_log_header_fields], whose result is
      the list of the lines it logs.
    - The 6502 core is external and touches the memory image only through
      [read6502] and [write6502]; a terminating run of the core is a
      [cpu_run], the tree of the bus accesses it performs. *)

From Stdlib Require Import ZArith Lia Bool.
From stdpp Require Import base list.

Local Open Scope Z_scope.

(** ** Integers and arrays *)

Definition u8 (x : Z) : Z := x mod 256.
Definition u16 (x : Z) : Z := x mod 65536.

Definition rd (a : list Z) (i : Z) : Z := default 0 (a !! Z.to_nat i).
Definition wr (a : list Z) (i v : Z) : list Z := <[Z.to_nat i := v]> a.

(** [memcpy (dst + off, src, length src)], clipped to the buffer. *)
Definition blit (dst : list Z) (off : Z) (src : list Z) : list Z :=
  let o := Z.to_nat off in
  take o dst ++ take (length dst - o)%nat src ++ drop (o + length src)%nat dst.

(** [bzero (dst + off, len)]. *)
Definition bzero_at (dst : list Z) (off len : Z) : list Z :=
  blit dst off (replicate (Z.to_nat len) 0).

(** [for (i = start; i < start + n; i++) if (p i) { found = i; break; }],
    with [found] initialised to -1. *)
Fixpoint scan_from (p : Z -> bool) (i : Z) (n : nat) : Z :=
  match n with
  | O => -1
  | S n' => if p i then i else scan_from p (i + 1) n'
  end.

(** ** Error codes (esp_err.h) *)

Inductive esp_err_t : Type :=
  | ESP_OK
  | ESP_FAIL              (* -1 *)
  | ESP_ERR_NO_MEM
  | ESP_ERR_INVALID_ARG
  | ESP_ERR_INVALID_STATE.

Global Instance esp_err_eq_dec : EqDecision esp_err_t.
Proof. solve_decision. Defined.

(** ** Files *)

Record FILE : Type := mkFILE {
  contents : list Z;
  fpos : Z;
  feof : bool
}.

Definition fopen (bytes : list Z) : FILE :=
  {| contents := bytes; fpos := 0; feof := false |}.

(** [fseek (f, off, SEEK_SET)]: the return value and the file. *)
Definition fseek_set (f : FILE) (off : Z) : Z * FILE :=
  if off <? 0 then (-1, f)
  else (0, {| contents := contents f; fpos := off; feof := false |}).

(** [fread (buf, 1, len, f)]: the bytes delivered and the file. *)
Definition fread (f : FILE) (len : Z) : list Z * FILE :=
  let d := take (Z.to_nat len) (drop (Z.to_nat (fpos f)) (contents f)) in
  (d, {| contents := contents f;
         fpos := fpos f + Z.of_nat (length d);
         feof := feof f || (Z.of_nat (length d) <? len) |}).

(** ** Data model *)

Definition ROM_BANK_SIZE : Z := 4096.
Definition ROM_BANK_COUNT : nat := 10.

Record nsf_header_t : Type := mk_nsf_header {
  version : Z;
  total_songs : Z;
  starting_song : Z;
  load_address : Z;
  init_address : Z;
  play_address : Z;
  name : list Z;
  artist : list Z;
  copyright : list Z;
  play_speed_ntsc : Z;
  play_speed_pal : Z;
  bankswitch_init : list Z;
  pal_ntsc_bits : Z;
  extra_sound_chips : Z;
  extra : list Z
}.

Record nsf_nes_memory_t : Type := mk_nes_memory {
  ram : list Z;                    (* $0000 - $07FF, 2048 bytes *)
  prg : list Z;                    (* $1000 - $107F, 128 bytes *)
  apu_regs : list Z;               (* $4000 - $4017, 24 bytes *)
  bank_regs : list Z;              (* $5FF8 - $5FFF, 8 bytes *)
  int_vecs : list Z;               (* $FFFA - $FFFF, 6 bytes *)
  rom_block : list (option Z);     (* 8 pointers into [rom] *)
  rom_block_bank_id : list Z;      (* bank referenced by each ROM block *)
  rom : list Z;                    (* raw ROM data *)
  rom_bank_id : list Z;            (* bank of each 4k segment of [rom] *)
  rom_bank_loaded : list Z;        (* load status of each segment *)
  rom_bank_use_order : list Z      (* loaded banks, most recent first; -1 = empty *)
}.

Record nsf_file_t : Type := mk_nsf_file {
  file : FILE;
  header : nsf_header_t;
  nes_memory : nsf_nes_memory_t;
  apu_write_cb : bool
}.

(** Field updates. *)

Definition set_ram (v : list Z) (m : nsf_nes_memory_t) : nsf_nes_memory_t :=
  mk_nes_memory v (prg m) (apu_regs m) (bank_regs m) (int_vecs m) (rom_block m)
    (rom_block_bank_id m) (rom m) (rom_bank_id m) (rom_bank_loaded m)
    (rom_bank_use_order m).

Definition set_prg (v : list Z) (m : nsf_nes_memory_t) : nsf_nes_memory_t :=
  mk_nes_memory (ram m) v (apu_regs m) (bank_regs m) (int_vecs m) (rom_block m)
    (rom_block_bank_id m) (rom m) (rom_bank_id m) (rom_bank_loaded m)
    (rom_bank_use_order m).

Definition set_apu_regs (v : list Z) (m : nsf_nes_memory_t) : nsf_nes_memory_t :=
  mk_nes_memory (ram m) (prg m) v (bank_regs m) (int_vecs m) (rom_block m)
    (rom_block_bank_id m) (rom m) (rom_bank_id m) (rom_bank_loaded m)
    (rom_bank_use_order m).

Definition set_bank_regs (v : list Z) (m : nsf_nes_memory_t) : nsf_nes_memory_t :=
  mk_nes_memory (ram m) (prg m) (apu_regs m) v (int_vecs m) (rom_block m)
    (rom_block_bank_id m) (rom m) (rom_bank_id m) (rom_bank_loaded m)
    (rom_bank_use_order m).

Definition set_int_vecs (v : list Z) (m : nsf_nes_memory_t) : nsf_nes_memory_t :=
  mk_nes_memory (ram m) (prg m) (apu_regs m) (bank_regs m) v (rom_block m)
    (rom_block_bank_id m) (rom m) (rom_bank_id m) (rom_bank_loaded m)
    (rom_bank_use_order m).

Definition set_rom_block (v : list (option Z)) (m : nsf_nes_memory_t)
  : nsf_nes_memory_t :=
  mk_nes_memory (ram m) (prg m) (apu_regs m) (bank_regs m) (int_vecs m) v
    (rom_block_bank_id m) (rom m) (rom_bank_id m) (rom_bank_loaded m)
    (rom_bank_use_order m).

Definition set_rom_block_bank_id (v : list Z) (m : nsf_nes_memory_t)
  : nsf_nes_memory_t :=
  mk_nes_memory (ram m) (prg m) (apu_regs m) (bank_regs m) (int_vecs m)
    (rom_block m) v (rom m) (rom_bank_id m) (rom_bank_loaded m)
    (rom_bank_use_order m).

Definition set_rom (v : list Z) (m : nsf_nes_memory_t) : nsf_nes_memory_t :=
  mk_nes_memory (ram m) (prg m) (apu_regs m) (bank_regs m) (int_vecs m)
    (rom_block m) (rom_block_bank_id m) v (rom_bank_id m) (rom_bank_loaded m)
    (rom_bank_use_order m).

Definition set_rom_bank_id (v : list Z) (m : nsf_nes_memory_t)
  : nsf_nes_memory_t :=
  mk_nes_memory (ram m) (prg m) (apu_regs m) (bank_regs m) (int_vecs m)
    (rom_block m) (rom_block_bank_id m) (rom m) v (rom_bank_loaded m)
    (rom_bank_use_order m).

Definition set_rom_bank_loaded (v : list Z) (m : nsf_nes_memory_t)
  : nsf_nes_memory_t :=
  mk_nes_memory (ram m) (prg m) (apu_regs m) (bank_regs m) (int_vecs m)
    (rom_block m) (rom_block_bank_id m) (rom m) (rom_bank_id m) v
    (rom_bank_use_order m).

Definition set_rom_bank_use_order (v : list Z) (m : nsf_nes_memory_t)
  : nsf_nes_memory_t :=
  mk_nes_memory (ram m) (prg m) (apu_regs m) (bank_regs m) (int_vecs m)
    (rom_block m) (rom_block_bank_id m) (rom m) (rom_bank_id m)
    (rom_bank_loaded m) v.

Definition set_file (f : FILE) (nsf : nsf_file_t) : nsf_file_t :=
  mk_nsf_file f (header nsf) (nes_memory nsf) (apu_write_cb nsf).

Definition set_nes_memory (m : nsf_nes_memory_t) (nsf : nsf_file_t) : nsf_file_t :=
  mk_nsf_file (file nsf) (header nsf) m (apu_write_cb nsf).

Definition set_apu_write_cb (cb : bool) (nsf : nsf_file_t) : nsf_file_t :=
  mk_nsf_file (file nsf) (header nsf) (nes_memory nsf) cb.

(** ** Header parser *)

Definition nsf_magic : list Z := [0x4E; 0x45; 0x53; 0x4D; 0x1A].

(** [strncpy (dst, src, n)]: copy up to the first NUL, pad with NUL. *)
Fixpoint strncpy (src : list Z) (n : nat) : list Z :=
  match n with
  | O => []
  | S n' =>
      match src with
      | [] => replicate n 0
      | c :: src' => if c =? 0 then replicate n 0 else c :: strncpy src' n'
      end
  end.

(** [buf[n] | (buf[n+1] << 8)] stored in a [uint16_t]. *)
Definition le16 (buf : list Z) (n : Z) : Z :=
  u16 (Z.lor (rd buf n) (Z.shiftl (rd buf (n + 1)) 8)).

Definition nsf_read_header_impl (f : FILE) (hdr : nsf_header_t)
  : esp_err_t * FILE * nsf_header_t :=
  let '(buf, f) := fread f 128 in
  let n := Z.of_nat (length buf) in
  if negb (n =? 128) then (ESP_FAIL, f, hdr)
  else if negb (bool_decide (take 5 buf = nsf_magic)) then (ESP_FAIL, f, hdr)
  else
    (ESP_OK, f,
     {| version := rd buf 5;
        total_songs := rd buf 6;
        starting_song := rd buf 7;
        load_address := le16 buf 8;
        init_address := le16 buf 10;
        play_address := le16 buf 12;
        name := wr (strncpy (drop 14 buf) 32) 31 0;
        artist := wr (strncpy (drop 46 buf) 32) 31 0;
        copyright := wr (strncpy (drop 78 buf) 32) 31 0;
        play_speed_ntsc := le16 buf 110;
        bankswitch_init := take 8 (drop 112 buf);
        play_speed_pal := le16 buf 120;
        pal_ntsc_bits := rd buf 122;
        extra_sound_chips := rd buf 123;
        extra := take 4 (drop 124 buf) |}).

(** [for (i = 0; i < 8; i++) if (bankswitch_init[i] != 0) return true;] *)
Definition nsf_has_bank_switching (nsf : nsf_file_t) : bool :=
  negb (scan_from (fun i => negb (rd (bankswitch_init (header nsf)) i =? 0)) 0 8
        =? -1).

(** ** LRU list *)

(** [for (j = i; j > 0; --j) use_order[j] = use_order[j - 1];] *)
Fixpoint shift_use_order (uo : list Z) (j : nat) : list Z :=
  match j with
  | O => uo
  | S j' => shift_use_order (wr uo (Z.of_nat j) (rd uo (Z.of_nat j'))) j'
  end.

(** [mark_rom_bank_used] reads and writes [rom_bank_use_order] only; this is
    its body as a function of that array. *)
Definition mark_use_order (uo : list Z) (bank : Z) : list Z :=
  (* Bank is already the most recent one *)
  if rd uo 0 =? bank then uo
  else
    (* Try to find the bank in the LRU collection, and shift it forward *)
    let i := scan_from (fun i => rd uo i =? bank) 1 (ROM_BANK_COUNT - 1) in
    if negb (i =? -1) then wr (shift_use_order uo (Z.to_nat i)) 0 bank
    (* Bank was not in the collection: refuse if the tail is not empty *)
    else if negb (rd uo (Z.of_nat ROM_BANK_COUNT - 1) =? -1) then uo
    (* Shift the use list down by one element, insert the bank at the head *)
    else wr (shift_use_order uo (ROM_BANK_COUNT - 1)) 0 bank.

Definition mark_rom_bank_used (m : nsf_nes_memory_t) (bank : Z)
  : nsf_nes_memory_t :=
  set_rom_bank_use_order (mark_use_order (rom_bank_use_order m) bank) m.

(** ** Bank cache *)

Definition rd_ptr (a : list (option Z)) (i : Z) : option Z :=
  default None (a !! Z.to_nat i).
Definition wr_ptr (a : list (option Z)) (i : Z) (p : option Z)
  : list (option Z) :=
  <[Z.to_nat i := p]> a.

(** The slot holding [bank], or -1 (nsf.c lines 489-495). *)
Definition find_loaded_bank (m : nsf_nes_memory_t) (bank : Z) : Z :=
  scan_from (fun i => negb (rd (rom_bank_loaded m) i =? 0)
                      && (rd (rom_bank_id m) i =? bank))
    0 ROM_BANK_COUNT.

(** The first empty slot, or -1 (nsf.c lines 506-512). *)
Definition find_empty_slot (m : nsf_nes_memory_t) : Z :=
  scan_from (fun i => rd (rom_bank_loaded m) i =? 0) 0 ROM_BANK_COUNT.

(** The eviction block of [nsf_load_rom_bank] (nsf.c lines 513-547), entered
    when no slot is empty: the freed slot and the memory, or the error. *)
Definition evict_oldest_bank (m : nsf_nes_memory_t)
  : esp_err_t + (Z * nsf_nes_memory_t) :=
  let oldest_bank := rd (rom_bank_use_order m) (Z.of_nat ROM_BANK_COUNT - 1) in
  if oldest_bank =? -1 then inl ESP_FAIL
  else
    let bank_index :=
      scan_from (fun i => rd (rom_bank_id m) i =? oldest_bank) 0 ROM_BANK_COUNT in
    if bank_index =? -1 then inl ESP_FAIL
    else
      let m := set_rom_bank_use_order
                 (wr (rom_bank_use_order m) (Z.of_nat ROM_BANK_COUNT - 1) (-1)) m in
      let m := set_rom_bank_loaded (wr (rom_bank_loaded m) bank_index 0) m in
      let m := set_rom_bank_id (wr (rom_bank_id m) bank_index 0) m in
      let i := scan_from (fun i => bool_decide (rd_ptr (rom_block m) i <> None)
                                   && (rd (rom_block_bank_id m) i =? bank_index))
                 0 8 in
      if i =? -1 then inr (bank_index, m)
      else
        let m := set_rom_block (wr_ptr (rom_block m) i None) m in
        let m := set_rom_block_bank_id (wr (rom_block_bank_id m) i 0) m in
        inr (bank_index, m).

(** The loading block of [nsf_load_rom_bank] (nsf.c lines 549-589): read
    [bank] from the file into slot [bank_index] of memory [m] and map the
    ROM window of register [reg] to it. *)
Definition load_bank_into_slot (nsf : nsf_file_t) (m : nsf_nes_memory_t)
    (reg bank bank_index : Z) : esp_err_t * nsf_file_t :=
  let padding := Z.land (load_address (header nsf)) 0x0FFF in
  let target_block := u8 (reg - 0x5FF8) in
  let rom_bank := bank_index * 4096 in
  (* Clear the target bank *)
  let m := set_rom (bzero_at (rom m) rom_bank 4096) m in
  let m := set_rom_bank_loaded (wr (rom_bank_loaded m) bank_index 0) m in
  (* Load the bank data *)
  let dst := if bank =? 0 then rom_bank + padding else rom_bank in
  let len := if bank =? 0 then 4096 - padding else 4096 in
  let off := if bank =? 0 then 0x080
             else 0x080 + (4096 - padding) + 4096 * (bank - 1) in
  let '(r, f) := fseek_set (file nsf) off in
  if r <? 0 then (ESP_FAIL, set_file f (set_nes_memory m nsf))
  else
    let '(d, f) := fread f len in
    let m := set_rom (blit (rom m) dst d) m in
    if (Z.of_nat (length d) =? 0) && negb (feof f) then
      (ESP_FAIL, set_file f (set_nes_memory m nsf))
    else
      (* Set the loaded state variables and pointers *)
      let m := set_rom_bank_loaded (wr (rom_bank_loaded m) bank_index 1) m in
      let m := set_rom_bank_id (wr (rom_bank_id m) bank_index bank) m in
      let m := set_rom_block
                 (wr_ptr (rom_block m) target_block (Some rom_bank)) m in
      let m := set_rom_block_bank_id
                 (wr (rom_block_bank_id m) target_block bank) m in
      (ESP_OK, set_file f (set_nes_memory (mark_rom_bank_used m bank) nsf)).

Definition nsf_load_rom_bank (nsf : nsf_file_t) (reg bank : Z)
  : esp_err_t * nsf_file_t :=
  if (reg <? 0x5FF8) || (reg >? 0x5FFF) then (ESP_ERR_INVALID_ARG, nsf)
  else
    let m := nes_memory nsf in
    let target_block := u8 (reg - 0x5FF8) in
    let bank_index := find_loaded_bank m bank in
    if negb (bank_index =? -1) then
      (* Bank is already loaded *)
      let m := set_rom_block
                 (wr_ptr (rom_block m) target_block (Some (bank_index * 4096))) m in
      let m := set_rom_block_bank_id (wr (rom_block_bank_id m) target_block bank) m in
      (ESP_OK, set_nes_memory (mark_rom_bank_used m bank) nsf)
    else
      (* Bank is not loaded: find an empty bank slot, or evict *)
      let bank_index := find_empty_slot m in
      match (if bank_index =? -1 then evict_oldest_bank m
             else inr (bank_index, m)) with
      | inl err => (err, nsf)
      | inr (bank_index, m) => load_bank_into_slot nsf m reg bank bank_index
      end.

(** ** Bus callbacks *)

Inductive bus_event : Type :=
  | ApuWriteCb (address value : Z)     (* apu_write_cb (address, value) *)
  | BankLoad (reg bank : Z).           (* nsf_load_rom_bank (_, reg, bank) *)

Global Instance bus_event_eq_dec : EqDecision bus_event.
Proof. solve_decision. Defined.

(** [active] is the global [active_nsf_file]. *)
Definition read6502 (active : option nsf_file_t) (address : Z)
  : Z * option nsf_file_t :=
  match active with
  | None => (0, None)
  | Some nsf =>
      let m := nes_memory nsf in
      if address <=? 0x07FF then (rd (ram m) address, active)
      else if (0x1000 <=? address) && (address <=? 0x107F) then
        (rd (prg m) (address - 0x1000), active)
      else if (0x4000 <=? address) && (address <=? 0x4017) then
        (rd (apu_regs m) (address - 0x4000), active)
      else if (0x5FF8 <=? address) && (address <=? 0x5FFF) then
        (rd (bank_regs m) (address - 0x5FF8), active)
      else if (0x8000 <=? address) && (address <? 0xFFFA) then
        let block_index := u8 (Z.shiftr (Z.land address 0x7000) 12) in
        match rd_ptr (rom_block m) block_index with
        | None => (0, active)
        | Some block =>
            let value := rd (rom m) (block + Z.land address 0x0FFF) in
            (value,
             Some (set_nes_memory
                     (mark_rom_bank_used m (rd (rom_block_bank_id m) block_index))
                     nsf))
        end
      else if 0xFFFA <=? address then
        (rd (int_vecs m) (address - 0xFFFA), active)
      else (0, active)
  end.

Definition write6502 (active : option nsf_file_t) (address value : Z)
  : option nsf_file_t * list bus_event :=
  match active with
  | None => (None, [])
  | Some nsf =>
      let m := nes_memory nsf in
      if address <=? 0x07FF then
        (Some (set_nes_memory (set_ram (wr (ram m) address value) m) nsf), [])
      else if (0x4000 <=? address) && (address <=? 0x4017) then
        let nsf := set_nes_memory
                     (set_apu_regs (wr (apu_regs m) (address - 0x4000) value) m)
                     nsf in
        if negb (address =? 0x4016) then
          if apu_write_cb nsf then (Some nsf, [ApuWriteCb address value])
          else (Some nsf, [])
        else (Some nsf, [])
      else if (0x5FF8 <=? address) && (address <=? 0x5FFF) then
        if negb (rd (bank_regs m) (address - 0x5FF8) =? value) then
          let nsf := set_nes_memory
                       (set_bank_regs (wr (bank_regs m) (address - 0x5FF8) value) m)
                       nsf in
          (Some (snd (nsf_load_rom_bank nsf address value)),
           [BankLoad address value])
        else (active, [])
      else (active, [])
  end.

(** ** Playback initialisation *)

Definition nsf_init_nes_memory (nsf : nsf_file_t) : nsf_file_t :=
  let m := {| ram := replicate 2048 0;
              prg := replicate 128 0;
              apu_regs := replicate 24 0;
              bank_regs := replicate 8 0;
              int_vecs := replicate 6 0;
              rom_block := replicate 8 None;
              rom_block_bank_id := replicate 8 0;
              rom := [];
              rom_bank_id := replicate ROM_BANK_COUNT 0;
              rom_bank_loaded := replicate ROM_BANK_COUNT 0;
              rom_bank_use_order := replicate ROM_BANK_COUNT 0 |} in
  set_nes_memory (set_apu_regs (wr (apu_regs m) 0x17 0x40) m) nsf.

(** [a[n++] = v] for each [v] of [vs] in turn. *)
Fixpoint store_from (a : list Z) (n : Z) (vs : list Z) : list Z :=
  match vs with
  | [] => a
  | v :: vs' => store_from (wr a n v) (n + 1) vs'
  end.

Definition nsf_init_nes_prg (nsf : nsf_file_t) (song pal_ntsc : Z) : nsf_file_t :=
  let m := nes_memory nsf in
  let h := header nsf in
  let p := store_from (prg m) 0
             [ 0xA9; song;                                   (* LDA #song *)
               0xA2; pal_ntsc;                               (* LDX #pal_ntsc *)
               0x20; u8 (Z.land (init_address h) 0x00FF);    (* JSR #init *)
                     u8 (Z.shiftr (Z.land (init_address h) 0xFF00) 8);
               0x20; u8 (Z.land (play_address h) 0x00FF);    (* JSR #play *)
                     u8 (Z.shiftr (Z.land (play_address h) 0xFF00) 8);
               0x4C; 0x07; 0x10;                             (* JMP to previous *)
               0xEA; 0xEA; 0xEA; 0xEA ] in                   (* NOP *)
  let m := set_prg p m in
  (* Reset vector = 0x1000 *)
  let m := set_int_vecs (wr (wr (int_vecs m) 2 0x00) 3 0x10) m in
  set_nes_memory m nsf.

Definition nsf_init_load_nes_rom (nsf : nsf_file_t) : esp_err_t * nsf_file_t :=
  let la := load_address (header nsf) in
  if la <? 0x8000 then (ESP_FAIL, nsf)
  else
    let '(r, f) := fseek_set (file nsf) 0x080 in
    if r <? 0 then (ESP_FAIL, set_file f nsf)
    else
      let offset := la - 0x8000 in
      let max_len := 0xFFFF - la in
      let m := nes_memory nsf in
      let m := set_rom (replicate (Z.to_nat 32768) 0) m in
      let m := set_rom_block (replicate 8 None) m in
      let '(d, f) := fread f max_len in
      let m := set_rom (blit (rom m) offset d) m in
      if Z.of_nat (length d) =? 0 then
        (ESP_FAIL, set_file f (set_nes_memory m nsf))
      else
        let m := set_rom_block
                   (foldl (fun rb i => wr_ptr rb i (Some (i * 4096)))
                      (rom_block m) (seqZ 0 8)) m in
        (ESP_OK, set_file f (set_nes_memory m nsf)).

(** The loop of [nsf_init_load_nes_rom_banks], from window [i] for [n] rounds. *)
Fixpoint load_init_banks (nsf : nsf_file_t) (i : Z) (n : nat)
  : esp_err_t * nsf_file_t :=
  match n with
  | O => (ESP_OK, nsf)
  | S n' =>
      let '(ret, nsf) :=
        nsf_load_rom_bank nsf (0x5FF8 + i) (rd (bankswitch_init (header nsf)) i) in
      if bool_decide (ret <> ESP_OK) then (ret, nsf)
      else load_init_banks nsf (i + 1) n'
  end.

Definition nsf_init_load_nes_rom_banks (nsf : nsf_file_t)
  : esp_err_t * nsf_file_t :=
  let m := nes_memory nsf in
  let m := set_rom (replicate (Z.to_nat ROM_BANK_SIZE * ROM_BANK_COUNT) 0) m in
  let m := set_rom_bank_id (replicate ROM_BANK_COUNT 0) m in
  let m := set_rom_bank_loaded (replicate ROM_BANK_COUNT 0) m in
  let m := set_rom_bank_use_order (replicate ROM_BANK_COUNT (-1)) m in
  let m := set_rom_block (replicate 8 None) m in
  let m := set_rom_block_bank_id (replicate 8 0) m in
  load_init_banks (set_nes_memory m nsf) 0 8.

(** A terminating run of the 6502 core, as the bus accesses it performs. *)
Inductive cpu_run : Type :=
  | CpuDone
  | CpuRead (address : Z) (k : Z -> cpu_run)
  | CpuWrite (address value : Z) (k : cpu_run).

Fixpoint run_cpu (p : cpu_run) (active : option nsf_file_t)
  : option nsf_file_t * list bus_event :=
  match p with
  | CpuDone => (active, [])
  | CpuRead address k =>
      let '(value, active) := read6502 active address in
      run_cpu (k value) active
  | CpuWrite address value k =>
      let '(active, ev) := write6502 active address value in
      let '(active, evs) := run_cpu k active in
      (active, ev ++ evs)
  end.

(** [nsf] is the active instance ([nsf_open] registers it).  [cpu] is the run
    of the core from [reset6502] until the program counter is $1007. *)
Definition nsf_playback_init (nsf : nsf_file_t) (song : Z) (cb : bool)
    (cpu : cpu_run) : esp_err_t * nsf_file_t * list bus_event :=
  let nsf := set_apu_write_cb cb nsf in
  let nsf := nsf_init_nes_memory nsf in
  let nsf := nsf_init_nes_prg nsf song 0 in
  let '(ret, nsf) :=
    if nsf_has_bank_switching nsf then nsf_init_load_nes_rom_banks nsf
    else nsf_init_load_nes_rom nsf in
  if bool_decide (ret <> ESP_OK) then (ret, nsf, [])
  else
    let '(active, evs) := run_cpu cpu (Some nsf) in
    (ESP_OK, default nsf active, evs).

(** A zeroed [struct nsf_file_t] ([malloc] then [bzero]). *)
Definition zeroed_nsf_file : nsf_file_t :=
  {| file := fopen [];
     header := mk_nsf_header 0 0 0 0 0 0 (replicate 32 0) (replicate 32 0)
                 (replicate 32 0) 0 0 (replicate 8 0) 0 0 (replicate 4 0);
     nes_memory :=
       mk_nes_memory (replicate 2048 0) (replicate 128 0) (replicate 24 0)
         (replicate 8 0) (replicate 6 0) (replicate 8 None) (replicate 8 0)
         [] (replicate ROM_BANK_COUNT 0) (replicate ROM_BANK_COUNT 0)
         (replicate ROM_BANK_COUNT 0);
     apu_write_cb := false |}.

(** [nsf_open]: [active] is the global [active_nsf_file], [bytes] the
    contents of the file named by [filename]; the result is the error code
    and the new [active_nsf_file]. *)
Definition nsf_open (active : option nsf_file_t) (bytes : list Z)
  : esp_err_t * option nsf_file_t :=
  match active with
  | Some _ => (ESP_ERR_INVALID_STATE, active)
  | None =>
      let nsf_file := set_file (fopen bytes) zeroed_nsf_file in
      let '(ret, f, hdr) :=
        nsf_read_header_impl (file nsf_file) (header nsf_file) in
      if bool_decide (ret = ESP_OK) then
        (ESP_OK, Some (mk_nsf_file f hdr (nes_memory nsf_file) false))
      else (ret, None)
  end.

(** * Vocabulary of the properties *)

(** ** Bytes and events *)

Definition is_byte (b : Z) : Prop := 0 <= b < 256.

Global Instance is_byte_dec (b : Z) : Decision (is_byte b).
Proof. unfold is_byte. apply _. Defined.

Definition is_bank_load (e : bus_event) : bool :=
  match e with BankLoad _ _ => true | ApuWriteCb _ _ => false end.

(** Number of [nsf_load_rom_bank] calls among the events. *)
Definition bank_loads (evs : list bus_event) : nat :=
  length (List.filter is_bank_load evs).

(** ** Regions of the memory image *)

(** The regions of the image that only [write6502] and the initialisation
    write: everything but the ROM buffer and the cache bookkeeping. *)
Definition bus_regions (nsf : nsf_file_t)
  : nsf_header_t * bool * list Z * list Z * list Z * list Z * list Z :=
  let m := nes_memory nsf in
  (header nsf, apu_write_cb nsf, ram m, prg m, apu_regs m, bank_regs m, int_vecs m).

(** What no bus access writes: the header, the callback, the bootstrap
    program and the interrupt vectors. *)
Definition fixed_regions (nsf : nsf_file_t)
  : nsf_header_t * bool * list Z * list Z :=
  (header nsf, apu_write_cb nsf, prg (nes_memory nsf), int_vecs (nes_memory nsf)).

Definition rom_regions (nsf : nsf_file_t) : list Z * list (option Z) :=
  (rom (nes_memory nsf), rom_block (nes_memory nsf)).

(** ** Runs of the core *)

(** A run of the core that stores nothing to the bank registers. *)
Inductive no_bank_write : cpu_run -> Prop :=
  | nbw_done : no_bank_write CpuDone
  | nbw_read address k :
      (forall value, no_bank_write (k value)) ->
      no_bank_write (CpuRead address k)
  | nbw_write address value k :
      ~ (0x5FF8 <= address <= 0x5FFF) ->
      no_bank_write k ->
      no_bank_write (CpuWrite address value k).

(** A run of the core whose stores are bytes. *)
Inductive byte_writes : cpu_run -> Prop :=
  | bw_done : byte_writes CpuDone
  | bw_read address k :
      (forall value, byte_writes (k value)) -> byte_writes (CpuRead address k)
  | bw_write address value k :
      is_byte value -> byte_writes k -> byte_writes (CpuWrite address value k).

(** ** ROM images *)

(** A zeroed 32 KiB buffer with [data] at offset [la - 0x8000]. *)
Definition contiguous_rom (la : Z) (data : list Z) : list Z :=
  replicate (Z.to_nat (la - 0x8000)) 0 ++ data
    ++ replicate (Z.to_nat 32768 - Z.to_nat (la - 0x8000) - length data) 0.

(** The 4096 bytes of bank [bank] as the file format lays them out: bank 0 is
    the first [4096 - padding] body bytes placed at offset [padding]; bank
    [b > 0] is the 4096 bytes at file offset
    [0x80 + (4096 - padding) + 4096 * (b - 1)]; what lies beyond the end of
    the file is zero. *)
Definition bank_image (bytes : list Z) (padding bank : Z) : list Z :=
  if bank =? 0 then
    let data := take (Z.to_nat (4096 - padding)) (drop (Z.to_nat 0x80) bytes) in
    replicate (Z.to_nat padding) 0 ++ data
      ++ replicate (Z.to_nat 4096 - Z.to_nat padding - length data) 0
  else
    let data :=
      take (Z.to_nat 4096)
        (drop (Z.to_nat (0x80 + (4096 - padding) + 4096 * (bank - 1))) bytes) in
    data ++ replicate (Z.to_nat 4096 - length data) 0.

(** The contents of cache slot [s]. *)
Definition slot_bytes (m : nsf_nes_memory_t) (s : Z) : list Z :=
  take (Z.to_nat 4096) (drop (Z.to_nat (s * 4096)) (rom m)).

(** The memory after a bank has been read into slot [s] for the ROM window
    of [reg], up to the LRU update. *)
Definition memory_with_bank (nsf : nsf_file_t) (m : nsf_nes_memory_t)
    (reg bank s : Z) : nsf_nes_memory_t :=
  let padding := Z.land (load_address (header nsf)) 0x0FFF in
  let o := Z.to_nat (s * 4096) in
  {| ram := ram m; prg := prg m; apu_regs := apu_regs m;
     bank_regs := bank_regs m; int_vecs := int_vecs m;
     rom_block := wr_ptr (rom_block m) (u8 (reg - 0x5FF8)) (Some (s * 4096));
     rom_block_bank_id := wr (rom_block_bank_id m) (u8 (reg - 0x5FF8)) bank;
     rom := take o (rom m)
              ++ bank_image (contents (file nsf)) padding bank
              ++ drop (o + Z.to_nat 4096) (rom m);
     rom_bank_id := wr (rom_bank_id m) s bank;
     rom_bank_loaded := wr (wr (rom_bank_loaded m) s 0) s 1;
     rom_bank_use_order := rom_bank_use_order m |}.

(** ** Cache invariants *)

(** The banks held by the loaded slots, in slot order. *)
Fixpoint cached_banks_of (loaded ids : list Z) : list Z :=
  match loaded, ids with
  | l :: loaded', b :: ids' =>
      if l =? 0 then cached_banks_of loaded' ids'
      else b :: cached_banks_of loaded' ids'
  | _, _ => []
  end.

Definition cached_banks (m : nsf_nes_memory_t) : list Z :=
  cached_banks_of (rom_bank_loaded m) (rom_bank_id m).

(** The cache invariants: no bank is cached twice (P1), and the LRU list is
    the cached banks in some order followed by empty entries (P2). *)
Record lru_inv (loaded ids uo : list Z) : Prop := {
  inv_len_id : length ids = 10%nat;
  inv_len_loaded : length loaded = 10%nat;
  inv_len_order : length uo = 10%nat;
  inv_bytes : Forall is_byte ids;
  inv_unique : NoDup (cached_banks_of loaded ids);
  inv_order : exists lru,
      uo = lru ++ replicate (10 - length lru) (-1) /\
      lru ≡ₚ cached_banks_of loaded ids
}.

Definition cache_inv (m : nsf_nes_memory_t) : Prop :=
  lru_inv (rom_bank_loaded m) (rom_bank_id m) (rom_bank_use_order m).

(** While a slot is empty nothing has been evicted, and every ROM window
    that is not null records a cached bank. *)
Record windows_inv (m : nsf_nes_memory_t) : Prop := {
  win_len_block : length (rom_block m) = 8%nat;
  win_len_id : length (rom_block_bank_id m) = 8%nat;
  win_bytes : Forall is_byte (rom_block_bank_id m);
  win_cached :
    (length (cached_banks m) < 10)%nat ->
    forall w, 0 <= w < 8 -> rd_ptr (rom_block m) w <> None ->
              rd (rom_block_bank_id m) w ∈ cached_banks m
}.

(** The invariants of the memory of a bank-switched file. *)
Record memory_inv (m : nsf_nes_memory_t) : Prop := {
  mem_cache : cache_inv m;
  mem_windows : windows_inv m;
  mem_rom : length (rom m) = Z.to_nat 40960
}.

(** The cache invariants of a full cache: every slot holds a bank, no bank
    twice (P1), and the LRU list names exactly the cached banks (P2). *)
Record full_cache (m : nsf_nes_memory_t) : Prop := {
  full_len_id : length (rom_bank_id m) = 10%nat;
  full_len_loaded : length (rom_bank_loaded m) = 10%nat;
  full_len_order : length (rom_bank_use_order m) = 10%nat;
  full_loaded : forall i, 0 <= i < 10 -> rd (rom_bank_loaded m) i <> 0;
  full_bytes : Forall is_byte (rom_bank_id m);
  full_unique : NoDup (rom_bank_id m);
  full_order : rom_bank_use_order m ≡ₚ rom_bank_id m
}.

(** P3 for one memory: every ROM window that is not null points at a slot
    whose bank is the bank recorded for the window. *)
Definition window_consistent (m : nsf_nes_memory_t) : bool :=
  forallb
    (fun i =>
       match rd_ptr (rom_block m) i with
       | None => true
       | Some block =>
           negb (rd (rom_bank_loaded m) (block / 4096) =? 0)
           && (rd (rom_bank_id m) (block / 4096) =? rd (rom_block_bank_id m) i)
       end)
    (seqZ 0 8).

(** ** Sample files *)

Definition le16_bytes (x : Z) : list Z := [Z.land x 0xFF; Z.shiftr x 8].

(** A 128-byte header with empty strings and zero speeds. *)
Definition sample_header (ver songs start load init play : Z)
    (bankswitch : list Z) : list Z :=
  nsf_magic ++ [ver; songs; start]
    ++ le16_bytes load ++ le16_bytes init ++ le16_bytes play
    ++ replicate 96 0 ++ [0; 0] ++ bankswitch ++ [0; 0] ++ [0; 0]
    ++ [0; 0; 0; 0].

(** A body of [n] banks of 4096 bytes where every byte of bank [k] is [k]
    (for a load address that is a multiple of 4096). *)
Definition numbered_banks (n : nat) : list Z :=
  flat_map (fun k => replicate (Z.to_nat 4096) (Z.of_nat k)) (seq 0 n).

(** The instance [nsf_open] registers for a file. *)
Definition opened (bytes : list Z) : nsf_file_t :=
  default zeroed_nsf_file (snd (nsf_open None bytes)).

(** The instance after [nsf_open] and [nsf_playback_init] with a callback. *)
Definition playing (bytes : list Z) (song : Z) (cpu : cpu_run) : nsf_file_t :=
  snd (fst (nsf_playback_init (opened bytes) song true cpu)).

(** Scenario 2 of the specification: load $8000, no bank switching, a body
    of 8192 bytes 0xAB. *)
Definition contiguous_sample : list Z :=
  sample_header 1 2 1 0x8000 0x8000 0x8000 (replicate 8 0)
    ++ replicate (Z.to_nat 8192) 0xAB.

(** A bank-switched file of twelve banks; windows 0..7 start on banks 1..8. *)
Definition banked_sample : list Z :=
  sample_header 1 1 1 0x8000 0x8000 0x8003 [1; 2; 3; 4; 5; 6; 7; 8]
    ++ numbered_banks 12.

(** A file whose load address $7000 lies below the ROM area. *)
Definition low_load_sample : list Z :=
  sample_header 1 1 1 0x7000 0x7000 0x7003 (replicate 8 0) ++ replicate 16 0xEA.

(** A bank-switched file loaded at $8123 (padding $123) with a body of 10000
    bytes, byte [i] being [i mod 251]: bank 2 starts at body offset 7901 and
    the file ends 2099 bytes into it. *)
Definition padded_sample : list Z :=
  sample_header 1 1 1 0x8123 0x8123 0x8126 [0; 1; 0; 0; 0; 0; 0; 0]
    ++ map (fun i => i mod 251) (seqZ 0 10000).

(** The core stores 9, then 10 to $5FFF: with the eight initial banks the
    ten slots are all occupied. *)
Definition fill_cache : cpu_run :=
  CpuWrite 0x5FFF 9 (CpuWrite 0x5FFF 10 CpuDone).

(** The core stores 9, 10 and 11 to $5FFF.  The third store finds the cache
    full and evicts bank 1 from slot 0, which ROM window 0 still maps. *)
Definition evict_mapped_bank : cpu_run :=
  CpuWrite 0x5FFF 9 (CpuWrite 0x5FFF 10 (CpuWrite 0x5FFF 11 CpuDone)).

(** * Further functions and vocabulary *)

(** ** Header fields *)

(** The C string held in a byte array: the bytes before the first NUL. *)
Fixpoint cstr (a : list Z) : list Z :=
  match a with
  | [] => []
  | c :: a' => if c =? 0 then [] else c :: cstr a'
  end.

(** Every field of a header within the range of its C type. *)
Record header_in_range (h : nsf_header_t) : Prop := {
  hr_version : is_byte (version h);
  hr_total_songs : is_byte (total_songs h);
  hr_starting_song : is_byte (starting_song h);
  hr_load : 0 <= load_address h < 65536;
  hr_init : 0 <= init_address h < 65536;
  hr_play : 0 <= play_address h < 65536;
  hr_name : length (name h) = 32%nat /\ Forall is_byte (name h);
  hr_artist : length (artist h) = 32%nat /\ Forall is_byte (artist h);
  hr_copyright : length (copyright h) = 32%nat /\ Forall is_byte (copyright h);
  hr_speed_ntsc : 0 <= play_speed_ntsc h < 65536;
  hr_speed_pal : 0 <= play_speed_pal h < 65536;
  hr_bankswitch :
    length (bankswitch_init h) = 8%nat /\ Forall is_byte (bankswitch_init h);
  hr_pal_ntsc : is_byte (pal_ntsc_bits h);
  hr_chips : is_byte (extra_sound_chips h);
  hr_extra : length (extra h) = 4%nat /\ Forall is_byte (extra h)
}.

(** A 32-byte string field as stored in a header: the C string of the field
    cut to 31 characters, then NULs. *)
Definition c_string_field (field : list Z) : list Z :=
  let s := take 31 (cstr field) in
  s ++ replicate (32 - length s) 0.

(** The header the parser builds from the 128 bytes [buf]. *)
Definition header_of_bytes (buf : list Z) : nsf_header_t :=
  {| version := rd buf 5;
     total_songs := rd buf 6;
     starting_song := rd buf 7;
     load_address := le16 buf 8;
     init_address := le16 buf 10;
     play_address := le16 buf 12;
     name := wr (strncpy (drop 14 buf) 32) 31 0;
     artist := wr (strncpy (drop 46 buf) 32) 31 0;
     copyright := wr (strncpy (drop 78 buf) 32) 31 0;
     play_speed_ntsc := le16 buf 110;
     bankswitch_init := take 8 (drop 112 buf);
     play_speed_pal := le16 buf 120;
     pal_ntsc_bits := rd buf 122;
     extra_sound_chips := rd buf 123;
     extra := take 4 (drop 124 buf) |}.

(** A header whose title has no terminator within its 32 bytes and whose
    artist is "BC". *)
Definition titled_sample : list Z :=
  nsf_magic ++ [1; 1; 1]
    ++ le16_bytes 0x8000 ++ le16_bytes 0x8000 ++ le16_bytes 0x8003
    ++ replicate 32 0x41
    ++ [0x42; 0x43] ++ replicate 30 0
    ++ replicate 32 0
    ++ replicate 18 0.

(** ** Reading a header from a named file *)

(** [nsf_read_header]: [fs] gives the contents of the files that
    [fopen (filename, "rb")] can open; [filename] and [hdr] are the two
    pointer arguments, [None] for a null pointer.  The result is the error
    code and the object behind [hdr]. *)
Definition nsf_read_header {path : Type} (fs : path -> option (list Z))
    (filename : option path) (hdr : option nsf_header_t)
  : esp_err_t * option nsf_header_t :=
  match filename, hdr with
  | Some filename, Some h =>
      match fs filename with
      | None => (ESP_FAIL, hdr)
      | Some bytes =>
          let '(ret, _, h) := nsf_read_header_impl (fopen bytes) h in
          (ret, Some h)
      end
  | _, _ => (ESP_ERR_INVALID_ARG, hdr)
  end.

(** ** Playing a frame *)

(** [nsf_playback_frame].  The function does not use its argument; the core
    reaches the memory through the bus callbacks, which act on [active].
    [pc] is what [get6502_pc ()] returns on entry and [cpu] is the run of the
    core from there until the program counter is $1007 again. *)
Definition nsf_playback_frame (active : option nsf_file_t) (pc : Z)
    (cpu : cpu_run) : esp_err_t * option nsf_file_t * list bus_event :=
  if negb (pc =? 0x1007) then (ESP_ERR_INVALID_STATE, active, [])
  else
    let '(active, evs) := run_cpu cpu active in
    (ESP_OK, active, evs).

(** ** Events of the bus *)

(** What the bus may hand to the outside: the APU callback, when one is
    installed, for a register of $4000-$4017 other than $4016; a bank load
    for a bank register. *)
Definition bus_event_ok (cb : bool) (e : bus_event) : Prop :=
  match e with
  | ApuWriteCb address _ =>
      cb = true /\ 0x4000 <= address <= 0x4017 /\ address <> 0x4016
  | BankLoad reg _ => 0x5FF8 <= reg <= 0x5FFF
  end.

(** ** Bank images and window consistency *)

(** Every occupied slot holds the image of the bank recorded for it. *)
Definition image_inv (nsf : nsf_file_t) : Prop :=
  let m := nes_memory nsf in
  let padding := Z.land (load_address (header nsf)) 0x0FFF in
  forall s, 0 <= s < 10 -> rd (rom_bank_loaded m) s <> 0 ->
    slot_bytes m s
    = bank_image (contents (file nsf)) padding (rd (rom_bank_id m) s).

(** P3 for all windows: every ROM window that is not null points at the start
    of an occupied slot, and that slot holds the bank recorded for the
    window. *)
Definition windows_consistent (m : nsf_nes_memory_t) : Prop :=
  forall w block, 0 <= w < 8 -> rd_ptr (rom_block m) w = Some block ->
    exists s, 0 <= s < 10 /\ block = s * 4096 /\
      rd (rom_bank_loaded m) s <> 0 /\
      rd (rom_bank_id m) s = rd (rom_block_bank_id m) w.

(** What only a bank load can change once playback is initialised: the
    header, the file contents, the bank registers, the ROM windows, the ROM
    buffer and the slot tables. *)
Definition switched_state (nsf : nsf_file_t)
  : nsf_header_t * list Z * list Z * list (option Z) * list Z * list Z
    * list Z * list Z :=
  let m := nes_memory nsf in
  (header nsf, contents (file nsf), bank_regs m, rom_block m,
   rom_block_bank_id m, rom m, rom_bank_id m, rom_bank_loaded m).

(** An executable form of [windows_consistent]. *)
Definition windows_consistentb (m : nsf_nes_memory_t) : bool :=
  forallb
    (fun w =>
       match rd_ptr (rom_block m) w with
       | None => true
       | Some block =>
           let s := block / 4096 in
           (0 <=? s) && (s <? 10) && (block =? s * 4096)
           && negb (rd (rom_bank_loaded m) s =? 0)
           && (rd (rom_bank_id m) s =? rd (rom_block_bank_id m) w)
       end)
    (seqZ 0 8).

(** The core stores 9, then 0 to $5FFF: the ten slots are occupied and
    window 7 records bank 0. *)
Definition fill_cache_bank0 : cpu_run :=
  CpuWrite 0x5FFF 9 (CpuWrite 0x5FFF 0 CpuDone).

(** ** Reading and logging the header of an instance *)

(** [nsf_get_header] returns the address of the header inside the instance;
    here, the header. *)
Definition nsf_get_header (nsf : nsf_file_t) : nsf_header_t := header nsf.

(** What [nsf_log_header_fields] prints for the PAL/NTSC bits. *)
Inductive tv_system : Type := TvInvalid | TvDual | TvPal | TvNtsc.

(** The names [nsf_log_header_fields] prints for the extra sound chips. *)
Inductive sound_chip : Type :=
  | VRC6 | VRC7 | FDS | MMC5 | Nameco_163 | Sunsoft_5B | ChipError.

(** The lines [nsf_log_header_fields] hands to [ESP_LOGI], one constructor
    for each format with its arguments; a [%s] argument is the C string in
    the array. *)
Inductive log_line : Type :=
  | LogTitle
  | LogRule
  | LogVersion (v : Z)
  | LogTotalSongs (n : Z)
  | LogStartingSong (n : Z)
  | LogLoadAddress (a : Z)
  | LogInitAddress (a : Z)
  | LogPlayAddress (a : Z)
  | LogName (s : list Z)
  | LogArtist (s : list Z)
  | LogCopyright (s : list Z)
  | LogPlaySpeedNtsc (ticks : Z)
  | LogPlaySpeedPal (ticks : Z)
  | LogBankswitch (banks : list Z)
  | LogTvSystem (t : tv_system)
  | LogChipsTitle
  | LogChip (c : sound_chip)
  | LogExtra (bytes : list Z).

Global Instance tv_system_eq_dec : EqDecision tv_system.
Proof. solve_decision. Defined.

Global Instance sound_chip_eq_dec : EqDecision sound_chip.
Proof. solve_decision. Defined.

Definition log_pal_ntsc (bits : Z) : tv_system :=
  if negb (Z.land bits 0xFC =? 0) then TvInvalid
  else if Z.land bits 0x02 =? 0x02 then TvDual
  else if Z.land bits 0x01 =? 0x01 then TvPal
  else TvNtsc.

Definition log_sound_chips (bits : Z) : list sound_chip :=
  (if Z.land bits 0x01 =? 0x01 then [VRC6] else [])
  ++ (if Z.land bits 0x02 =? 0x02 then [VRC7] else [])
  ++ (if Z.land bits 0x04 =? 0x04 then [FDS] else [])
  ++ (if Z.land bits 0x08 =? 0x08 then [MMC5] else [])
  ++ (if Z.land bits 0x10 =? 0x10 then [Nameco_163] else [])
  ++ (if Z.land bits 0x20 =? 0x20 then [Sunsoft_5B] else [])
  ++ (if negb (Z.land bits 0xC0 =? 0) then [ChipError] else []).

Definition nsf_log_header_fields (nsf : nsf_file_t) : list log_line :=
  let h := header nsf in
  [ LogTitle; LogRule;
    LogVersion (version h);
    LogTotalSongs (total_songs h);
    LogStartingSong (starting_song h);
    LogLoadAddress (load_address h);
    LogInitAddress (init_address h);
    LogPlayAddress (play_address h);
    LogName (cstr (name h));
    LogArtist (cstr (artist h));
    LogCopyright (cstr (copyright h));
    LogPlaySpeedNtsc (play_speed_ntsc h);
    LogPlaySpeedPal (play_speed_pal h);
    LogBankswitch (map (rd (bankswitch_init h)) (seqZ 0 8));
    LogTvSystem (log_pal_ntsc (pal_ntsc_bits h));
    LogChipsTitle ]
  ++ map LogChip (log_sound_chips (extra_sound_chips h))
  ++ [ LogExtra (map (rd (extra h)) (seqZ 0 4)) ].

(** What the decoders of [nsf_log_header_fields] are to yield on a byte. *)
Definition log_decoders_check (b : Z) : bool :=
  Bool.eqb (bool_decide (log_pal_ntsc b = TvNtsc)) (b =? 0)
  && Bool.eqb (bool_decide (log_pal_ntsc b = TvPal)) (b =? 1)
  && Bool.eqb (bool_decide (log_pal_ntsc b = TvDual)) ((2 <=? b) && (b <=? 3))
  && Bool.eqb (bool_decide (log_pal_ntsc b = TvInvalid)) (4 <=? b)
  && bool_decide
       (log_sound_chips b
        = List.filter
            (fun c => match c with
                      | VRC6 => Z.testbit b 0 | VRC7 => Z.testbit b 1
                      | FDS => Z.testbit b 2 | MMC5 => Z.testbit b 3
                      | Nameco_163 => Z.testbit b 4
                      | Sunsoft_5B => Z.testbit b 5
                      | ChipError => 64 <=? b
                      end)
            [VRC6; VRC7; FDS; MMC5; Nameco_163; Sunsoft_5B; ChipError]).

(** ** Field reduction *)

Ltac mem_fields :=
  cbn [nes_memory set_nes_memory set_ram set_apu_regs set_bank_regs
       ram prg apu_regs bank_regs int_vecs rom_block rom_block_bank_id rom
       rom_bank_id rom_bank_loaded rom_bank_use_order fst snd].

Ltac cache_fields :=
  cbn [nes_memory file header apu_write_cb set_file set_nes_memory
       mark_rom_bank_used memory_with_bank
       set_rom_block set_rom_block_bank_id set_rom_bank_use_order
       ram prg apu_regs bank_regs int_vecs rom_block rom_block_bank_id rom
       rom_bank_id rom_bank_loaded rom_bank_use_order].

(** * Properties *)

(** ** Records and arrays *)

Lemma nes_memory_ext m1 m2 :
  ram m1 = ram m2 -> prg m1 = prg m2 -> apu_regs m1 = apu_regs m2 ->
  bank_regs m1 = bank_regs m2 -> int_vecs m1 = int_vecs m2 ->
  rom_block m1 = rom_block m2 ->
  rom_block_bank_id m1 = rom_block_bank_id m2 ->
  rom m1 = rom m2 -> rom_bank_id m1 = rom_bank_id m2 ->
  rom_bank_loaded m1 = rom_bank_loaded m2 ->
  rom_bank_use_order m1 = rom_bank_use_order m2 ->
  m1 = m2.
Proof. destruct m1, m2. simpl. congruence. Qed.

Lemma length_wr a i v : length (wr a i v) = length a.
Proof. apply length_insert. Qed.

Lemma rd_wr_eq a i v : (Z.to_nat i < length a)%nat -> rd (wr a i v) i = v.
Proof. intros H. unfold rd, wr. by rewrite list_lookup_insert_eq. Qed.

Lemma rd_wr_ne a i j v : Z.to_nat i <> Z.to_nat j -> rd (wr a i v) j = rd a j.
Proof. intros H. unfold rd, wr. by rewrite list_lookup_insert_ne. Qed.

Lemma rd_replicate n v i : 0 <= i < Z.of_nat n -> rd (replicate n v) i = v.
Proof.
  intros H. unfold rd.
  rewrite (lookup_replicate_2 n v (Z.to_nat i)); [done | lia].
Qed.

Lemma scan_from_found p i n r :
  scan_from p i n = r -> r <> -1 ->
  i <= r < i + Z.of_nat n /\ p r = true /\ forall k, i <= k < r -> p k = false.
Proof.
  revert i. induction n as [|n IH]; intros i Hs Hr; simpl in Hs; [congruence|].
  destruct (p i) eqn:Hp.
  - subst r. repeat split; [lia | lia | done | intros; lia].
  - destruct (IH _ Hs Hr) as (Hb & Hpr & Hlt).
    repeat split; [lia | lia | done |].
    intros k Hk. destruct (decide (k = i)) as [->|]; [done | apply Hlt; lia].
Qed.

Lemma scan_from_none p i n :
  0 <= i -> scan_from p i n = -1 ->
  forall k, i <= k < i + Z.of_nat n -> p k = false.
Proof.
  revert i. induction n as [|n IH]; intros i Hi Hs k Hk; simpl in Hs; [lia|].
  destruct (p i) eqn:Hp; [lia|].
  destruct (decide (k = i)) as [->|]; [done|].
  apply (IH (i + 1)); [lia | done | lia].
Qed.

Lemma scan_from_all_false p i n :
  (forall k, i <= k < i + Z.of_nat n -> p k = false) -> scan_from p i n = -1.
Proof.
  revert i. induction n as [|n IH]; intros i H; simpl; [done|].
  rewrite H by lia. apply IH. intros k Hk. apply H. lia.
Qed.

Lemma scan_from_first p i n r :
  i <= r < i + Z.of_nat n -> p r = true ->
  (forall k, i <= k < r -> p k = false) -> scan_from p i n = r.
Proof.
  revert i. induction n as [|n IH]; intros i Hr Hp Hlt; simpl; [lia|].
  destruct (decide (i = r)) as [->|Hne]; [by rewrite Hp|].
  rewrite Hlt by lia. apply IH; [lia | done | intros; apply Hlt; lia].
Qed.

(** ** What the cache operations leave alone *)

Lemma nsf_load_rom_bank_regions nsf reg bank :
  bus_regions (snd (nsf_load_rom_bank nsf reg bank)) = bus_regions nsf.
Proof.
  unfold nsf_load_rom_bank, load_bank_into_slot, evict_oldest_bank.
  repeat case_match; simplify_eq; done.
Qed.

(** ** The bus without an active instance *)

Lemma run_cpu_inactive cpu : run_cpu cpu None = (None, []).
Proof.
  induction cpu as [|address k IH|address value k IH]; simpl; [done | apply IH |].
  by rewrite IH.
Qed.

(** C10: with no active NSF instance ([active_nsf_file] null) [read6502]
    returns 0 at every address, and [write6502] at every address and value
    changes nothing, calls no callback and loads no bank. *)
Theorem C10_inactive_bus_noop (address value : Z) :
  read6502 None address = (0, None) /\
  write6502 None address value = (None, []).
Proof. split; reflexivity. Qed.

(** ** APU writes *)

(** C4: with a callback installed, a write to $4016 stores the value in the
    APU shadow and calls nothing; a write to any other address of
    $4000-$4017 stores the value and calls the callback exactly once, with
    the written address and value. *)
Theorem C4_apu_write_masking (nsf : nsf_file_t) (address value : Z) :
  apu_write_cb nsf = true ->
  length (apu_regs (nes_memory nsf)) = 24%nat ->
  0x4000 <= address <= 0x4017 ->
  let m := nes_memory nsf in
  let nsf' := set_nes_memory
                (set_apu_regs (wr (apu_regs m) (address - 0x4000) value) m) nsf in
  write6502 (Some nsf) address value
    = (Some nsf', if address =? 0x4016 then [] else [ApuWriteCb address value])
  /\ rd (apu_regs (nes_memory nsf')) (address - 0x4000) = value
  /\ read6502 (Some nsf') address = (value, Some nsf').
Proof.
  intros Hcb Hlen Ha m nsf'.
  assert (Hrd : rd (apu_regs (nes_memory nsf')) (address - 0x4000) = value).
  { simpl. apply rd_wr_eq. unfold m. lia. }
  split; [|split; [exact Hrd|]].
  - unfold write6502.
    replace (address <=? 0x07FF) with false by lia.
    replace ((0x4000 <=? address) && (address <=? 0x4017)) with true by lia.
    fold m. fold nsf'.
    replace (apu_write_cb nsf') with true by (symmetry; exact Hcb).
    by destruct (address =? 0x4016).
  - unfold read6502.
    replace (address <=? 0x07FF) with false by lia.
    replace ((0x1000 <=? address) && (address <=? 0x107F)) with false by lia.
    replace ((0x4000 <=? address) && (address <=? 0x4017)) with true by lia.
    by rewrite Hrd.
Qed.

Lemma C4_apu_write_masking_witness :
  let nsf := playing contiguous_sample 0 CpuDone in
  apu_write_cb nsf = true /\
  write6502 (Some nsf) 0x4015 0x0F
    = (Some (set_nes_memory
               (set_apu_regs (wr (apu_regs (nes_memory nsf)) 0x15 0x0F)
                  (nes_memory nsf)) nsf),
       [ApuWriteCb 0x4015 0x0F]).
Proof.
  intros nsf. split; [reflexivity|].
  apply (C4_apu_write_masking nsf 0x4015 0x0F);
    [reflexivity | reflexivity | lia].
Defined.

(** ** Rejected loads *)

(** C9, as stated, fails: a ROM load with a load address below $8000 is
    rejected with [ESP_FAIL], not with [ESP_ERR_INVALID_ARG]. *)
Lemma C9_low_load_address_not_invalid_arg :
  let nsf := opened low_load_sample in
  load_address (header nsf) < 0x8000 /\
  fst (nsf_init_load_nes_rom nsf) <> ESP_ERR_INVALID_ARG /\
  fst (fst (nsf_playback_init nsf 0 true CpuDone)) = ESP_FAIL.
Proof. vm_compute. repeat split; congruence. Qed.

(** C9 (amended): a bank load with a register outside $5FF8-$5FFF fails with
    [ESP_ERR_INVALID_ARG], a ROM load with a load address below $8000 fails
    with [ESP_FAIL], and either leaves the instance as it was. *)
Theorem C9_rejected_loads (nsf : nsf_file_t) (reg bank : Z) :
  (reg < 0x5FF8 \/ 0x5FFF < reg ->
   nsf_load_rom_bank nsf reg bank = (ESP_ERR_INVALID_ARG, nsf)) /\
  (load_address (header nsf) < 0x8000 ->
   nsf_init_load_nes_rom nsf = (ESP_FAIL, nsf)).
Proof.
  split; intros H.
  - unfold nsf_load_rom_bank.
    by replace ((reg <? 0x5FF8) || (reg >? 0x5FFF)) with true by lia.
  - unfold nsf_init_load_nes_rom.
    by replace (load_address (header nsf) <? 0x8000) with true by lia.
Qed.

Lemma C9_rejected_loads_witness :
  let nsf := opened low_load_sample in
  (0x6000 < 0x5FF8 \/ 0x5FFF < 0x6000) /\
  load_address (header nsf) < 0x8000 /\
  nsf_load_rom_bank nsf 0x6000 3 = (ESP_ERR_INVALID_ARG, nsf) /\
  nsf_init_load_nes_rom nsf = (ESP_FAIL, nsf).
Proof.
  intros nsf.
  assert (H1 : 0x6000 < 0x5FF8 \/ 0x5FFF < 0x6000) by (right; lia).
  assert (H2 : load_address (header nsf) < 0x8000) by (vm_compute; reflexivity).
  split; [exact H1|]. split; [exact H2|]. split.
  - exact (proj1 (C9_rejected_loads nsf 0x6000 3) H1).
  - exact (proj2 (C9_rejected_loads nsf 0x6000 3) H2).
Defined.

(** ** Bank registers *)

Lemma nsf_load_rom_bank_bank_regs nsf reg bank :
  bank_regs (nes_memory (snd (nsf_load_rom_bank nsf reg bank)))
  = bank_regs (nes_memory nsf).
Proof.
  pose proof (nsf_load_rom_bank_regions nsf reg bank) as H.
  unfold bus_regions in H. by simplify_eq.
Qed.

(** C3, as stated, fails: right after [nsf_playback_init] the bank registers
    are zero, and writing 0 to $5FF8 twice loads no bank at all. *)
Lemma C3_same_value_as_shadow_loads_nothing :
  let nsf := playing banked_sample 0 CpuDone in
  let '(s1, e1) := write6502 (Some nsf) 0x5FF8 0 in
  let '(s2, e2) := write6502 s1 0x5FF8 0 in
  bank_loads (e1 ++ e2) <> 1%nat.
Proof. vm_compute. congruence. Qed.

(** C3 (amended): writing [v] twice in succession to bank register $5FF8+i
    loads a bank exactly once, on the first write, when the register held a
    value other than [v], and never when it already held [v]; the second
    write changes nothing. *)
Theorem C3_bank_register_rewrite (nsf : nsf_file_t) (i v : Z) :
  length (bank_regs (nes_memory nsf)) = 8%nat ->
  0 <= i <= 7 ->
  let '(s1, e1) := write6502 (Some nsf) (0x5FF8 + i) v in
  let '(s2, e2) := write6502 s1 (0x5FF8 + i) v in
  e1 = (if rd (bank_regs (nes_memory nsf)) i =? v then []
        else [BankLoad (0x5FF8 + i) v]) /\
  e2 = [] /\ s2 = s1 /\
  bank_loads (e1 ++ e2)
  = if rd (bank_regs (nes_memory nsf)) i =? v then 0%nat else 1%nat.
Proof.
  intros Hlen Hi.
  assert (Hsel : forall s, write6502 (Some s) (0x5FF8 + i) v =
    if negb (rd (bank_regs (nes_memory s)) i =? v) then
      (Some (snd (nsf_load_rom_bank
                    (set_nes_memory
                       (set_bank_regs (wr (bank_regs (nes_memory s)) i v)
                          (nes_memory s)) s)
                    (0x5FF8 + i) v)),
       [BankLoad (0x5FF8 + i) v])
    else (Some s, [])).
  { intros s. unfold write6502.
    replace (0x5FF8 + i <=? 0x07FF) with false by lia.
    replace ((0x4000 <=? 0x5FF8 + i) && (0x5FF8 + i <=? 0x4017)) with false by lia.
    replace ((0x5FF8 <=? 0x5FF8 + i) && (0x5FF8 + i <=? 0x5FFF)) with true by lia.
    by replace (0x5FF8 + i - 0x5FF8) with i by lia. }
  rewrite Hsel.
  destruct (rd (bank_regs (nes_memory nsf)) i =? v) eqn:Hv; cbn [negb].
  - rewrite Hsel, Hv. cbn [negb]. done.
  - rewrite Hsel, nsf_load_rom_bank_bank_regs. cbn [nes_memory set_nes_memory
      bank_regs set_bank_regs].
    rewrite rd_wr_eq by lia. rewrite Z.eqb_refl. cbn [negb]. done.
Qed.

Lemma C3_bank_register_rewrite_witness :
  let nsf := playing banked_sample 0 CpuDone in
  length (bank_regs (nes_memory nsf)) = 8%nat /\
  let '(s1, e1) := write6502 (Some nsf) (0x5FF8 + 7) 9 in
  let '(s2, e2) := write6502 s1 (0x5FF8 + 7) 9 in
  e1 = (if rd (bank_regs (nes_memory nsf)) 7 =? 9 then []
        else [BankLoad (0x5FF8 + 7) 9]) /\
  e2 = [] /\ s2 = s1 /\
  bank_loads (e1 ++ e2)
  = if rd (bank_regs (nes_memory nsf)) 7 =? 9 then 0%nat else 1%nat.
Proof.
  intros nsf. split; [reflexivity|].
  apply (C3_bank_register_rewrite nsf 7 9); [reflexivity | lia].
Defined.

(** ** Header parser *)

Lemma rd_is_byte a i : Forall is_byte a -> is_byte (rd a i).
Proof.
  intros H. unfold rd. destruct (a !! Z.to_nat i) as [b|] eqn:Hl; simpl.
  - by eapply Forall_lookup_1.
  - unfold is_byte. lia.
Qed.

Lemma land_low_high lo hi : 0 <= lo < 2 ^ 8 -> Z.land lo (hi * 2 ^ 8) = 0.
Proof.
  intros Hlo. apply Z.bits_inj'. intros n Hn.
  rewrite Z.land_spec, Z.bits_0.
  destruct (decide (n < 8)) as [Hlt|Hge].
  - rewrite Z.mul_pow2_bits_low by lia. apply andb_false_r.
  - rewrite <- (Z.mod_small lo (2 ^ 8)) by lia.
    rewrite Z.mod_pow2_bits_high by lia. done.
Qed.

(** The little-endian value of two bytes. *)
Lemma le16_decode buf n :
  is_byte (rd buf n) -> is_byte (rd buf (n + 1)) ->
  le16 buf n = rd buf n + 256 * rd buf (n + 1).
Proof.
  unfold is_byte, le16, u16. intros Hlo Hhi.
  rewrite Z.shiftl_mul_pow2 by lia.
  rewrite <- Z.lxor_lor by (apply land_low_high; lia).
  rewrite <- Z.add_nocarry_lxor by (apply land_low_high; lia).
  rewrite Z.mod_small; lia.
Qed.

(** C5: the parser reads 128 bytes from offset 0; it fails (-1, [ESP_FAIL])
    and leaves the header alone when fewer are there or when the first five
    differ from "NESM\x1A"; otherwise it succeeds and the three addresses and
    the two play speeds are the little-endian values of their byte pairs.  On
    the buffer [4E 45 53 4D 1A 01 02 01 00 80 00 80 00 80] padded with zeros
    to 128 bytes it yields version 1, 2 songs, starting song 1 and load, init
    and play address $8000. *)
Theorem C5_header_parsing :
  (forall (bytes : list Z) (hdr : nsf_header_t),
     Forall is_byte bytes ->
     let '(ret, f, h) := nsf_read_header_impl (fopen bytes) hdr in
     fpos f = Z.min 128 (Z.of_nat (length bytes)) /\
     ((length bytes < 128)%nat \/ take 5 bytes <> nsf_magic ->
      ret = ESP_FAIL /\ h = hdr) /\
     ((128 <= length bytes)%nat /\ take 5 bytes = nsf_magic ->
      ret = ESP_OK /\
      version h = rd bytes 5 /\
      total_songs h = rd bytes 6 /\
      starting_song h = rd bytes 7 /\
      load_address h = rd bytes 8 + 256 * rd bytes 9 /\
      init_address h = rd bytes 10 + 256 * rd bytes 11 /\
      play_address h = rd bytes 12 + 256 * rd bytes 13 /\
      play_speed_ntsc h = rd bytes 110 + 256 * rd bytes 111 /\
      play_speed_pal h = rd bytes 120 + 256 * rd bytes 121))
  /\
  (let bytes := [0x4E; 0x45; 0x53; 0x4D; 0x1A; 0x01; 0x02; 0x01;
                 0x00; 0x80; 0x00; 0x80; 0x00; 0x80] ++ replicate 114 0 in
   let '(ret, f, h) := nsf_read_header_impl (fopen bytes) (header zeroed_nsf_file) in
   length bytes = 128%nat /\ ret = ESP_OK /\
   version h = 1 /\ total_songs h = 2 /\ starting_song h = 1 /\
   load_address h = 0x8000 /\ init_address h = 0x8000 /\
   play_address h = 0x8000).
Proof.
  split; [|vm_compute; repeat split; reflexivity].
  intros bytes hdr Hb.
  unfold nsf_read_header_impl, fread, fopen. cbn [contents fpos feof].
  rewrite drop_0, length_take.
  set (buf := take (Z.to_nat 128) bytes).
  assert (Hrd : forall i, 0 <= i < 128 -> rd buf i = rd bytes i).
  { intros i Hi. unfold rd, buf. rewrite lookup_take_lt; [done | lia]. }
  assert (Hbuf : Forall is_byte buf) by (by apply Forall_take).
  assert (H5 : take 5 buf = take 5 bytes).
  { unfold buf. rewrite take_take. f_equal. }
  destruct (decide (length bytes < 128)%nat) as [Hshort|Hlong].
  - rewrite (proj2 (Z.eqb_neq _ 128)) by lia.
    cbn [negb fpos]. split; [lia|]. split; [done | lia].
  - rewrite (proj2 (Z.eqb_eq _ 128)) by lia.
    cbn [negb]. rewrite H5. case_bool_decide as Hm; cbn [negb fpos].
    + split; [lia|]. split; [intros [?|?]; [lia | done]|].
      intros _. cbn [version total_songs starting_song load_address init_address
        play_address play_speed_ntsc play_speed_pal].
      rewrite !le16_decode by (apply rd_is_byte; done).
      rewrite !Hrd by lia. repeat split; reflexivity.
    + split; [lia|]. split; [done | intros [_ ?]; done].
Qed.

Lemma C5_header_parsing_witness :
  let bytes := sample_header 1 2 1 0x8000 0x8000 0x8000 (replicate 8 0) in
  Forall is_byte bytes /\
  let '(ret, f, h) := nsf_read_header_impl (fopen bytes) (header zeroed_nsf_file) in
  fpos f = Z.min 128 (Z.of_nat (length bytes)).
Proof.
  intros bytes.
  assert (Hb : Forall is_byte bytes).
  { apply (bool_decide_unpack _). vm_compute. exact I. }
  split; [exact Hb|].
  pose proof (proj1 C5_header_parsing bytes (header zeroed_nsf_file) Hb) as H.
  destruct (nsf_read_header_impl (fopen bytes) (header zeroed_nsf_file))
    as [[ret f] h].
  exact (proj1 H).
Defined.

(** ** Bootstrap program and reset vector *)

Lemma bus_regions_fixed nsf nsf' :
  bus_regions nsf' = bus_regions nsf -> fixed_regions nsf' = fixed_regions nsf.
Proof. unfold bus_regions, fixed_regions. intros H. simplify_eq. congruence. Qed.

Lemma read6502_fixed nsf address :
  exists nsf', snd (read6502 (Some nsf) address) = Some nsf' /\
               fixed_regions nsf' = fixed_regions nsf.
Proof.
  unfold read6502. repeat case_match; simpl; eauto.
Qed.

Lemma write6502_fixed nsf address value :
  exists nsf', fst (write6502 (Some nsf) address value) = Some nsf' /\
               fixed_regions nsf' = fixed_regions nsf.
Proof.
  unfold write6502. repeat case_match; simpl; eauto.
  eexists; split; [done|].
  etransitivity; [apply bus_regions_fixed, nsf_load_rom_bank_regions | done].
Qed.

Lemma run_cpu_fixed cpu nsf :
  exists nsf', fst (run_cpu cpu (Some nsf)) = Some nsf' /\
               fixed_regions nsf' = fixed_regions nsf.
Proof.
  revert nsf.
  induction cpu as [|address k IH|address value k IH]; intros nsf; cbn [run_cpu].
  - eauto.
  - destruct (read6502_fixed nsf address) as (nsf1 & H1 & F1).
    destruct (read6502 (Some nsf) address) as [value active]. simpl in *. subst.
    destruct (IH value nsf1) as (nsf2 & H2 & F2).
    exists nsf2. split; [done | congruence].
  - destruct (write6502_fixed nsf address value) as (nsf1 & H1 & F1).
    destruct (write6502 (Some nsf) address value) as [active ev]. simpl in *. subst.
    destruct (IH nsf1) as (nsf2 & H2 & F2).
    destruct (run_cpu k (Some nsf1)) as [active evs]. simpl in *.
    exists nsf2. split; [done | congruence].
Qed.

Lemma nsf_init_load_nes_rom_fixed nsf :
  fixed_regions (snd (nsf_init_load_nes_rom nsf)) = fixed_regions nsf.
Proof. unfold nsf_init_load_nes_rom. repeat case_match; done. Qed.

Lemma load_init_banks_regions n nsf i :
  bus_regions (snd (load_init_banks nsf i n)) = bus_regions nsf.
Proof.
  revert nsf i. induction n as [|n IH]; intros nsf i; simpl; [done|].
  pose proof (nsf_load_rom_bank_regions nsf (0x5FF8 + i)
                (rd (bankswitch_init (header nsf)) i)) as H.
  destruct (nsf_load_rom_bank nsf _ _) as [ret nsf1]. simpl in H.
  case_bool_decide; simpl; [done|]. by rewrite IH.
Qed.

Lemma nsf_init_load_nes_rom_banks_fixed nsf :
  fixed_regions (snd (nsf_init_load_nes_rom_banks nsf)) = fixed_regions nsf.
Proof.
  unfold nsf_init_load_nes_rom_banks.
  apply bus_regions_fixed. by rewrite load_init_banks_regions.
Qed.

Lemma low_byte x : u8 (Z.land x 0x00FF) = x mod 256.
Proof.
  unfold u8. change 0x00FF with (Z.ones 8).
  rewrite Z.land_ones by lia. change (2 ^ 8) with 256.
  apply Z.mod_mod. lia.
Qed.

Lemma high_byte x : u8 (Z.shiftr (Z.land x 0xFF00) 8) = (x / 256) mod 256.
Proof.
  unfold u8. rewrite Z.shiftr_land.
  change (Z.shiftr 0xFF00 8) with (Z.ones 8).
  rewrite Z.land_ones, Z.shiftr_div_pow2 by lia. change (2 ^ 8) with 256.
  apply Z.mod_mod. lia.
Qed.

(** C8: after [nsf_playback_init] (which passes 0 for pal_ntsc), whatever the
    core did on the bus, the bootstrap region holds
    [A9 song, A2 00, 20 init_lo init_hi, 20 play_lo play_hi, 4C 07 10,
     EA EA EA EA] and zeros after that, so the JSR to the play address sits at
    $1007, which is also the target of the JMP; the vectors hold $1000
    little-endian at $FFFC-$FFFD. *)
Theorem C8_trampoline_layout (nsf : nsf_file_t) (song : Z) (cb : bool)
    (cpu : cpu_run) :
  let nsf' := snd (fst (nsf_playback_init nsf song cb cpu)) in
  let init := init_address (header nsf) in
  let play := play_address (header nsf) in
  prg (nes_memory nsf')
  = [0xA9; song; 0xA2; 0;
     0x20; init mod 256; (init / 256) mod 256;
     0x20; play mod 256; (play / 256) mod 256;
     0x4C; 0x07; 0x10;
     0xEA; 0xEA; 0xEA; 0xEA] ++ replicate 111 0
  /\ int_vecs (nes_memory nsf') = [0; 0; 0x00; 0x10; 0; 0]
  /\ fst (read6502 (Some nsf') 0x1007) = 0x20
  /\ fst (read6502 (Some nsf') 0x100B) + 256 * fst (read6502 (Some nsf') 0x100C)
     = 0x1007
  /\ fst (read6502 (Some nsf') 0xFFFC) + 256 * fst (read6502 (Some nsf') 0xFFFD)
     = 0x1000.
Proof.
  intros nsf' init play.
  set (nsf0 := nsf_init_nes_prg (nsf_init_nes_memory (set_apu_write_cb cb nsf)) song 0).
  assert (Hfix : fixed_regions nsf' = fixed_regions nsf0).
  { unfold nsf', nsf_playback_init. fold nsf0.
    destruct (nsf_has_bank_switching nsf0).
    - pose proof (nsf_init_load_nes_rom_banks_fixed nsf0) as H.
      destruct (nsf_init_load_nes_rom_banks nsf0) as [ret nsf1]. simpl in H.
      case_bool_decide; [done|].
      destruct (run_cpu_fixed cpu nsf1) as (nsf2 & H2 & F2).
      destruct (run_cpu cpu (Some nsf1)) as [active evs]. simpl in *. subst.
      simpl. congruence.
    - pose proof (nsf_init_load_nes_rom_fixed nsf0) as H.
      destruct (nsf_init_load_nes_rom nsf0) as [ret nsf1]. simpl in H.
      case_bool_decide; [done|].
      destruct (run_cpu_fixed cpu nsf1) as (nsf2 & H2 & F2).
      destruct (run_cpu cpu (Some nsf1)) as [active evs]. simpl in *. subst.
      simpl. congruence. }
  assert (Hprg : prg (nes_memory nsf')
    = [0xA9; song; 0xA2; 0; 0x20; init mod 256; (init / 256) mod 256;
       0x20; play mod 256; (play / 256) mod 256; 0x4C; 0x07; 0x10;
       0xEA; 0xEA; 0xEA; 0xEA] ++ replicate 111 0).
  { transitivity (prg (nes_memory nsf0)).
    - unfold fixed_regions in Hfix. by simplify_eq.
    - unfold nsf0, nsf_init_nes_prg. cbn -[Z.land Z.shiftr u8 Z.modulo Z.div].
      rewrite !low_byte, !high_byte. reflexivity. }
  assert (Hvec : int_vecs (nes_memory nsf') = [0; 0; 0x00; 0x10; 0; 0]).
  { transitivity (int_vecs (nes_memory nsf0)).
    - unfold fixed_regions in Hfix. by simplify_eq.
    - reflexivity. }
  split; [exact Hprg|]. split; [exact Hvec|].
  unfold read6502. cbn -[prg int_vecs nes_memory]. rewrite Hprg, Hvec.
  repeat split; reflexivity.
Qed.

(** ** Contiguous ROM *)

Lemma read6502_rom nsf address :
  exists nsf', snd (read6502 (Some nsf) address) = Some nsf' /\
               rom_regions nsf' = rom_regions nsf.
Proof.
  unfold read6502. repeat case_match; simpl; eauto.
Qed.

Lemma write6502_rom nsf address value :
  ~ (0x5FF8 <= address <= 0x5FFF) ->
  exists nsf', fst (write6502 (Some nsf) address value) = Some nsf' /\
               rom_regions nsf' = rom_regions nsf.
Proof.
  intros Ha. unfold write6502.
  replace ((0x5FF8 <=? address) && (address <=? 0x5FFF)) with false by lia.
  repeat case_match; simpl; eauto.
Qed.

Lemma run_cpu_rom cpu nsf :
  no_bank_write cpu ->
  exists nsf', fst (run_cpu cpu (Some nsf)) = Some nsf' /\
               rom_regions nsf' = rom_regions nsf.
Proof.
  intros Hcpu. revert nsf.
  induction Hcpu as [|address k _ IH|address value k Ha _ IH];
    intros nsf; cbn [run_cpu].
  - eauto.
  - destruct (read6502_rom nsf address) as (nsf1 & H1 & F1).
    destruct (read6502 (Some nsf) address) as [value active]. simpl in *. subst.
    destruct (IH value nsf1) as (nsf2 & H2 & F2).
    exists nsf2. split; [done | congruence].
  - destruct (write6502_rom nsf address value Ha) as (nsf1 & H1 & F1).
    destruct (write6502 (Some nsf) address value) as [active ev]. simpl in *. subst.
    destruct (IH nsf1) as (nsf2 & H2 & F2).
    destruct (run_cpu k (Some nsf1)) as [active evs]. simpl in *.
    exists nsf2. split; [done | congruence].
Qed.

Lemma blit_inside dst off src :
  0 <= off -> (Z.to_nat off + length src <= length dst)%nat ->
  blit dst off src
  = take (Z.to_nat off) dst ++ src ++ drop (Z.to_nat off + length src) dst.
Proof. intros Ho Hl. unfold blit. rewrite (take_ge src) by lia. done. Qed.

(** The ROM window and the offset an address of $8000-$FFFF decodes to. *)
Lemma rom_address_decode a :
  0x8000 <= a <= 0xFFFF ->
  u8 (Z.shiftr (Z.land a 0x7000) 12) = (a - 0x8000) / 4096 /\
  Z.land a 0x0FFF = (a - 0x8000) mod 4096.
Proof.
  intros Ha. split.
  - unfold u8. rewrite Z.shiftr_land.
    change (Z.shiftr 0x7000 12) with (Z.ones 3).
    rewrite Z.land_ones, Z.shiftr_div_pow2 by lia.
    change (2 ^ 3) with 8. change (2 ^ 12) with 4096.
    rewrite (Z.mod_small (_ mod 8) 256)
      by (pose proof (Z.mod_pos_bound (a / 4096) 8); lia).
    replace a with ((a - 0x8000) + 8 * 4096) at 1 by lia.
    rewrite Z.div_add by lia.
    replace ((a - 0x8000) / 4096 + 8) with ((a - 0x8000) / 4096 + 1 * 8) by lia.
    rewrite Z.mod_add by lia. apply Z.mod_small.
    split; [apply Z.div_pos; lia | apply Z.div_lt_upper_bound; lia].
  - change 0x0FFF with (Z.ones 12). rewrite Z.land_ones by lia.
    change (2 ^ 12) with 4096.
    replace a with ((a - 0x8000) + 8 * 4096) at 1 by lia.
    by rewrite Z.mod_add by lia.
Qed.

Lemma nsf_init_load_nes_rom_image nsf :
  0x8000 <= load_address (header nsf) <= 0xFFFF ->
  let la := load_address (header nsf) in
  let data := take (Z.to_nat (0xFFFF - la)) (drop 128 (contents (file nsf))) in
  data <> [] ->
  exists nsf',
    nsf_init_load_nes_rom nsf = (ESP_OK, nsf') /\
    fixed_regions nsf' = fixed_regions nsf /\
    rom (nes_memory nsf') = contiguous_rom la data /\
    rom_block (nes_memory nsf')
    = [Some 0; Some 4096; Some 8192; Some 12288;
       Some 16384; Some 20480; Some 24576; Some 28672].
Proof.
  intros Hla la data Hdata.
  unfold nsf_init_load_nes_rom. fold la.
  replace (la <? 0x8000) with false by lia.
  unfold fseek_set, fread. cbn [Z.ltb Z.compare contents fpos].
  change (Z.to_nat 128) with 128%nat. fold data.
  assert (Hlen : (length data <= Z.to_nat (0xFFFF - la))%nat).
  { unfold data. rewrite length_take. lia. }
  rewrite (proj2 (Z.eqb_neq (Z.of_nat (length data)) 0))
    by (destruct data; [done | simpl; lia]).
  eexists. split; [reflexivity|]. split; [reflexivity|].
  cbn [nes_memory set_file set_nes_memory rom rom_block set_rom set_rom_block].
  split; [|reflexivity].
  rewrite blit_inside by (rewrite ?length_replicate; lia).
  unfold contiguous_rom. rewrite take_replicate, drop_replicate.
  f_equal; [f_equal; lia|]. f_equal. f_equal. lia.
Qed.

(** A read that delivers no byte: the load fails on a zeroed buffer with all
    windows null. *)
Lemma nsf_init_load_nes_rom_empty nsf :
  0x8000 <= load_address (header nsf) <= 0xFFFF ->
  take (Z.to_nat (0xFFFF - load_address (header nsf)))
    (drop 128 (contents (file nsf))) = [] ->
  exists nsf',
    nsf_init_load_nes_rom nsf = (ESP_FAIL, nsf') /\
    fixed_regions nsf' = fixed_regions nsf /\
    rom (nes_memory nsf') = replicate (Z.to_nat 32768) 0 /\
    rom_block (nes_memory nsf') = replicate 8 None.
Proof.
  intros Hla Hdata.
  unfold nsf_init_load_nes_rom.
  replace (load_address (header nsf) <? 0x8000) with false by lia.
  unfold fseek_set, fread. cbn [Z.ltb Z.compare contents fpos].
  change (Z.to_nat 128) with 128%nat. rewrite Hdata.
  cbn [length Z.of_nat Z.eqb].
  eexists. split; [reflexivity|]. split; [reflexivity|].
  cbn [nes_memory set_file set_nes_memory rom rom_block set_rom set_rom_block].
  split; [|reflexivity].
  unfold blit. cbn [length]. rewrite take_nil. cbn [app].
  rewrite Nat.add_0_r. apply take_drop.
Qed.

(** C7, as stated, fails: with a valid header, no bank switching and an empty
    body the read is short (0 bytes), and it is an error: the load fails and
    no ROM window points into the buffer. *)
Lemma C7_empty_body_is_an_error :
  let nsf := opened (sample_header 1 1 1 0x8000 0x8000 0x8003 (replicate 8 0)) in
  bankswitch_init (header nsf) = replicate 8 0 /\
  0x8000 <= load_address (header nsf) /\
  let '(ret, nsf', _) := nsf_playback_init nsf 0 true CpuDone in
  ret <> ESP_OK /\ rom_block (nes_memory nsf') = replicate 8 None.
Proof. vm_compute. repeat split; congruence. Qed.

(** C7 (amended): for a file without bank switching and a load address of at
    least $8000, [nsf_playback_init] takes a zeroed 32 KiB buffer, reads up to
    [0xFFFF - load_address] bytes from file offset 0x080 into it at offset
    [load_address - 0x8000] and points the eight ROM windows at its
    consecutive 4 KiB slices, provided the read delivers at least one byte (a
    shorter read is accepted); as long as the core stores to no bank
    register, buffer and windows stay so and a read of $8000-$FFF9 yields the
    buffer byte at [address - 0x8000].  A read that delivers no byte makes
    [nsf_playback_init] fail with [ESP_FAIL] without running the core and
    leaves the eight windows null, so that a read of $8000-$FFF9 yields 0.
    With load $8000 and a body of 8192 bytes 0xAB the reads of $8000 and
    $9FFF give 0xAB and the read of $A000 gives 0x00. *)
Theorem C7_contiguous_load :
  (forall (nsf : nsf_file_t) (song : Z) (cb : bool) (cpu : cpu_run),
     bankswitch_init (header nsf) = replicate 8 0 ->
     0x8000 <= load_address (header nsf) <= 0xFFFF ->
     let la := load_address (header nsf) in
     let data := take (Z.to_nat (0xFFFF - la)) (drop 128 (contents (file nsf))) in
     data <> [] ->
     no_bank_write cpu ->
     let '(ret, nsf', _) := nsf_playback_init nsf song cb cpu in
     ret = ESP_OK /\
     rom (nes_memory nsf') = contiguous_rom la data /\
     length (rom (nes_memory nsf')) = Z.to_nat 32768 /\
     rom_block (nes_memory nsf')
     = [Some 0; Some 4096; Some 8192; Some 12288;
        Some 16384; Some 20480; Some 24576; Some 28672] /\
     forall a, 0x8000 <= a < 0xFFFA ->
               fst (read6502 (Some nsf') a) = rd (contiguous_rom la data) (a - 0x8000))
  /\
  (forall (nsf : nsf_file_t) (song : Z) (cb : bool) (cpu : cpu_run),
     bankswitch_init (header nsf) = replicate 8 0 ->
     0x8000 <= load_address (header nsf) <= 0xFFFF ->
     let la := load_address (header nsf) in
     take (Z.to_nat (0xFFFF - la)) (drop 128 (contents (file nsf))) = [] ->
     let '(ret, nsf', evs) := nsf_playback_init nsf song cb cpu in
     ret = ESP_FAIL /\
     evs = [] /\
     rom_block (nes_memory nsf') = replicate 8 None /\
     forall a, 0x8000 <= a < 0xFFFA -> fst (read6502 (Some nsf') a) = 0)
  /\
  (let nsf := playing contiguous_sample 0 CpuDone in
   load_address (header nsf) = 0x8000 /\
   bankswitch_init (header nsf) = replicate 8 0 /\
   drop 128 (contents (file nsf)) = replicate (Z.to_nat 8192) 0xAB /\
   fst (read6502 (Some nsf) 0x8000) = 0xAB /\
   fst (read6502 (Some nsf) 0x9FFF) = 0xAB /\
   fst (read6502 (Some nsf) 0xA000) = 0x00).
Proof.
  split; [|split; [|vm_compute; repeat split; reflexivity]].
  - intros nsf song cb cpu Hbs Hla la data Hdata Hcpu.
    unfold nsf_playback_init.
    set (nsf0 := nsf_init_nes_prg (nsf_init_nes_memory (set_apu_write_cb cb nsf)) song 0).
    assert (Hsw : nsf_has_bank_switching nsf0 = false).
    { unfold nsf_has_bank_switching, nsf0. cbn [header nsf_init_nes_prg
        nsf_init_nes_memory set_apu_write_cb set_nes_memory].
      rewrite Hbs. reflexivity. }
    rewrite Hsw.
    destruct (nsf_init_load_nes_rom_image nsf0 Hla Hdata)
      as (nsf1 & -> & _ & Hrom & Hblk).
    case_bool_decide as Hret; [done|].
    destruct (run_cpu_rom cpu nsf1 Hcpu) as (nsf2 & H2 & F2).
    destruct (run_cpu cpu (Some nsf1)) as [active evs]. simpl in H2. subst active.
    cbn [default from_option id].
    unfold rom_regions in F2. injection F2 as Hrom2 Hblk2.
    change (load_address (header nsf0)) with la in Hrom.
    change (contents (file nsf0)) with (contents (file nsf)) in Hrom.
    fold data in Hrom.
    assert (Hlen : (length data <= Z.to_nat (0xFFFF - la))%nat).
    { unfold data. rewrite length_take. lia. }
    split; [done|]. split; [congruence|]. split.
    { rewrite Hrom2, Hrom. unfold contiguous_rom.
      rewrite !length_app, !length_replicate. lia. }
    split; [congruence|].
    intros a Ha. unfold read6502.
    replace (a <=? 0x07FF) with false by lia.
    replace ((0x1000 <=? a) && (a <=? 0x107F)) with false by lia.
    replace ((0x4000 <=? a) && (a <=? 0x4017)) with false by lia.
    replace ((0x5FF8 <=? a) && (a <=? 0x5FFF)) with false by lia.
    replace ((0x8000 <=? a) && (a <? 0xFFFA)) with true by lia.
    destruct (rom_address_decode a) as [-> ->]; [lia|].
    rewrite Hblk2, Hblk, Hrom2, Hrom.
    assert (Hq : 0 <= (a - 0x8000) / 4096 < 8).
    { split; [apply Z.div_pos; lia | apply Z.div_lt_upper_bound; lia]. }
    pose proof (Z.div_mod (a - 0x8000) 4096 ltac:(lia)) as Hdm.
    set (q := (a - 0x8000) / 4096) in *. set (r := (a - 0x8000) mod 4096) in *.
    assert (Hptr : rd_ptr [Some 0; Some 4096; Some 8192; Some 12288;
                           Some 16384; Some 20480; Some 24576; Some 28672] q
                   = Some (q * 4096)).
    { assert (Hcases : q = 0 \/ q = 1 \/ q = 2 \/ q = 3 \/ q = 4 \/ q = 5
                       \/ q = 6 \/ q = 7) by lia.
      destruct Hcases as [->|[->|[->|[->|[->|[->|[->| ->]]]]]]]; reflexivity. }
    rewrite Hptr. cbn [fst]. f_equal. lia.
  - intros nsf song cb cpu Hbs Hla la Hdata.
    unfold nsf_playback_init.
    set (nsf0 := nsf_init_nes_prg (nsf_init_nes_memory (set_apu_write_cb cb nsf))
                   song 0).
    assert (Hsw : nsf_has_bank_switching nsf0 = false).
    { unfold nsf_has_bank_switching, nsf0. cbn [header nsf_init_nes_prg
        nsf_init_nes_memory set_apu_write_cb set_nes_memory].
      rewrite Hbs. reflexivity. }
    rewrite Hsw.
    destruct (nsf_init_load_nes_rom_empty nsf0 Hla Hdata)
      as (nsf1 & -> & _ & _ & Hblk).
    change (bool_decide (ESP_FAIL <> ESP_OK)) with true. cbv iota.
    split; [done|]. split; [done|]. split; [done|].
    intros a Ha. unfold read6502.
    replace (a <=? 0x07FF) with false by lia.
    replace ((0x1000 <=? a) && (a <=? 0x107F)) with false by lia.
    replace ((0x4000 <=? a) && (a <=? 0x4017)) with false by lia.
    replace ((0x5FF8 <=? a) && (a <=? 0x5FFF)) with false by lia.
    replace ((0x8000 <=? a) && (a <? 0xFFFA)) with true by lia.
    destruct (rom_address_decode a) as [-> _]; [lia|].
    assert (Hq : 0 <= (a - 0x8000) / 4096 < 8).
    { split; [apply Z.div_pos; lia | apply Z.div_lt_upper_bound; lia]. }
    rewrite Hblk. unfold rd_ptr.
    rewrite (lookup_replicate_2 8 None); [done | lia].
Qed.

Lemma C7_contiguous_load_witness :
  let nsf := opened contiguous_sample in
  let cpu := CpuRead 0x8000 (fun _ => CpuWrite 0x4015 0x0F CpuDone) in
  bankswitch_init (header nsf) = replicate 8 0 /\
  0x8000 <= load_address (header nsf) <= 0xFFFF /\
  take (Z.to_nat (0xFFFF - load_address (header nsf)))
    (drop 128 (contents (file nsf))) <> [] /\
  no_bank_write cpu /\
  fst (fst (nsf_playback_init nsf 0 true cpu)) = ESP_OK.
Proof.
  intros nsf cpu.
  assert (H1 : bankswitch_init (header nsf) = replicate 8 0)
    by (vm_compute; reflexivity).
  assert (H2 : 0x8000 <= load_address (header nsf) <= 0xFFFF)
    by (vm_compute; split; discriminate).
  assert (H3 : take (Z.to_nat (0xFFFF - load_address (header nsf)))
                 (drop 128 (contents (file nsf))) <> [])
    by (vm_compute; discriminate).
  assert (H4 : no_bank_write cpu).
  { apply nbw_read. intros _. apply nbw_write; [lia | apply nbw_done]. }
  repeat (split; [assumption|]).
  pose proof (proj1 C7_contiguous_load nsf 0 true cpu H1 H2 H3 H4) as H.
  destruct (nsf_playback_init nsf 0 true cpu) as [[ret nsf'] evs].
  exact (proj1 H).
Defined.

(** ** Bank loads *)

Lemma padding_range la : 0 <= Z.land la 0x0FFF < 4096.
Proof.
  change 0x0FFF with (Z.ones 12). rewrite Z.land_ones by lia.
  apply Z.mod_pos_bound. lia.
Qed.

Lemma length_bank_image bytes padding bank :
  0 <= padding < 4096 ->
  length (bank_image bytes padding bank) = Z.to_nat 4096.
Proof.
  intros Hp. unfold bank_image.
  destruct (bank =? 0); cbv zeta;
    rewrite !length_app, !length_replicate, ?length_take; lia.
Qed.

Lemma blit_bzero_slot rom (o p : nat) d :
  (o + Z.to_nat 4096 <= length rom)%nat ->
  (p + length d <= Z.to_nat 4096)%nat ->
  blit (bzero_at rom (Z.of_nat o) 4096) (Z.of_nat (o + p)) d
  = take o rom
      ++ (replicate p 0 ++ d ++ replicate (Z.to_nat 4096 - p - length d) 0)
      ++ drop (o + Z.to_nat 4096) rom.
Proof.
  intros Ho Hp. unfold bzero_at.
  rewrite (blit_inside rom) by (rewrite ?length_replicate; lia).
  rewrite Nat2Z.id, length_replicate.
  set (pre := take o rom). set (post := drop (o + Z.to_nat 4096) rom).
  assert (Hpre : length pre = o) by (unfold pre; rewrite length_take; lia).
  rewrite blit_inside
    by (rewrite ?length_app, ?length_replicate; unfold post;
        rewrite ?length_drop; lia).
  rewrite Nat2Z.id.
  rewrite (take_app_add' pre) by done.
  rewrite take_app_le by (rewrite length_replicate; lia).
  rewrite take_replicate.
  replace (o + p + length d)%nat with (o + (p + length d))%nat by lia.
  rewrite (drop_app_add' pre) by done.
  rewrite drop_app_le by (rewrite length_replicate; lia).
  rewrite drop_replicate.
  replace (p `min` Z.to_nat 4096)%nat with p by lia.
  replace (Z.to_nat 4096 - (p + length d))%nat
    with (Z.to_nat 4096 - p - length d)%nat by lia.
  by rewrite <- !app_assoc.
Qed.

Lemma load_bank_into_slot_ok nsf m reg bank s :
  0 <= s < 10 ->
  length (rom m) = Z.to_nat 40960 ->
  is_byte bank ->
  exists f,
    contents f = contents (file nsf) /\
    load_bank_into_slot nsf m reg bank s
    = (ESP_OK,
       set_file f
         (set_nes_memory
            (mark_rom_bank_used (memory_with_bank nsf m reg bank s) bank) nsf)).
Proof.
  intros Hs Hrom Hbank. unfold is_byte in Hbank.
  unfold load_bank_into_slot.
  pose proof (padding_range (load_address (header nsf))) as Hp.
  set (padding := Z.land (load_address (header nsf)) 0x0FFF) in *.
  set (off := if bank =? 0 then 0x080
              else 0x080 + (4096 - padding) + 4096 * (bank - 1)).
  set (len := if bank =? 0 then 4096 - padding else 4096).
  set (dst := if bank =? 0 then s * 4096 + padding else s * 4096).
  assert (Hoff : 0 <= off) by (unfold off; destruct (bank =? 0) eqn:?; lia).
  assert (Hlen : 0 < len <= 4096) by (unfold len; destruct (bank =? 0); lia).
  unfold fseek_set. replace (off <? 0) with false by lia.
  cbn [Z.ltb Z.compare]. unfold fread. cbn [contents fpos feof].
  set (d := take (Z.to_nat len) (drop (Z.to_nat off) (contents (file nsf)))).
  assert (Hd : (length d <= Z.to_nat len)%nat)
    by (unfold d; rewrite length_take; lia).
  assert (Heof : (Z.of_nat (length d) =? 0)
                 && negb (false || (Z.of_nat (length d) <? len)) = false).
  { destruct (Z.of_nat (length d) =? 0) eqn:E; [|done].
    replace (Z.of_nat (length d) <? len) with true by lia. done. }
  rewrite Heof.
  eexists. split; [|f_equal; f_equal]; [reflexivity|].
  f_equal. f_equal. apply nes_memory_ext; unfold memory_with_bank;
    cbn [ram prg apu_regs bank_regs int_vecs rom_block rom_block_bank_id rom
         rom_bank_id rom_bank_loaded rom_bank_use_order
         set_rom set_rom_bank_loaded set_rom_bank_id set_rom_block
         set_rom_block_bank_id set_rom_bank_use_order]; try reflexivity.
  fold padding. unfold bank_image, dst, d, len, off.
  set (o := Z.to_nat (s * 4096)).
  replace (s * 4096) with (Z.of_nat o) by lia.
  destruct (bank =? 0) eqn:Hb0; cbv zeta.
  - replace (Z.of_nat o + padding) with (Z.of_nat (o + Z.to_nat padding)) by lia.
    rewrite blit_bzero_slot; [done | lia | rewrite length_take; lia].
  - replace (Z.of_nat o) with (Z.of_nat (o + 0)) at 2 by lia.
    rewrite blit_bzero_slot; [|lia | rewrite length_take; lia].
    cbn [replicate app]. by rewrite Nat.sub_0_r.
Qed.

Lemma evict_oldest_bank_err m err :
  evict_oldest_bank m = inl err -> err = ESP_FAIL.
Proof. unfold evict_oldest_bank. repeat case_match; congruence. Qed.

Lemma evict_oldest_bank_slot m s m1 :
  evict_oldest_bank m = inr (s, m1) ->
  0 <= s < 10 /\
  rd (rom_bank_id m) s = rd (rom_bank_use_order m) 9 /\
  rom m1 = rom m /\
  length (rom_block m1) = length (rom_block m) /\
  rom_bank_id m1 = wr (rom_bank_id m) s 0 /\
  rom_bank_loaded m1 = wr (rom_bank_loaded m) s 0 /\
  rom_bank_use_order m1 = wr (rom_bank_use_order m) 9 (-1).
Proof.
  unfold evict_oldest_bank. change (Z.of_nat ROM_BANK_COUNT - 1) with 9.
  set (oldest := rd (rom_bank_use_order m) 9).
  destruct (oldest =? -1); [done|].
  set (s0 := scan_from (fun i => rd (rom_bank_id m) i =? oldest) 0 ROM_BANK_COUNT).
  destruct (s0 =? -1) eqn:Hidx; [done|].
  apply Z.eqb_neq in Hidx.
  destruct (scan_from_found _ _ _ _ eq_refl Hidx) as (Hr & Hp & _).
  cbn beta in Hp. apply Z.eqb_eq in Hp.
  change (Z.of_nat ROM_BANK_COUNT) with 10 in Hr.
  fold s0 in Hr, Hp. clearbody s0.
  case_match; intros [= <- <-];
    cbn [rom rom_block rom_bank_id rom_bank_loaded rom_bank_use_order
         set_rom_bank_use_order set_rom_bank_loaded set_rom_bank_id
         set_rom_block set_rom_block_bank_id];
    repeat split; try done; try lia.
  unfold wr_ptr. by rewrite length_insert.
Qed.

Lemma slot_bytes_memory_with_bank nsf m reg bank s :
  0 <= s < 10 ->
  length (rom m) = Z.to_nat 40960 ->
  slot_bytes (mark_rom_bank_used (memory_with_bank nsf m reg bank s) bank) s
  = bank_image (contents (file nsf))
      (Z.land (load_address (header nsf)) 0x0FFF) bank.
Proof.
  intros Hs Hrom. unfold slot_bytes, mark_rom_bank_used, memory_with_bank.
  cbn [rom set_rom_bank_use_order].
  pose proof (padding_range (load_address (header nsf))) as Hp.
  rewrite drop_app_length' by (rewrite length_take; lia).
  rewrite take_app_length' by (by rewrite length_bank_image).
  done.
Qed.

(** Byte [k] of a bank image, read from the file; [rd] is 0 past the end. *)
Lemma bank_image_byte bytes padding bank k :
  0 <= padding < 4096 -> 0 <= bank -> 0 <= k < 4096 ->
  rd (bank_image bytes padding bank) k
  = if bank =? 0 then
      if k <? padding then 0 else rd bytes (0x80 + (k - padding))
    else rd bytes (0x80 + (4096 - padding) + 4096 * (bank - 1) + k).
Proof.
  intros Hp Hb Hk. unfold bank_image, rd.
  destruct (bank =? 0) eqn:Hb0; cbv zeta.
  - destruct (k <? padding) eqn:Hkp.
    + rewrite lookup_app_l by (rewrite length_replicate; lia).
      rewrite (lookup_replicate_2 _ 0) by lia. done.
    + rewrite lookup_app_r by (rewrite length_replicate; lia).
      rewrite length_replicate.
      set (data := take (Z.to_nat (4096 - padding)) (drop (Z.to_nat 0x80) bytes)).
      destruct (decide (Z.to_nat k - Z.to_nat padding < length data)%nat) as [Hin|Hout].
      * rewrite lookup_app_l by done. unfold data.
        rewrite lookup_take_lt by lia. rewrite lookup_drop.
        do 2 f_equal. lia.
      * rewrite lookup_app_r by lia.
        rewrite (lookup_replicate_2 _ 0)
          by (unfold data in *; rewrite length_take in *; lia).
        unfold data in Hout. rewrite length_take, length_drop in Hout.
        rewrite (lookup_ge_None_2 bytes) by lia. done.
  - set (off := 0x80 + (4096 - padding) + 4096 * (bank - 1)).
    set (data := take (Z.to_nat 4096) (drop (Z.to_nat off) bytes)).
    destruct (decide (Z.to_nat k < length data)%nat) as [Hin|Hout].
    + rewrite lookup_app_l by done. unfold data.
      rewrite lookup_take_lt by lia. rewrite lookup_drop.
      do 2 f_equal. lia.
    + rewrite lookup_app_r by lia.
      rewrite (lookup_replicate_2 _ 0)
        by (unfold data in *; rewrite length_take in *; lia).
      unfold data in Hout. rewrite length_take, length_drop in Hout.
      rewrite (lookup_ge_None_2 bytes) by lia. done.
Qed.

Lemma rd_slot_bytes m s k :
  0 <= s -> 0 <= k < 4096 ->
  rd (slot_bytes m s) k = rd (rom m) (s * 4096 + k).
Proof.
  intros Hs Hk. unfold rd, slot_bytes.
  rewrite lookup_take_lt by lia. rewrite lookup_drop. do 2 f_equal. lia.
Qed.

Lemma memory_with_bank_loaded nsf m reg bank s f :
  0x5FF8 <= reg <= 0x5FFF -> is_byte bank -> 0 <= s < 10 ->
  length (rom m) = Z.to_nat 40960 ->
  length (rom_block m) = 8%nat ->
  let padding := Z.land (load_address (header nsf)) 0x0FFF in
  let nsf' := set_file f (set_nes_memory
                (mark_rom_bank_used (memory_with_bank nsf m reg bank s) bank) nsf) in
  rd_ptr (rom_block (nes_memory nsf')) (reg - 0x5FF8) = Some (s * 4096) /\
  slot_bytes (nes_memory nsf') s = bank_image (contents (file nsf)) padding bank /\
  forall k, 0 <= k < 4096 ->
    rd (rom (nes_memory nsf')) (s * 4096 + k)
    = if bank =? 0 then
        if k <? padding then 0 else rd (contents (file nsf)) (0x80 + (k - padding))
      else rd (contents (file nsf)) (0x80 + (4096 - padding) + 4096 * (bank - 1) + k).
Proof.
  intros Hreg Hbank Hs Hrom Hblk padding nsf'.
  assert (Himg : slot_bytes (nes_memory nsf') s
                 = bank_image (contents (file nsf)) padding bank)
    by (by apply slot_bytes_memory_with_bank).
  split; [|split; [exact Himg|]].
  - cbn [nsf' nes_memory set_file set_nes_memory mark_rom_bank_used
         memory_with_bank rom_block set_rom_bank_use_order].
    unfold rd_ptr, wr_ptr, u8. rewrite Z.mod_small by lia.
    rewrite list_lookup_insert_eq by lia. done.
  - intros k Hk. rewrite <- rd_slot_bytes by lia. rewrite Himg.
    apply bank_image_byte; [apply padding_range | unfold is_byte in Hbank; lia | done].
Qed.

(** C6: a load of a bank that is not in the cache, with
    [padding = load_address & 0x0FFF], either stops on an inconsistent LRU
    list when no slot is empty, or succeeds and leaves in the slot it maps
    the window to exactly the bank image: for [bank > 0] the file bytes from
    offset [0x80 + (4096 - padding) + 4096 * (bank - 1)] at slot offset 0,
    for [bank = 0] the file bytes from offset 0x80 at slot offset [padding],
    up to the end of the slot, and zero wherever the file has ended. *)
Theorem C6_bank_offset_law (nsf : nsf_file_t) (reg bank : Z) :
  0x5FF8 <= reg <= 0x5FFF ->
  is_byte bank ->
  length (rom (nes_memory nsf)) = Z.to_nat 40960 ->
  length (rom_block (nes_memory nsf)) = 8%nat ->
  find_loaded_bank (nes_memory nsf) bank = -1 ->
  let m := nes_memory nsf in
  let padding := Z.land (load_address (header nsf)) 0x0FFF in
  let '(ret, nsf') := nsf_load_rom_bank nsf reg bank in
  (ret = ESP_FAIL /\ nsf' = nsf /\ find_empty_slot m = -1) \/
  (ret = ESP_OK /\
   exists s,
     0 <= s < 10 /\
     (find_empty_slot m <> -1 -> s = find_empty_slot m) /\
     rd_ptr (rom_block (nes_memory nsf')) (reg - 0x5FF8) = Some (s * 4096) /\
     slot_bytes (nes_memory nsf') s
     = bank_image (contents (file nsf)) padding bank /\
     forall k, 0 <= k < 4096 ->
       rd (rom (nes_memory nsf')) (s * 4096 + k)
       = if bank =? 0 then
           if k <? padding then 0
           else rd (contents (file nsf)) (0x80 + (k - padding))
         else rd (contents (file nsf))
                (0x80 + (4096 - padding) + 4096 * (bank - 1) + k)).
Proof.
  intros Hreg Hbank Hrom Hblk Hfind m padding. subst m.
  unfold nsf_load_rom_bank.
  replace ((reg <? 0x5FF8) || (reg >? 0x5FFF)) with false by lia.
  rewrite Hfind. change (negb (-1 =? -1)) with false. cbv iota.
  set (m := nes_memory nsf) in *. clearbody m.
  destruct (find_empty_slot m =? -1) eqn:He.
  - apply Z.eqb_eq in He.
    destruct (evict_oldest_bank m) as [err|[s m1]] eqn:Hev.
    + left. by rewrite (evict_oldest_bank_err _ _ Hev).
    + destruct (evict_oldest_bank_slot _ _ _ Hev)
        as (Hs & _ & Hrom1 & Hblk1 & _).
      destruct (load_bank_into_slot_ok nsf m1 reg bank s Hs) as (f & _ & ->);
        [congruence | done |].
      right. split; [done|]. exists s. split; [done|]. split; [done|].
      apply memory_with_bank_loaded; try done; congruence.
  - apply Z.eqb_neq in He.
    destruct (scan_from_found _ _ _ _ eq_refl He) as (Hs & _).
    fold (find_empty_slot m) in Hs. change (Z.of_nat ROM_BANK_COUNT) with 10 in Hs.
    destruct (load_bank_into_slot_ok nsf m reg bank (find_empty_slot m))
      as (f & _ & ->); [lia | done | done |].
    right. split; [done|]. exists (find_empty_slot m).
    split; [lia|]. split; [done|].
    apply memory_with_bank_loaded; try done; lia.
Qed.

Lemma C6_bank_offset_law_witness :
  let nsf := playing padded_sample 0 CpuDone in
  (0x5FF8 <= 0x5FFB <= 0x5FFF) /\ is_byte 2 /\
  length (rom (nes_memory nsf)) = Z.to_nat 40960 /\
  length (rom_block (nes_memory nsf)) = 8%nat /\
  find_loaded_bank (nes_memory nsf) 2 = -1 /\
  fst (nsf_load_rom_bank nsf 0x5FFB 2) = ESP_OK.
Proof.
  intros nsf.
  assert (H1 : 0x5FF8 <= 0x5FFB <= 0x5FFF) by lia.
  assert (H2 : is_byte 2) by (unfold is_byte; lia).
  assert (H3 : length (rom (nes_memory nsf)) = Z.to_nat 40960)
    by (apply Nat2Z.inj; rewrite Z2Nat.id by lia; vm_compute; reflexivity).
  assert (H4 : length (rom_block (nes_memory nsf)) = 8%nat)
    by (vm_compute; reflexivity).
  assert (H5 : find_loaded_bank (nes_memory nsf) 2 = -1)
    by (vm_compute; reflexivity).
  repeat (split; [assumption|]).
  pose proof (C6_bank_offset_law nsf 0x5FFB 2 H1 H2 H3 H4 H5) as H.
  cbv zeta in H.
  destruct (nsf_load_rom_bank nsf 0x5FFB 2) as [ret nsf'].
  destruct H as [(_ & _ & He)|(H & _)]; [|exact H].
  exfalso. revert He. vm_compute. discriminate.
Defined.

(** ** LRU list *)

Lemma rd_lookup a i :
  (Z.to_nat i < length a)%nat -> a !! Z.to_nat i = Some (rd a i).
Proof.
  intros H. unfold rd.
  destruct (lookup_lt_is_Some_2 a (Z.to_nat i) H) as [x ->]. done.
Qed.

Lemma rd_elem_of a i : (Z.to_nat i < length a)%nat -> rd a i ∈ a.
Proof. intros H. eapply list_elem_of_lookup_2, rd_lookup, H. Qed.

Lemma shift_use_order_spec j uo :
  (j < length uo)%nat ->
  shift_use_order uo j = take 1 uo ++ take j uo ++ drop (S j) uo.
Proof.
  revert uo. induction j as [|j IH]; intros uo Hj.
  - by destruct uo.
  - cbn [shift_use_order]. unfold wr. rewrite Nat2Z.id.
    pose proof (rd_lookup uo (Z.of_nat j)) as Hx. rewrite Nat2Z.id in Hx.
    specialize (Hx ltac:(lia)).
    set (x := rd uo (Z.of_nat j)) in *.
    rewrite IH by (rewrite length_insert; lia).
    rewrite !take_insert_ge by lia.
    rewrite drop_insert_ge by lia. rewrite Nat.sub_diag.
    destruct (lookup_lt_is_Some_2 uo (S j) Hj) as [y Hy].
    rewrite (drop_S uo y (S j) Hy). cbn [insert list_insert].
    rewrite (take_S_r uo j x Hx). by rewrite <- app_assoc.
Qed.

(** Marking a bank that is not in the list, when the tail is empty, inserts
    it at the head and drops the empty tail. *)
Lemma mark_use_order_insert uo bank :
  length uo = 10%nat -> bank ∉ uo -> rd uo 9 = -1 ->
  mark_use_order uo bank = bank :: take 9 uo.
Proof.
  intros Hlen Hnew Htail. unfold mark_use_order.
  assert (Hne : forall k, 0 <= k < 10 -> (rd uo k =? bank) = false).
  { intros k Hk. apply Z.eqb_neq. intros <-. apply Hnew, rd_elem_of. lia. }
  rewrite (Hne 0) by lia.
  rewrite scan_from_all_false
    by (intros k Hk; apply Hne; unfold ROM_BANK_COUNT in Hk; lia).
  change (negb (-1 =? -1)) with false. cbv iota.
  change (Z.of_nat ROM_BANK_COUNT - 1) with 9. rewrite Htail.
  change (negb (-1 =? -1)) with false. cbv iota.
  change (ROM_BANK_COUNT - 1)%nat with 9%nat.
  rewrite shift_use_order_spec by lia.
  destruct uo as [|x uo]; [done|].
  rewrite (drop_ge (x :: uo)) by lia. by rewrite app_nil_r.
Qed.

(** ** Cache invariants *)

(** *** Full caches *)

Lemma evict_oldest_bank_ok m :
  let oldest := rd (rom_bank_use_order m) 9 in
  let s := scan_from (fun i => rd (rom_bank_id m) i =? oldest) 0 ROM_BANK_COUNT in
  oldest <> -1 -> s <> -1 ->
  exists m1, evict_oldest_bank m = inr (s, m1).
Proof.
  intros oldest s Ho Hs. unfold evict_oldest_bank.
  change (Z.of_nat ROM_BANK_COUNT - 1) with 9. fold oldest.
  rewrite (proj2 (Z.eqb_neq oldest (-1))) by done. fold s.
  rewrite (proj2 (Z.eqb_neq s (-1))) by done.
  case_match; eauto.
Qed.

Lemma full_cache_oldest m :
  full_cache m ->
  let oldest := rd (rom_bank_use_order m) 9 in
  is_byte oldest /\ oldest ∈ rom_bank_id m /\
  rom_bank_use_order m = take 9 (rom_bank_use_order m) ++ [oldest] /\
  oldest ∉ take 9 (rom_bank_use_order m).
Proof.
  intros [Hli Hll Hlo Hld Hb Hu Ho] oldest.
  assert (Hin : oldest ∈ rom_bank_id m).
  { rewrite <- Ho. apply rd_elem_of. lia. }
  assert (Hsplit : rom_bank_use_order m
                   = take 9 (rom_bank_use_order m) ++ [oldest]).
  { rewrite <- (take_drop 9 (rom_bank_use_order m)) at 1. f_equal.
    assert (Hl : rom_bank_use_order m !! 9%nat = Some oldest)
      by (apply (rd_lookup _ 9); lia).
    rewrite (drop_S _ _ _ Hl). by rewrite drop_ge by lia. }
  split; [by eapply Forall_forall in Hb|]. split; [done|]. split; [done|].
  assert (Hnd : NoDup (rom_bank_use_order m)) by (by rewrite Ho).
  rewrite Hsplit in Hnd. apply NoDup_app in Hnd as (_ & Hdisj & _).
  intros Hin9. apply (Hdisj _ Hin9). constructor.
Qed.

Lemma full_cache_not_cached m bank :
  full_cache m -> bank ∉ rom_bank_id m ->
  find_loaded_bank m bank = -1 /\ find_empty_slot m = -1.
Proof.
  intros [Hli Hll Hlo Hld Hb Hu Ho] Hnew. split.
  - apply scan_from_all_false. intros k Hk. unfold ROM_BANK_COUNT in Hk.
    apply andb_false_iff. right. apply Z.eqb_neq. intros <-.
    apply Hnew, rd_elem_of. lia.
  - apply scan_from_all_false. intros k Hk. unfold ROM_BANK_COUNT in Hk.
    apply Z.eqb_neq, Hld. lia.
Qed.

Lemma full_cache_oldest_slot m :
  full_cache m ->
  let oldest := rd (rom_bank_use_order m) 9 in
  let s := scan_from (fun i => rd (rom_bank_id m) i =? oldest) 0 ROM_BANK_COUNT in
  0 <= s < 10 /\ rd (rom_bank_id m) s = oldest.
Proof.
  intros Hfull oldest s.
  destruct (full_cache_oldest m Hfull) as (_ & Hin & _).
  destruct Hfull as [Hli Hll Hlo Hld Hb Hu Ho].
  apply list_elem_of_lookup_1 in Hin as [j Hj].
  pose proof (lookup_lt_Some _ _ _ Hj) as Hjlt.
  assert (Hs : s <> -1).
  { intros Hnone.
    pose proof (scan_from_none _ 0 ROM_BANK_COUNT ltac:(lia) Hnone
                  (Z.of_nat j) ltac:(unfold ROM_BANK_COUNT; lia)) as Hp.
    cbn beta in Hp. apply Z.eqb_neq in Hp. apply Hp.
    unfold rd. rewrite Nat2Z.id, Hj. done. }
  destruct (scan_from_found _ _ _ _ eq_refl Hs) as (Hr & Hp & _).
  fold s in Hr, Hp. cbn beta in Hp. apply Z.eqb_eq in Hp.
  unfold ROM_BANK_COUNT in Hr. split; [lia | done].
Qed.

(** *** The cached banks *)

Lemma elem_of_cached_banks_of loaded ids b :
  b ∈ cached_banks_of loaded ids <->
  exists i l, loaded !! i = Some l /\ l <> 0 /\ ids !! i = Some b.
Proof.
  revert ids. induction loaded as [|l loaded IH]; intros [|x ids]; simpl.
  - split; [by intros ?%elem_of_nil | by intros (i & ? & ? & _)].
  - split; [by intros ?%elem_of_nil | by intros (i & ? & ? & _)].
  - split; [by intros ?%elem_of_nil | by intros (i & ? & _ & _ & ?)].
  - destruct (l =? 0) eqn:Hl.
    + apply Z.eqb_eq in Hl. rewrite IH. split.
      * intros (i & l' & ? & ? & ?). by exists (S i), l'.
      * intros ([|i] & l' & H1 & H2 & H3); simpl in *; [congruence|].
        by exists i, l'.
    + apply Z.eqb_neq in Hl. rewrite elem_of_cons, IH. split.
      * intros [->|(i & l' & ? & ? & ?)]; [by exists 0%nat, l | by exists (S i), l'].
      * intros ([|i] & l' & H1 & H2 & H3); simpl in *; [left; congruence|].
        right. by exists i, l'.
Qed.

Lemma cached_banks_of_all loaded ids :
  length loaded = length ids -> Forall (fun l => l <> 0) loaded ->
  cached_banks_of loaded ids = ids.
Proof.
  revert ids. induction loaded as [|l loaded IH]; intros [|x ids] Hlen Hall;
    simpl in *; try done.
  apply Forall_cons in Hall as [Hl Hall].
  rewrite (proj2 (Z.eqb_neq l 0)) by done. f_equal. apply IH; [lia | done].
Qed.

Lemma length_cached_banks_of loaded ids :
  (length (cached_banks_of loaded ids) <= length ids)%nat.
Proof.
  revert ids. induction loaded as [|l loaded IH]; intros [|x ids]; simpl; try lia.
  specialize (IH ids). destruct (l =? 0); simpl; lia.
Qed.

(** Filling an empty slot adds the bank. *)
Lemma cached_banks_of_fill loaded ids s l bank :
  loaded !! s = Some 0 -> (s < length ids)%nat -> l <> 0 ->
  cached_banks_of (<[s:=l]> loaded) (<[s:=bank]> ids)
  ≡ₚ bank :: cached_banks_of loaded ids.
Proof.
  revert ids s. induction loaded as [|l0 loaded IH]; intros [|x ids] s Hs Hlt Hl;
    simpl in *; try done; try lia.
  destruct s as [|s]; simpl in *.
  - injection Hs as ->. by rewrite (proj2 (Z.eqb_neq l 0)) by done.
  - destruct (l0 =? 0).
    + apply IH; [done | lia | done].
    + rewrite IH by (done || lia). apply Permutation_swap.
Qed.

(** Emptying a loaded slot removes its bank. *)
Lemma cached_banks_of_empty loaded ids s l b x :
  loaded !! s = Some l -> l <> 0 -> ids !! s = Some b ->
  cached_banks_of loaded ids
  ≡ₚ b :: cached_banks_of (<[s:=0]> loaded) (<[s:=x]> ids).
Proof.
  revert ids s. induction loaded as [|l0 loaded IH]; intros [|y ids] s Hs Hl Hb;
    simpl in *; try done.
  destruct s as [|s]; simpl in *.
  - injection Hs as ->. injection Hb as ->.
    by rewrite (proj2 (Z.eqb_neq l 0)) by done.
  - destruct (l0 =? 0).
    + by apply IH.
    + rewrite (IH ids s) by done. apply Permutation_swap.
Qed.

(** *** The LRU list as a padded list of banks *)

Lemma rotate_use_order uo i bank :
  (i < length uo)%nat ->
  wr (shift_use_order uo i) 0 bank = bank :: take i uo ++ drop (S i) uo.
Proof.
  intros Hi. rewrite shift_use_order_spec by done.
  destruct uo as [|x uo]; [simpl in Hi; lia | done].
Qed.

Lemma rd_app_l l1 l2 i :
  (Z.to_nat i < length l1)%nat -> rd (l1 ++ l2) i = rd l1 i.
Proof. intros H. unfold rd. by rewrite lookup_app_l. Qed.

Lemma rd_app_r_replicate l1 n x i :
  (length l1 <= Z.to_nat i < length l1 + n)%nat ->
  rd (l1 ++ replicate n x) i = x.
Proof.
  intros H. unfold rd. rewrite lookup_app_r by lia.
  rewrite (lookup_replicate_2 n x) by lia. done.
Qed.

Lemma not_byte_minus_one lru : Forall is_byte lru -> -1 ∉ lru.
Proof.
  intros H Hin. eapply Forall_forall in H; [|exact Hin]. unfold is_byte in H. lia.
Qed.

(** Marking a bank of the list moves it to the head. *)
Lemma mark_use_order_hit lru bank :
  (length lru <= 10)%nat -> Forall is_byte lru -> NoDup lru -> bank ∈ lru ->
  exists lru',
    mark_use_order (lru ++ replicate (10 - length lru) (-1)) bank
    = lru' ++ replicate (10 - length lru') (-1) /\
    lru' ≡ₚ lru /\ head lru' = Some bank.
Proof.
  intros Hlen Hb Hnd Hin.
  apply list_elem_of_lookup_1 in Hin as [i Hi].
  pose proof (lookup_lt_Some _ _ _ Hi) as Hilt.
  set (uo := lru ++ replicate (10 - length lru) (-1)).
  assert (Hrd : forall k, (k < length lru)%nat ->
                          lru !! k = Some (rd uo (Z.of_nat k))).
  { intros k Hk. unfold uo. rewrite rd_app_l by lia.
    rewrite <- (Nat2Z.id k) at 1. apply rd_lookup. lia. }
  assert (Hne : forall k, (k < i)%nat -> (rd uo (Z.of_nat k) =? bank) = false).
  { intros k Hk. apply Z.eqb_neq. intros Heq.
    pose proof (Hrd k ltac:(lia)) as Hk'. rewrite Heq in Hk'.
    pose proof (NoDup_lookup _ _ _ _ Hnd Hk' Hi). lia. }
  assert (Hi' : rd uo (Z.of_nat i) = bank).
  { pose proof (Hrd i Hilt) as H. rewrite Hi in H. congruence. }
  unfold mark_use_order. fold uo.
  destruct i as [|i].
  - change (Z.of_nat 0) with 0 in Hi'. rewrite Hi', Z.eqb_refl.
    exists lru. split; [done|]. split; [done|].
    by rewrite head_lookup.
  - pose proof (Hne 0%nat ltac:(lia)) as H0.
    change (Z.of_nat 0) with 0 in H0. rewrite H0.
    rewrite (scan_from_first _ 1 (ROM_BANK_COUNT - 1) (Z.of_nat (S i))).
    + rewrite (proj2 (Z.eqb_neq (Z.of_nat (S i)) (-1))) by lia. cbn [negb].
      rewrite Nat2Z.id.
      rewrite rotate_use_order
        by (unfold uo; rewrite length_app, length_replicate; lia).
      exists (bank :: take (S i) lru ++ drop (S (S i)) lru).
      split; [|split; [|done]].
      * unfold uo. rewrite take_app_le by lia. rewrite drop_app_le by lia.
        cbn [length]. rewrite length_app, length_take, length_drop.
        cbn [app]. rewrite <- app_assoc. do 4 f_equal. lia.
      * rewrite <- (take_drop_middle lru (S i) bank Hi) at 3.
        by rewrite Permutation_middle.
    + unfold ROM_BANK_COUNT. lia.
    + by rewrite Hi', Z.eqb_refl.
    + intros k Hk. replace k with (Z.of_nat (Z.to_nat k)) by lia.
      apply Hne. lia.
Qed.

(** Marking a bank that is not in the list: it goes to the head if an entry
    is empty, and the list stays as it is otherwise. *)
Lemma mark_use_order_miss lru bank :
  (length lru <= 10)%nat -> Forall is_byte lru -> is_byte bank -> bank ∉ lru ->
  mark_use_order (lru ++ replicate (10 - length lru) (-1)) bank
  = if decide (length lru < 10)%nat then
      (bank :: lru) ++ replicate (10 - S (length lru)) (-1)
    else lru ++ replicate (10 - length lru) (-1).
Proof.
  intros Hlen Hb Hbank Hnew.
  set (uo := lru ++ replicate (10 - length lru) (-1)).
  assert (Hlo : length uo = 10%nat)
    by (unfold uo; rewrite length_app, length_replicate; lia).
  assert (Hnot : bank ∉ uo).
  { unfold uo. intros [?|Hr]%elem_of_app; [done|].
    apply elem_of_replicate in Hr as [-> _]. unfold is_byte in Hbank. lia. }
  case_decide as Hfull.
  - rewrite mark_use_order_insert; [|done|done|].
    + unfold uo. rewrite take_app_ge by lia. rewrite take_replicate.
      cbn [app]. do 3 f_equal. lia.
    + unfold uo. apply rd_app_r_replicate. lia.
  - assert (Hl10 : length lru = 10%nat) by lia.
    unfold mark_use_order.
    assert (Hne : forall k, 0 <= k < 10 -> (rd uo k =? bank) = false).
    { intros k Hk. apply Z.eqb_neq. intros <-. apply Hnot, rd_elem_of. lia. }
    rewrite (Hne 0) by lia.
    rewrite scan_from_all_false
      by (intros k Hk; apply Hne; unfold ROM_BANK_COUNT in Hk; lia).
    change (negb (-1 =? -1)) with false. cbv iota.
    change (Z.of_nat ROM_BANK_COUNT - 1) with 9.
    assert (Htail : rd uo 9 <> -1).
    { intros Ht. apply (not_byte_minus_one lru Hb). rewrite <- Ht.
      unfold uo. rewrite rd_app_l by lia. apply rd_elem_of. lia. }
    by rewrite (proj2 (Z.eqb_neq _ _) Htail).
Qed.

(** *** The invariants through the LRU update *)

Lemma cached_banks_of_bytes loaded ids :
  Forall is_byte ids -> Forall is_byte (cached_banks_of loaded ids).
Proof.
  intros Hb. apply Forall_forall. intros b Hin.
  apply elem_of_cached_banks_of in Hin as (i & l & _ & _ & Hi).
  by eapply Forall_lookup_1.
Qed.

Lemma lru_inv_facts loaded ids uo lru :
  lru_inv loaded ids uo ->
  uo = lru ++ replicate (10 - length lru) (-1) ->
  lru ≡ₚ cached_banks_of loaded ids ->
  (length lru <= 10)%nat /\ Forall is_byte lru /\ NoDup lru.
Proof.
  intros [Hli Hll Hlo Hb Hu _] Huo Hp. split; [|split].
  - rewrite Hp. pose proof (length_cached_banks_of loaded ids). lia.
  - rewrite Hp. by apply cached_banks_of_bytes.
  - by rewrite Hp.
Qed.

(** Marking a cached bank, or any bank when ten banks are cached, keeps the
    invariants. *)
Lemma lru_inv_mark loaded ids uo bank :
  lru_inv loaded ids uo -> is_byte bank ->
  bank ∈ cached_banks_of loaded ids
  \/ length (cached_banks_of loaded ids) = 10%nat ->
  lru_inv loaded ids (mark_use_order uo bank).
Proof.
  intros Hinv Hbank Hcase.
  pose proof Hinv as [Hli Hll Hlo Hb Hu (lru & Huo & Hp)].
  destruct (lru_inv_facts _ _ _ _ Hinv Huo Hp) as (Hlen & Hlb & Hnd).
  destruct (decide (bank ∈ lru)) as [Hin|Hnin].
  - destruct (mark_use_order_hit lru bank Hlen Hlb Hnd Hin)
      as (lru' & Hm & Hp' & _).
    rewrite Huo, Hm. split; try done.
    + rewrite length_app, length_replicate.
      assert (length lru' = length lru) by (by rewrite Hp'). lia.
    + exists lru'. split; [done|]. by rewrite Hp'.
  - destruct Hcase as [Hc|Hc]; [by rewrite <- Hp in Hc|].
    rewrite Huo, (mark_use_order_miss lru bank Hlen Hlb Hbank Hnin).
    rewrite <- Hp in Hc. rewrite decide_False by lia. by rewrite <- Huo.
Qed.

(** Loading a bank that is not cached into an empty slot keeps them. *)
Lemma lru_inv_fill loaded ids uo s bank :
  lru_inv loaded ids uo -> is_byte bank ->
  loaded !! s = Some 0 ->
  bank ∉ cached_banks_of loaded ids ->
  lru_inv (<[s:=1]> loaded) (<[s:=bank]> ids) (mark_use_order uo bank).
Proof.
  intros Hinv Hbank Hs Hnew.
  pose proof Hinv as [Hli Hll Hlo Hb Hu (lru & Huo & Hp)].
  destruct (lru_inv_facts _ _ _ _ Hinv Huo Hp) as (Hlen & Hlb & Hnd).
  pose proof (lookup_lt_Some _ _ _ Hs) as Hslt.
  pose proof (cached_banks_of_fill loaded ids s 1 bank Hs ltac:(lia) ltac:(lia))
    as Hfill.
  assert (Hlt : (length lru < 10)%nat).
  { pose proof (length_cached_banks_of (<[s:=1]> loaded) (<[s:=bank]> ids)) as Hle.
    rewrite Hfill, length_insert in Hle. cbn [length] in Hle.
    rewrite <- Hp in Hle. lia. }
  rewrite Huo, (mark_use_order_miss lru bank Hlen Hlb Hbank)
    by (by rewrite Hp).
  rewrite decide_True by done.
  split.
  - by rewrite length_insert.
  - by rewrite length_insert.
  - rewrite length_app, length_replicate. cbn [length]. lia.
  - by apply Forall_insert.
  - rewrite Hfill. by apply NoDup_cons.
  - exists (bank :: lru). split; [done|]. by rewrite Hfill, Hp.
Qed.

(** *** The invariants through a bank load *)

Lemma find_empty_slot_none m :
  length (rom_bank_loaded m) = 10%nat ->
  find_empty_slot m = -1 -> Forall (fun l => l <> 0) (rom_bank_loaded m).
Proof.
  intros Hlen Hnone. apply Forall_lookup. intros i l Hi.
  pose proof (lookup_lt_Some _ _ _ Hi) as Hlt.
  pose proof (scan_from_none _ 0 ROM_BANK_COUNT ltac:(lia) Hnone (Z.of_nat i)
                ltac:(unfold ROM_BANK_COUNT; lia)) as Hp.
  cbn beta in Hp. apply Z.eqb_neq in Hp.
  unfold rd in Hp. rewrite Nat2Z.id, Hi in Hp. done.
Qed.

Lemma find_empty_slot_some m :
  find_empty_slot m <> -1 ->
  0 <= find_empty_slot m < 10 /\
  (length (rom_bank_loaded m) = 10%nat ->
   rom_bank_loaded m !! Z.to_nat (find_empty_slot m) = Some 0).
Proof.
  intros Hs. destruct (scan_from_found _ _ _ _ eq_refl Hs) as (Hr & Hp & _).
  fold (find_empty_slot m) in Hr, Hp. cbn beta in Hp. apply Z.eqb_eq in Hp.
  unfold ROM_BANK_COUNT in Hr. split; [lia|]. intros Hlen.
  rewrite rd_lookup by lia. by rewrite Hp.
Qed.

Lemma find_loaded_bank_none m bank :
  length (rom_bank_loaded m) = 10%nat ->
  find_loaded_bank m bank = -1 -> bank ∉ cached_banks m.
Proof.
  intros Hlen Hnone Hin.
  apply elem_of_cached_banks_of in Hin as (i & l & Hl & Hl0 & Hi).
  pose proof (lookup_lt_Some _ _ _ Hl) as Hlt.
  pose proof (scan_from_none _ 0 ROM_BANK_COUNT ltac:(lia) Hnone (Z.of_nat i)
                ltac:(unfold ROM_BANK_COUNT; lia)) as Hp.
  cbn beta in Hp. unfold rd in Hp. rewrite Nat2Z.id, Hl, Hi in Hp.
  cbn [default from_option id] in Hp.
  rewrite Z.eqb_refl, (proj2 (Z.eqb_neq l 0)) in Hp by done. done.
Qed.

Lemma find_loaded_bank_some m bank :
  length (rom_bank_loaded m) = 10%nat -> length (rom_bank_id m) = 10%nat ->
  find_loaded_bank m bank <> -1 -> bank ∈ cached_banks m.
Proof.
  intros Hll Hli Hs.
  destruct (scan_from_found _ _ _ _ eq_refl Hs) as (Hr & Hp & _).
  fold (find_loaded_bank m bank) in Hr, Hp. cbn beta in Hp.
  unfold ROM_BANK_COUNT in Hr.
  apply andb_true_iff in Hp as [Hl Hb].
  apply negb_true_iff, Z.eqb_neq in Hl. apply Z.eqb_eq in Hb.
  apply elem_of_cached_banks_of.
  exists (Z.to_nat (find_loaded_bank m bank)),
         (rd (rom_bank_loaded m) (find_loaded_bank m bank)).
  split; [apply rd_lookup; lia|]. split; [done|].
  rewrite rd_lookup by lia. by rewrite Hb.
Qed.

(** The invariants of a cache with no empty slot. *)
Lemma cache_inv_full m :
  cache_inv m -> Forall (fun l => l <> 0) (rom_bank_loaded m) -> full_cache m.
Proof.
  intros [Hli Hll Hlo Hb Hu (lru & Huo & Hp)] Hall.
  rewrite cached_banks_of_all in Hu, Hp by (done || lia).
  assert (Hl10 : length lru = 10%nat) by (by rewrite Hp).
  rewrite Hl10 in Huo. cbn [Nat.sub replicate] in Huo. rewrite app_nil_r in Huo.
  split; try done.
  - intros i Hi. eapply Forall_forall in Hall; [exact Hall|].
    apply rd_elem_of. lia.
  - by rewrite Huo.
Qed.

(** Eviction in a full cache frees the slot of the oldest bank and keeps the
    invariants. *)
Lemma evict_oldest_bank_inv m :
  cache_inv m -> find_empty_slot m = -1 ->
  exists s m1,
    evict_oldest_bank m = inr (s, m1) /\ 0 <= s < 10 /\
    cache_inv m1 /\
    rom_bank_loaded m1 !! Z.to_nat s = Some 0 /\
    rom m1 = rom m /\
    (forall b, b ∈ cached_banks m1 -> b ∈ cached_banks m) /\
    length (cached_banks m1) = 9%nat.
Proof.
  intros Hinv Hempty.
  pose proof Hinv as [Hli Hll Hlo Hb Hu _].
  pose proof (find_empty_slot_none m Hll Hempty) as Hall.
  pose proof (cache_inv_full m Hinv Hall) as Hfull.
  destruct (full_cache_oldest m Hfull) as (Hob & Hoin & Hsplit & Hnot9).
  destruct (full_cache_oldest_slot m Hfull) as (Hs & Hids).
  set (oldest := rd (rom_bank_use_order m) 9) in *.
  set (s := scan_from (fun i => rd (rom_bank_id m) i =? oldest) 0 ROM_BANK_COUNT) in *.
  destruct (evict_oldest_bank_ok m) as [m1 Hev].
  { fold oldest. unfold is_byte in Hob. lia. }
  { fold oldest. fold s. lia. }
  fold oldest in Hev. fold s in Hev.
  destruct (evict_oldest_bank_slot _ _ _ Hev)
    as (_ & _ & Hrom1 & _ & Hid1 & Hld1 & Huo1).
  destruct Hfull as [_ _ _ Hld _ Hnd Ho].
  assert (Hls : rom_bank_loaded m !! Z.to_nat s
                = Some (rd (rom_bank_loaded m) s)) by (apply rd_lookup; lia).
  assert (His : rom_bank_id m !! Z.to_nat s = Some oldest)
    by (rewrite <- Hids; apply rd_lookup; lia).
  pose proof (cached_banks_of_empty _ _ _ _ _ 0 Hls (Hld s Hs) His) as Hperm.
  rewrite (cached_banks_of_all (rom_bank_loaded m)) in Hperm by (done || lia).
  assert (Hc1 : cached_banks m1
                = cached_banks_of (<[Z.to_nat s:=0]> (rom_bank_loaded m))
                    (<[Z.to_nat s:=0]> (rom_bank_id m)))
    by (unfold cached_banks; by rewrite Hid1, Hld1).
  exists s, m1. split; [done|]. split; [done|]. split; [|split; [|split; [|split]]].
  - unfold cache_inv. rewrite Hid1, Hld1, Huo1. split.
    + by rewrite length_wr.
    + by rewrite length_wr.
    + by rewrite length_wr.
    + apply Forall_insert; [done | unfold is_byte; lia].
    + rewrite Hperm in Hnd. by apply NoDup_cons in Hnd as [_ ?].
    + exists (take 9 (rom_bank_use_order m)). split.
      * unfold wr. rewrite insert_take_drop by lia.
        change (Z.to_nat 9) with 9%nat. rewrite drop_ge by lia.
        rewrite length_take. by replace (10 - 9 `min` _)%nat with 1%nat by lia.
      * apply (inj (cons oldest)). rewrite <- Hperm, <- Ho.
        rewrite Permutation_cons_append. by rewrite <- Hsplit.
  - rewrite Hld1. apply list_lookup_insert_eq. lia.
  - done.
  - intros b Hin. unfold cached_banks.
    rewrite (cached_banks_of_all (rom_bank_loaded m)) by (done || lia).
    rewrite Hperm. rewrite Hc1 in Hin. by right.
  - rewrite Hc1. apply Permutation_length in Hperm. cbn [length] in Hperm. lia.
Qed.

Lemma evict_oldest_bank_windows m s m1 :
  evict_oldest_bank m = inr (s, m1) ->
  length (rom_block m1) = length (rom_block m) /\
  length (rom_block_bank_id m1) = length (rom_block_bank_id m) /\
  (Forall is_byte (rom_block_bank_id m) -> Forall is_byte (rom_block_bank_id m1)).
Proof.
  unfold evict_oldest_bank.
  destruct (_ =? -1); [done|].
  set (s0 := scan_from _ 0 ROM_BANK_COUNT). destruct (s0 =? -1); [done|].
  clearbody s0.
  case_match; intros [= <- <-];
    cbn [rom_block rom_block_bank_id set_rom_bank_use_order set_rom_bank_loaded
         set_rom_bank_id set_rom_block set_rom_block_bank_id];
    unfold wr, wr_ptr; rewrite ?length_insert; repeat split; try done.
  intros Hb. apply Forall_insert; [done | unfold is_byte; lia].
Qed.

Lemma rd_ptr_wr_ptr_eq a i p :
  (Z.to_nat i < length a)%nat -> rd_ptr (wr_ptr a i p) i = p.
Proof. intros H. unfold rd_ptr, wr_ptr. by rewrite list_lookup_insert_eq. Qed.

Lemma rd_ptr_wr_ptr_ne a i j p :
  Z.to_nat i <> Z.to_nat j -> rd_ptr (wr_ptr a i p) j = rd_ptr a j.
Proof. intros H. unfold rd_ptr, wr_ptr. by rewrite list_lookup_insert_ne. Qed.

(** Mapping a window to a cached bank, when the cached banks only grow. *)
Lemma windows_cached_map (rb : list (option Z)) (rbbi cached cached' : list Z)
    target bank block :
  length rb = 8%nat -> length rbbi = 8%nat -> 0 <= target < 8 ->
  bank ∈ cached' ->
  (forall b, b ∈ cached -> b ∈ cached') ->
  (forall w, 0 <= w < 8 -> rd_ptr rb w <> None -> rd rbbi w ∈ cached) ->
  forall w, 0 <= w < 8 ->
    rd_ptr (wr_ptr rb target (Some block)) w <> None ->
    rd (wr rbbi target bank) w ∈ cached'.
Proof.
  intros Hlb Hli Ht Hbank Hsub Hwin w Hw Hptr.
  destruct (decide (w = target)) as [->|Hne].
  - by rewrite rd_wr_eq by lia.
  - rewrite rd_wr_ne by lia. rewrite rd_ptr_wr_ptr_ne in Hptr by lia.
    by apply Hsub, Hwin.
Qed.

(** Reading a bank into an empty slot keeps the cache invariants. *)
Lemma load_bank_into_slot_inv nsf m1 reg bank s :
  cache_inv m1 -> length (rom m1) = Z.to_nat 40960 ->
  0 <= s < 10 -> rom_bank_loaded m1 !! Z.to_nat s = Some 0 ->
  is_byte bank -> bank ∉ cached_banks m1 ->
  exists nsf',
    load_bank_into_slot nsf m1 reg bank s = (ESP_OK, nsf') /\
    cache_inv (nes_memory nsf') /\
    length (rom (nes_memory nsf')) = Z.to_nat 40960 /\
    cached_banks (nes_memory nsf') ≡ₚ bank :: cached_banks m1 /\
    rom_block (nes_memory nsf')
    = wr_ptr (rom_block m1) (u8 (reg - 0x5FF8)) (Some (s * 4096)) /\
    rom_block_bank_id (nes_memory nsf')
    = wr (rom_block_bank_id m1) (u8 (reg - 0x5FF8)) bank.
Proof.
  intros Hinv Hrom Hs Hempty Hbank Hnew.
  destruct (load_bank_into_slot_ok nsf m1 reg bank s Hs Hrom Hbank)
    as (f & _ & ->).
  eexists. split; [done|].
  cbn [nes_memory set_file set_nes_memory mark_rom_bank_used memory_with_bank
       rom rom_block rom_block_bank_id set_rom_bank_use_order].
  unfold cache_inv, cached_banks.
  cbn [rom_bank_id rom_bank_loaded rom_bank_use_order set_rom_bank_use_order
       mark_rom_bank_used memory_with_bank].
  unfold wr. rewrite list_insert_insert_eq.
  pose proof (padding_range (load_address (header nsf))) as Hp.
  pose proof (lookup_lt_Some _ _ _ Hempty) as Hslt.
  destruct Hinv as [Hli Hll Hlo Hb Hu Ho] eqn:E. clear E.
  split; [|split; [|split; [|done]]].
  - by apply lru_inv_fill.
  - rewrite length_app, length_take, !length_app, length_bank_image, length_drop
      by done. lia.
  - apply cached_banks_of_fill; [done | lia | lia].
Qed.

(** A bank load on a memory that satisfies the invariants succeeds and keeps
    them. *)
Lemma nsf_load_rom_bank_inv nsf reg bank :
  memory_inv (nes_memory nsf) ->
  0x5FF8 <= reg <= 0x5FFF -> is_byte bank ->
  exists nsf',
    nsf_load_rom_bank nsf reg bank = (ESP_OK, nsf') /\
    memory_inv (nes_memory nsf').
Proof.
  intros [Hc [Hwb Hwi Hwy Hwc] Hrom] Hreg Hbank.
  pose proof Hc as [Hli Hll Hlo Hb Hu Ho].
  unfold nsf_load_rom_bank.
  replace ((reg <? 0x5FF8) || (reg >? 0x5FFF)) with false by lia.
  assert (Ht : u8 (reg - 0x5FF8) = reg - 0x5FF8)
    by (unfold u8; apply Z.mod_small; lia).
  set (m := nes_memory nsf) in *.
  destruct (find_loaded_bank m bank =? -1) eqn:Hfind; cbn [negb].
  - (* not cached *)
    apply Z.eqb_eq in Hfind.
    pose proof (find_loaded_bank_none m bank Hll Hfind) as Hnew.
    destruct (find_empty_slot m =? -1) eqn:Hempty.
    + apply Z.eqb_eq in Hempty.
      destruct (evict_oldest_bank_inv m Hc Hempty)
        as (s & m1 & Hev & Hs & Hc1 & Hs0 & Hrom1 & Hsub & Hlen1).
      rewrite Hev.
      destruct (load_bank_into_slot_inv nsf m1 reg bank s)
        as (nsf' & -> & Hc' & Hrom' & Hperm & Hblk & Hid); try done.
      { congruence. }
      { intros Hin. by apply Hnew, Hsub. }
      exists nsf'. split; [done|]. split; [done| |done].
      destruct (evict_oldest_bank_windows m s m1 Hev) as (Hl1 & Hl2 & Hb1).
      split.
      * rewrite Hblk. unfold wr_ptr. rewrite length_insert. lia.
      * rewrite Hid, length_wr. lia.
      * rewrite Hid. apply Forall_insert; [by apply Hb1 | done].
      * intros Hlt. apply Permutation_length in Hperm.
        cbn [length] in Hperm. lia.
    + apply Z.eqb_neq in Hempty.
      destruct (find_empty_slot_some m Hempty) as (Hs & Hs0).
      destruct (load_bank_into_slot_inv nsf m reg bank (find_empty_slot m))
        as (nsf' & -> & Hc' & Hrom' & Hperm & Hblk & Hid); try done.
      { by apply Hs0. }
      exists nsf'. split; [done|]. split; [done| |done].
      split.
      * rewrite Hblk. unfold wr_ptr. by rewrite length_insert.
      * by rewrite Hid, length_wr.
      * rewrite Hid. by apply Forall_insert.
      * intros Hlt. rewrite Hblk, Hid, Ht.
        apply (windows_cached_map _ _ (cached_banks m)); try done; try lia.
        -- rewrite Hperm. by left.
        -- intros b Hin. rewrite Hperm. by right.
        -- apply Hwc. apply Permutation_length in Hperm.
           cbn [length] in Hperm. lia.
  - (* already cached *)
    apply Z.eqb_neq in Hfind.
    pose proof (find_loaded_bank_some m bank Hll Hli Hfind) as Hin.
    eexists. split; [done|].
    cbn [nes_memory set_nes_memory]. unfold mark_rom_bank_used.
    split.
    + unfold cache_inv.
      cbn [rom_bank_id rom_bank_loaded rom_bank_use_order set_rom_block
           set_rom_block_bank_id set_rom_bank_use_order].
      apply lru_inv_mark; [done | done | by left].
    + split;
        cbn [rom_block rom_block_bank_id set_rom_block set_rom_block_bank_id
             set_rom_bank_use_order]; unfold cached_banks;
        cbn [rom_bank_id rom_bank_loaded set_rom_block set_rom_block_bank_id
             set_rom_bank_use_order].
      * unfold wr_ptr. by rewrite length_insert.
      * by rewrite length_wr.
      * by apply Forall_insert.
      * intros Hlt. rewrite Ht.
        apply (windows_cached_map _ _ (cached_banks m)); try done; try lia.
        by apply Hwc.
    + done.
Qed.

(** *** The invariants through the bus and the initialisation *)

Lemma memory_inv_ext m1 m2 :
  rom_block m2 = rom_block m1 ->
  rom_block_bank_id m2 = rom_block_bank_id m1 ->
  rom m2 = rom m1 ->
  rom_bank_id m2 = rom_bank_id m1 ->
  rom_bank_loaded m2 = rom_bank_loaded m1 ->
  rom_bank_use_order m2 = rom_bank_use_order m1 ->
  memory_inv m1 -> memory_inv m2.
Proof.
  destruct m1, m2. cbn. intros -> -> -> -> -> -> [Hc [Hwb Hwi Hwy Hwc] Hrom].
  split; [exact Hc | split; assumption | exact Hrom].
Qed.

Lemma block_index_range a : 0 <= u8 (Z.shiftr (Z.land a 0x7000) 12) < 8.
Proof.
  unfold u8. rewrite Z.shiftr_land.
  change (Z.shiftr 0x7000 12) with (Z.ones 3). rewrite Z.land_ones by lia.
  pose proof (Z.mod_pos_bound (Z.shiftr a 12) (2 ^ 3) ltac:(lia)) as H.
  rewrite Z.mod_small; lia.
Qed.

Lemma read6502_inv nsf address :
  memory_inv (nes_memory nsf) ->
  exists nsf', snd (read6502 (Some nsf) address) = Some nsf' /\
               memory_inv (nes_memory nsf').
Proof.
  intros Hinv. unfold read6502. repeat case_match; simpl; eauto.
  eexists. split; [done|].
  destruct Hinv as [Hc [Hwb Hwi Hwy Hwc] Hrom].
  pose proof (block_index_range address) as Hbi.
  set (w := u8 (Z.shiftr (Z.land address 0x7000) 12)) in *.
  cbn [nes_memory set_nes_memory]. unfold mark_rom_bank_used.
  split; [|split|]; try done.
  unfold cache_inv. cbn [rom_bank_id rom_bank_loaded rom_bank_use_order
                         set_rom_bank_use_order].
  apply lru_inv_mark; [done | by apply rd_is_byte |].
  destruct (decide (length (cached_banks (nes_memory nsf)) < 10)%nat) as [Hlt|Hge].
  - left. apply Hwc; [done | done | congruence].
  - right. destruct Hc as [Hli _ _ _ _ _].
    pose proof (length_cached_banks_of (rom_bank_loaded (nes_memory nsf))
                  (rom_bank_id (nes_memory nsf))).
    unfold cached_banks in Hge. lia.
Qed.

Lemma write6502_inv nsf address value :
  memory_inv (nes_memory nsf) -> is_byte value ->
  exists nsf', fst (write6502 (Some nsf) address value) = Some nsf' /\
               memory_inv (nes_memory nsf').
Proof.
  intros Hinv Hv. unfold write6502.
  destruct (address <=? 0x07FF);
    [eexists; split; [done|]; by apply (memory_inv_ext (nes_memory nsf))|].
  destruct ((0x4000 <=? address) && (address <=? 0x4017)).
  { repeat case_match;
      (eexists; split; [done|]; by apply (memory_inv_ext (nes_memory nsf))). }
  destruct ((0x5FF8 <=? address) && (address <=? 0x5FFF)) eqn:Ha; [|eauto].
  destruct (negb _); [|eauto].
  edestruct (nsf_load_rom_bank_inv
               (set_nes_memory
                  (set_bank_regs
                     (wr (bank_regs (nes_memory nsf)) (address - 0x5FF8) value)
                     (nes_memory nsf)) nsf) address value) as (nsf' & Hl & Hinv').
  - by apply (memory_inv_ext (nes_memory nsf)).
  - lia.
  - done.
  - exists nsf'. by rewrite Hl.
Qed.

Lemma run_cpu_inv cpu nsf :
  byte_writes cpu -> memory_inv (nes_memory nsf) ->
  exists nsf', fst (run_cpu cpu (Some nsf)) = Some nsf' /\
               memory_inv (nes_memory nsf').
Proof.
  intros Hcpu. revert nsf.
  induction Hcpu as [|address k _ IH|address value k Hv _ IH];
    intros nsf Hinv; cbn [run_cpu].
  - eauto.
  - destruct (read6502_inv nsf address Hinv) as (nsf1 & H1 & Hinv1).
    destruct (read6502 (Some nsf) address) as [value active]. simpl in *. subst.
    by apply IH.
  - destruct (write6502_inv nsf address value Hinv Hv) as (nsf1 & H1 & Hinv1).
    destruct (write6502 (Some nsf) address value) as [active ev]. simpl in *. subst.
    destruct (IH nsf1 Hinv1) as (nsf2 & H2 & Hinv2).
    destruct (run_cpu k (Some nsf1)) as [active evs]. simpl in *. eauto.
Qed.

Lemma load_init_banks_inv n nsf i :
  memory_inv (nes_memory nsf) ->
  Forall is_byte (bankswitch_init (header nsf)) ->
  0 <= i -> i + Z.of_nat n <= 8 ->
  exists nsf', load_init_banks nsf i n = (ESP_OK, nsf') /\
               memory_inv (nes_memory nsf').
Proof.
  revert nsf i. induction n as [|n IH]; intros nsf i Hinv Hb Hi Hn;
    cbn [load_init_banks]; [eauto|].
  destruct (nsf_load_rom_bank_inv nsf (0x5FF8 + i)
              (rd (bankswitch_init (header nsf)) i) Hinv ltac:(lia)
              ltac:(by apply rd_is_byte)) as (nsf1 & Hl & Hinv1).
  pose proof (nsf_load_rom_bank_regions nsf (0x5FF8 + i)
                (rd (bankswitch_init (header nsf)) i)) as Hreg.
  rewrite Hl in *. cbn [snd] in Hreg.
  change (bool_decide (ESP_OK <> ESP_OK)) with false. cbv iota.
  apply IH; [done | | lia | lia].
  assert (Hh : header nsf1 = header nsf)
    by (unfold bus_regions in Hreg; by simplify_eq).
  by rewrite Hh.
Qed.

Lemma nsf_init_load_nes_rom_banks_inv nsf :
  Forall is_byte (bankswitch_init (header nsf)) ->
  exists nsf', nsf_init_load_nes_rom_banks nsf = (ESP_OK, nsf') /\
               memory_inv (nes_memory nsf').
Proof.
  intros Hb. unfold nsf_init_load_nes_rom_banks.
  apply load_init_banks_inv; [|done|lia|lia].
  cbn [nes_memory set_nes_memory]. split; [split|split|].
  - reflexivity.
  - reflexivity.
  - reflexivity.
  - apply Forall_replicate. unfold is_byte. lia.
  - apply NoDup_nil_2.
  - by exists [].
  - reflexivity.
  - reflexivity.
  - apply Forall_replicate. unfold is_byte. lia.
  - intros _ w Hw Hptr. exfalso. apply Hptr.
    cbn [rom_block set_rom_block_bank_id set_rom_block].
    unfold rd_ptr. rewrite (lookup_replicate_2 8 None) by lia. done.
  - cbn [rom set_rom_block_bank_id set_rom_block set_rom_bank_use_order
         set_rom_bank_loaded set_rom_bank_id set_rom].
    rewrite length_replicate. unfold ROM_BANK_SIZE, ROM_BANK_COUNT. lia.
Qed.

(** Every memory a bank-switched file can reach satisfies the invariants:
    [nsf_playback_init] succeeds and establishes them, and no bus access of
    the core breaks them. *)
Theorem playback_memory_inv nsf song cb cpu :
  Forall is_byte (bankswitch_init (header nsf)) ->
  nsf_has_bank_switching nsf = true ->
  byte_writes cpu ->
  exists nsf' evs,
    nsf_playback_init nsf song cb cpu = (ESP_OK, nsf', evs) /\
    memory_inv (nes_memory nsf').
Proof.
  intros Hb Hsw Hcpu. unfold nsf_playback_init.
  set (nsf0 := nsf_init_nes_prg (nsf_init_nes_memory (set_apu_write_cb cb nsf)) song 0).
  change (nsf_has_bank_switching nsf0) with (nsf_has_bank_switching nsf).
  rewrite Hsw.
  destruct (nsf_init_load_nes_rom_banks_inv nsf0 Hb) as (nsf1 & -> & Hinv1).
  change (bool_decide (ESP_OK <> ESP_OK)) with false. cbv iota.
  destruct (run_cpu_inv cpu nsf1 Hcpu Hinv1) as (nsf2 & H2 & Hinv2).
  destruct (run_cpu cpu (Some nsf1)) as [active evs]. simpl in H2. subst active.
  exists nsf2, evs. done.
Qed.

(** ** Eviction order *)

(** C2: in a cache whose ten slots are all occupied (and which satisfies the
    cache invariants P1 and P2, as every reachable cache does), loading a
    bank that is not cached evicts exactly the bank at the tail of the LRU
    list as it was before the load: the eviction marks that bank's slot
    unloaded and takes the bank off the list; the load then succeeds, puts
    the new bank in that slot and at the head of the list, and leaves every
    other slot and the order of the other banks as they were. *)
Theorem C2_eviction_order (nsf : nsf_file_t) (reg bank : Z) :
  let m := nes_memory nsf in
  cache_inv m ->
  Forall (fun l => l <> 0) (rom_bank_loaded m) ->
  length (rom m) = Z.to_nat 40960 ->
  0x5FF8 <= reg <= 0x5FFF ->
  is_byte bank ->
  bank ∉ cached_banks m ->
  let oldest := rd (rom_bank_use_order m) 9 in
  exists s m1 nsf',
    0 <= s < 10 /\ rd (rom_bank_id m) s = oldest /\
    evict_oldest_bank m = inr (s, m1) /\
    rd (rom_bank_loaded m1) s = 0 /\
    rom_bank_use_order m1 = take 9 (rom_bank_use_order m) ++ [-1] /\
    nsf_load_rom_bank nsf reg bank = (ESP_OK, nsf') /\
    rom_bank_id (nes_memory nsf') = wr (rom_bank_id m) s bank /\
    rom_bank_loaded (nes_memory nsf') = wr (rom_bank_loaded m) s 1 /\
    rom_bank_use_order (nes_memory nsf') = bank :: take 9 (rom_bank_use_order m) /\
    (oldest ∉ cached_banks (nes_memory nsf')) /\
    (oldest ∉ rom_bank_use_order (nes_memory nsf')).
Proof.
  intros m Hinv Hall Hrom Hreg Hbank Hnew0 oldest.
  pose proof (cache_inv_full m Hinv Hall) as Hfull.
  assert (Hcached : cached_banks m = rom_bank_id m).
  { destruct Hinv as [Hli Hll _ _ _ _]. apply cached_banks_of_all; [lia | done]. }
  assert (Hnew : bank ∉ rom_bank_id m) by (by rewrite <- Hcached).
  destruct (full_cache_oldest m Hfull) as (Hob & Hoin & Hsplit & Hnot9).
  destruct (full_cache_oldest_slot m Hfull) as (Hs & Hids).
  destruct (full_cache_not_cached m bank Hfull Hnew) as (Hfind & Hempty).
  fold oldest in Hob, Hoin, Hsplit, Hnot9, Hs, Hids.
  set (s := scan_from (fun i => rd (rom_bank_id m) i =? oldest) 0 ROM_BANK_COUNT) in *.
  destruct (evict_oldest_bank_ok m) as [m1 Hev].
  { fold oldest. unfold is_byte in Hob. lia. }
  { fold oldest. fold s. lia. }
  fold oldest in Hev. fold s in Hev.
  destruct (evict_oldest_bank_slot _ _ _ Hev)
    as (_ & _ & Hrom1 & _ & Hid1 & Hld1 & Huo1).
  destruct Hfull as [Hli Hll Hlo Hld Hb Hu Ho].
  assert (Huo1' : rom_bank_use_order m1 = take 9 (rom_bank_use_order m) ++ [-1]).
  { rewrite Huo1. unfold wr. rewrite insert_take_drop by lia.
    change (Z.to_nat 9) with 9%nat. by rewrite drop_ge by lia. }
  destruct (load_bank_into_slot_ok nsf m1 reg bank s Hs) as (f & _ & Hload);
    [congruence | done |].
  exists s, m1. eexists.
  split; [done|]. split; [done|]. split; [done|].
  split; [rewrite Hld1; apply rd_wr_eq; lia|]. split; [done|].
  split.
  { unfold nsf_load_rom_bank.
    replace ((reg <? 0x5FF8) || (reg >? 0x5FFF)) with false by lia.
    fold m. rewrite Hfind, Hempty. change (negb (-1 =? -1)) with false.
    change (-1 =? -1) with true. cbv iota. rewrite Hev. exact Hload. }
  unfold cached_banks.
  cbn [nes_memory set_file set_nes_memory mark_rom_bank_used memory_with_bank
       rom_bank_id rom_bank_loaded rom_bank_use_order set_rom_bank_use_order].
  assert (Hbo : bank <> oldest) by (intros ->; done).
  assert (Hmark : mark_use_order (rom_bank_use_order m1) bank
                  = bank :: take 9 (rom_bank_use_order m)).
  { rewrite mark_use_order_insert.
    - rewrite Huo1'. by rewrite take_app_length' by (rewrite length_take; lia).
    - rewrite Huo1, length_wr. done.
    - rewrite Huo1'. intros [Hin| Hin]%elem_of_app.
      + apply Hnew. rewrite <- Ho. rewrite Hsplit. apply elem_of_app. by left.
      + apply list_elem_of_singleton in Hin. unfold is_byte in Hbank. lia.
    - rewrite Huo1. apply rd_wr_eq. lia. }
  assert (Hid' : wr (rom_bank_id m1) s bank = wr (rom_bank_id m) s bank).
  { rewrite Hid1. unfold wr. by rewrite list_insert_insert_eq. }
  assert (Hld' : wr (wr (rom_bank_loaded m1) s 0) s 1 = wr (rom_bank_loaded m) s 1).
  { rewrite Hld1. unfold wr. by rewrite !list_insert_insert_eq. }
  rewrite Hmark, Hid', Hld'.
  split; [done|]. split; [done|]. split; [done|]. split.
  - rewrite cached_banks_of_all.
    + intros [j Hj]%list_elem_of_lookup_1.
      apply list_lookup_insert_Some in Hj as [(_ & ? & _)|(Hne & Hj)]; [done|].
      apply Hne. eapply NoDup_lookup; [exact Hu | | exact Hj].
      rewrite <- Hids. apply rd_lookup. lia.
    + rewrite !length_wr. lia.
    + apply Forall_insert; [done | lia].
  - intros [Heq|Hin]%elem_of_cons; [done | by apply Hnot9].
Qed.

Lemma C2_eviction_order_witness :
  let nsf := playing banked_sample 0 fill_cache in
  cache_inv (nes_memory nsf) /\
  Forall (fun l => l <> 0) (rom_bank_loaded (nes_memory nsf)) /\
  is_byte 11 /\
  (11 ∉ cached_banks (nes_memory nsf)) /\
  rd (rom_bank_use_order (nes_memory nsf)) 9 = 1 /\
  exists s m1 nsf',
    rd (rom_bank_id (nes_memory nsf)) s = 1 /\
    evict_oldest_bank (nes_memory nsf) = inr (s, m1) /\
    nsf_load_rom_bank nsf 0x5FF9 11 = (ESP_OK, nsf') /\
    rom_bank_use_order (nes_memory nsf')
    = 11 :: take 9 (rom_bank_use_order (nes_memory nsf)).
Proof.
  intros nsf.
  assert (Hid : rom_bank_id (nes_memory nsf) = [1; 2; 3; 4; 5; 6; 7; 8; 9; 10])
    by (vm_compute; reflexivity).
  assert (Hld : rom_bank_loaded (nes_memory nsf) = [1; 1; 1; 1; 1; 1; 1; 1; 1; 1])
    by (vm_compute; reflexivity).
  assert (Huo : rom_bank_use_order (nes_memory nsf)
                = [10; 9; 8; 7; 6; 5; 4; 3; 2; 1])
    by (vm_compute; reflexivity).
  assert (H1 : cache_inv (nes_memory nsf)).
  { unfold cache_inv. rewrite Hid, Hld, Huo. split.
    - reflexivity.
    - reflexivity.
    - reflexivity.
    - apply (bool_decide_unpack _). vm_compute. exact I.
    - apply (bool_decide_unpack _). vm_compute. exact I.
    - exists [10; 9; 8; 7; 6; 5; 4; 3; 2; 1]. split; [reflexivity|].
      apply (bool_decide_unpack _). vm_compute. exact I. }
  assert (H2 : Forall (fun l => l <> 0) (rom_bank_loaded (nes_memory nsf))).
  { rewrite Hld. repeat constructor; lia. }
  assert (H3 : length (rom (nes_memory nsf)) = Z.to_nat 40960)
    by (apply Nat2Z.inj; rewrite Z2Nat.id by lia; vm_compute; reflexivity).
  assert (H4 : 0x5FF8 <= 0x5FF9 <= 0x5FFF) by lia.
  assert (H5 : is_byte 11) by (unfold is_byte; lia).
  assert (H6 : 11 ∉ cached_banks (nes_memory nsf)).
  { unfold cached_banks. rewrite Hid, Hld.
    apply (bool_decide_unpack _). vm_compute. exact I. }
  assert (H7 : rd (rom_bank_use_order (nes_memory nsf)) 9 = 1)
    by (rewrite Huo; reflexivity).
  pose proof (C2_eviction_order nsf 0x5FF9 11 H1 H2 H3 H4 H5 H6) as H.
  clearbody nsf.
  destruct H
    as (s & m1 & nsf' & _ & Hs & Hev & _ & _ & Hload & _ & _ & Huo' & _).
  split; [exact H1|]. split; [exact H2|]. split; [exact H5|].
  split; [exact H6|]. split; [exact H7|].
  exists s, m1, nsf'.
  split; [congruence|]. split; [exact Hev|]. split; [exact Hload|]. exact Huo'.
Defined.

(** ** Window consistency *)

(** C1 fails on the code: after the eviction of bank 1 from slot 0, ROM
    window 0 is not cleared.  It still points at slot 0 and still records
    bank 1, while slot 0 now holds bank 11, and a read of $8000 returns a
    byte of bank 11. *)
Theorem C1_stale_window_after_eviction :
  let before := playing banked_sample 0 fill_cache in
  let after := playing banked_sample 0 evict_mapped_bank in
  let m := nes_memory after in
  window_consistent (nes_memory before) = true /\
  rd (rom_bank_use_order (nes_memory before)) 9 = 1 /\
  rd_ptr (rom_block (nes_memory before)) 0 = Some 0 /\
  rd (rom_bank_id (nes_memory before)) 0 = 1 /\
  rd_ptr (rom_block m) 0 = Some 0 /\
  rd (rom_block_bank_id m) 0 = 1 /\
  rd (rom_bank_loaded m) 0 = 1 /\
  rd (rom_bank_id m) 0 = 11 /\
  window_consistent m = false /\
  fst (read6502 (Some after) 0x8000) = 11.
Proof. vm_compute. repeat split; reflexivity. Qed.

(** * Further properties of the program *)

(** ** Bank switching flag *)

(** X1: [nsf_has_bank_switching] is true exactly when one of the eight
    initial bank numbers of the header is not zero. *)
Theorem X1_has_bank_switching_iff (nsf : nsf_file_t) :
  nsf_has_bank_switching nsf = true <->
  exists i, 0 <= i < 8 /\ rd (bankswitch_init (header nsf)) i <> 0.
Proof.
  unfold nsf_has_bank_switching.
  set (p := fun i => negb (rd (bankswitch_init (header nsf)) i =? 0)).
  split.
  - intros H. apply negb_true_iff, Z.eqb_neq in H.
    destruct (scan_from_found p 0 8 _ eq_refl H) as (Hr & Hp & _).
    exists (scan_from p 0 8). split; [lia|].
    unfold p in Hp. by apply negb_true_iff, Z.eqb_neq in Hp.
  - intros (i & Hi & Hne). apply negb_true_iff, Z.eqb_neq. intros Hnone.
    pose proof (scan_from_none p 0 8 ltac:(lia) Hnone i ltac:(lia)) as Hp.
    unfold p in Hp. apply negb_false_iff, Z.eqb_eq in Hp. by apply Hne.
Qed.

(** ** Header strings and ranges *)

Lemma strncpy_cstr src n :
  strncpy src n
  = take n (cstr src) ++ replicate (n - length (take n (cstr src))) 0.
Proof.
  revert src. induction n as [|n IH]; intros src; [by destruct src|].
  destruct src as [|c src]; [reflexivity|]. cbn [strncpy cstr].
  destruct (c =? 0); [done|].
  cbn [take length app]. by rewrite IH.
Qed.

Lemma cstr_bytes a : Forall is_byte a -> Forall is_byte (cstr a).
Proof.
  induction 1 as [|c a Hc Ha IH]; cbn [cstr]; [done|].
  destruct (c =? 0); [done | by constructor].
Qed.

Lemma cstr_no_nul a : 0 ∉ cstr a.
Proof.
  induction a as [|c a IH]; cbn [cstr]; [by intros ?%elem_of_nil|].
  destruct (c =? 0) eqn:Hc; [by intros ?%elem_of_nil|].
  apply Z.eqb_neq in Hc. intros [?|?]%elem_of_cons; [lia | done].
Qed.

(** A string field as the parser stores it: [strncpy] of 32 bytes, then a
    NUL at index 31. *)
Lemma string_field_spec src :
  wr (strncpy src 32) 31 0
  = take 31 (cstr src) ++ replicate (32 - length (take 31 (cstr src))) 0.
Proof.
  rewrite strncpy_cstr. unfold wr. change (Z.to_nat 31) with 31%nat.
  set (s := cstr src).
  destruct (decide (length s < 32)%nat) as [Hshort|Hlong].
  - rewrite !take_ge by lia.
    rewrite insert_app_r_alt by lia.
    rewrite insert_replicate. done.
  - rewrite !length_take.
    replace (32 - 32 `min` length s)%nat with 0%nat by lia.
    replace (32 - 31 `min` length s)%nat with 1%nat by lia.
    cbn [replicate]. rewrite app_nil_r.
    destruct (lookup_lt_is_Some_2 s 31 ltac:(lia)) as [x Hx].
    change 32%nat with (S 31). rewrite (take_S_r s 31 x Hx).
    rewrite insert_app_r_alt by (rewrite length_take; lia).
    rewrite length_take. replace (31 - 31 `min` length s)%nat with 0%nat by lia.
    done.
Qed.

Lemma cstr_take n m src :
  (n <= m)%nat -> take n (cstr (take m src)) = take n (cstr src).
Proof.
  revert m src. induction n as [|n IH]; intros m src Hnm; [done|].
  destruct m as [|m]; [lia|]. destruct src as [|c src]; [done|].
  cbn [take cstr]. destruct (c =? 0); [done|].
  cbn [take]. f_equal. apply IH. lia.
Qed.

Lemma cstr_app_nul s n :
  0 ∉ s -> (0 < n)%nat -> cstr (s ++ replicate n 0) = s.
Proof.
  intros Hs Hn. induction s as [|c s IH]; cbn [app cstr].
  - destruct n; [lia | done].
  - apply not_elem_of_cons in Hs as [Hc Hs].
    rewrite (proj2 (Z.eqb_neq c 0)) by lia. f_equal. by apply IH.
Qed.

Lemma take_cstr_no_nul n a : 0 ∉ take n (cstr a).
Proof.
  intros (i & Hi & _)%elem_of_take.
  apply list_elem_of_lookup_2 in Hi. by apply (cstr_no_nul a).
Qed.

Lemma c_string_field_facts field :
  length (c_string_field field) = 32%nat /\
  rd (c_string_field field) 31 = 0 /\
  cstr (c_string_field field) = take 31 (cstr field).
Proof.
  unfold c_string_field. cbv zeta.
  set (s := take 31 (cstr field)).
  assert (Hs : (length s <= 31)%nat) by (unfold s; rewrite length_take; lia).
  split; [|split].
  - rewrite length_app, length_replicate. lia.
  - apply rd_app_r_replicate. lia.
  - apply cstr_app_nul; [apply take_cstr_no_nul | lia].
Qed.

(** The parser on a file of at least 128 bytes that starts with the magic. *)
Lemma nsf_read_header_impl_ok bytes hdr :
  (128 <= length bytes)%nat -> take 5 bytes = nsf_magic ->
  nsf_read_header_impl (fopen bytes) hdr
  = (ESP_OK, {| contents := bytes; fpos := 128; feof := false |},
     header_of_bytes (take 128 bytes)).
Proof.
  intros Hlen Hmagic.
  unfold nsf_read_header_impl, fread, fopen. cbn [contents fpos feof].
  rewrite drop_0. change (Z.to_nat 128) with 128%nat.
  rewrite length_take.
  rewrite (proj2 (Z.eqb_eq _ 128)) by lia. cbn [negb].
  rewrite take_take. change (5 `min` 128)%nat with 5%nat.
  rewrite bool_decide_eq_true_2 by done. cbn [negb].
  unfold header_of_bytes. do 2 f_equal.
  replace (128 `min` length bytes)%nat with 128%nat by lia.
  reflexivity.
Qed.

(** The parser on any other file. *)
Lemma nsf_read_header_impl_fail bytes hdr :
  (length bytes < 128)%nat \/ take 5 bytes <> nsf_magic ->
  exists f, nsf_read_header_impl (fopen bytes) hdr = (ESP_FAIL, f, hdr).
Proof.
  intros Hbad.
  unfold nsf_read_header_impl, fread, fopen. cbn [contents fpos feof].
  rewrite drop_0. change (Z.to_nat 128) with 128%nat.
  rewrite length_take.
  destruct (decide (length bytes < 128)%nat) as [Hshort|Hlong].
  - rewrite (proj2 (Z.eqb_neq _ 128)) by lia. cbn [negb]. eauto.
  - rewrite (proj2 (Z.eqb_eq _ 128)) by lia. cbn [negb].
    rewrite take_take. change (5 `min` 128)%nat with 5%nat.
    rewrite bool_decide_eq_false_2 by (destruct Hbad; [lia | done]).
    cbn [negb]. eauto.
Qed.

(** X2: the three string fields of a parsed header are proper C strings of
    32 bytes: each holds the file's field up to its first NUL, cut to 31
    characters, and NULs from there to the end; so it has a terminator at
    index 31 at the latest, whatever the file holds. *)
Theorem X2_header_strings (bytes : list Z) (hdr : nsf_header_t) :
  (128 <= length bytes)%nat ->
  take 5 bytes = nsf_magic ->
  let h := snd (nsf_read_header_impl (fopen bytes) hdr) in
  let field off := take 32 (drop off bytes) in
  name h = c_string_field (field 14%nat) /\
  artist h = c_string_field (field 46%nat) /\
  copyright h = c_string_field (field 78%nat) /\
  forall s, s ∈ [name h; artist h; copyright h] ->
    length s = 32%nat /\ rd s 31 = 0 /\ (0 ∉ cstr s) /\
    (length (cstr s) <= 31)%nat.
Proof.
  intros Hlen Hmagic h field.
  assert (Hfield : forall off, (off + 32 <= 128)%nat ->
            wr (strncpy (drop off (take 128 bytes)) 32) 31 0
            = c_string_field (field off)).
  { intros off Hoff. rewrite string_field_spec. unfold c_string_field, field.
    cbv zeta. rewrite (cstr_take 31 32) by lia.
    replace (take 31 (cstr (drop off (take 128 bytes))))
      with (take 31 (cstr (drop off bytes))); [done|].
    rewrite <- (cstr_take 31 32 (drop off bytes)) by lia.
    rewrite <- (cstr_take 31 32 (drop off (take 128 bytes))) by lia.
    do 2 f_equal. rewrite !take_drop_commute, take_take. do 2 f_equal. lia. }
  assert (Hn : name h = c_string_field (field 14%nat)).
  { unfold h. rewrite nsf_read_header_impl_ok by done.
    cbn [snd header_of_bytes name artist copyright]. apply Hfield. lia. }
  assert (Ha : artist h = c_string_field (field 46%nat)).
  { unfold h. rewrite nsf_read_header_impl_ok by done.
    cbn [snd header_of_bytes name artist copyright]. apply Hfield. lia. }
  assert (Hc : copyright h = c_string_field (field 78%nat)).
  { unfold h. rewrite nsf_read_header_impl_ok by done.
    cbn [snd header_of_bytes name artist copyright]. apply Hfield. lia. }
  split; [done|]. split; [done|]. split; [done|].
  intros s Hs. rewrite Hn, Ha, Hc in Hs.
  assert (Hex : exists f, s = c_string_field f).
  { repeat (apply elem_of_cons in Hs as [->|Hs]; [eauto|]).
    by apply elem_of_nil in Hs. }
  destruct Hex as [f ->].
  destruct (c_string_field_facts f) as (H1 & H2 & H3).
  split; [done|]. split; [done|]. rewrite H3.
  split; [apply take_cstr_no_nul | rewrite length_take; lia].
Qed.

Lemma X2_header_strings_witness :
  artist (snd (nsf_read_header_impl (fopen titled_sample) (header zeroed_nsf_file)))
  = c_string_field (take 32 (drop 46 titled_sample)).
Proof.
  refine (proj1 (proj2 (X2_header_strings titled_sample (header zeroed_nsf_file)
                          _ _))).
  - vm_compute. lia.
  - reflexivity.
Defined.

Lemma string_field_bytes src :
  Forall is_byte src -> Forall is_byte (wr (strncpy src 32) 31 0).
Proof.
  intros Hb. rewrite string_field_spec. apply Forall_app. split.
  - by apply Forall_take, cstr_bytes.
  - apply Forall_replicate. unfold is_byte. lia.
Qed.

Lemma string_field_length src : length (wr (strncpy src 32) 31 0) = 32%nat.
Proof.
  rewrite string_field_spec, length_app, length_replicate.
  pose proof (length_take_le (cstr src) 31).
  assert (length (take 31 (cstr src)) <= 31)%nat by (rewrite length_take; lia).
  lia.
Qed.

Lemma le16_range buf n : 0 <= le16 buf n < 65536.
Proof. unfold le16, u16. apply Z.mod_pos_bound. lia. Qed.

(** X3: every field of a header parsed from a file of bytes is within the
    range of its C type and the arrays have their declared sizes; the eight
    initial bank numbers are the bytes at 0x70, the PAL/NTSC bits the byte at
    0x7A, the sound chip bits the byte at 0x7B and the four extra bytes those
    at 0x7C. *)
Theorem X3_header_fields (bytes : list Z) (hdr : nsf_header_t) :
  Forall is_byte bytes ->
  (128 <= length bytes)%nat ->
  take 5 bytes = nsf_magic ->
  let h := snd (nsf_read_header_impl (fopen bytes) hdr) in
  header_in_range h /\
  bankswitch_init h = take 8 (drop 0x70 bytes) /\
  pal_ntsc_bits h = rd bytes 0x7A /\
  extra_sound_chips h = rd bytes 0x7B /\
  extra h = take 4 (drop 0x7C bytes).
Proof.
  intros Hb Hlen Hmagic h. unfold h.
  rewrite nsf_read_header_impl_ok by done. cbn [snd].
  set (buf := take 128 bytes).
  assert (Hbuf : Forall is_byte buf) by (by apply Forall_take).
  assert (Hlbuf : length buf = 128%nat) by (unfold buf; rewrite length_take; lia).
  assert (Hrd : forall i, 0 <= i < 128 -> rd buf i = rd bytes i).
  { intros i Hi. unfold rd, buf. rewrite lookup_take_lt; [done | lia]. }
  assert (Htd : forall n off, (off + n <= 128)%nat ->
            take n (drop off buf) = take n (drop off bytes)).
  { intros n off Hn. unfold buf.
    rewrite !take_drop_commute, take_take. do 2 f_equal. lia. }
  split; [|split; [|split; [|split]]].
  - unfold header_of_bytes. split; cbn;
      try apply le16_range; try (apply rd_is_byte; done);
      try (split; [apply string_field_length
                  | apply string_field_bytes, Forall_drop; done]).
    + split; [|by apply Forall_take, Forall_drop].
      rewrite length_take, length_drop. lia.
    + split; [|by apply Forall_take, Forall_drop].
      rewrite length_take, length_drop. lia.
  - apply (Htd 8 112)%nat. lia.
  - apply Hrd. lia.
  - apply Hrd. lia.
  - apply (Htd 4 124)%nat. lia.
Qed.

Lemma X3_header_fields_witness :
  header_in_range
    (snd (nsf_read_header_impl (fopen banked_sample) (header zeroed_nsf_file))).
Proof.
  refine (proj1 (X3_header_fields banked_sample (header zeroed_nsf_file) _ _ _)).
  - apply (bool_decide_unpack _). vm_compute. exact I.
  - apply Nat2Z.inj_le. vm_compute. discriminate.
  - reflexivity.
Defined.

(** ** Opening files *)

(** X4: [nsf_read_header] fails with [ESP_ERR_INVALID_ARG] on a null
    argument; otherwise it returns [ESP_OK] exactly when the file can be
    opened, has at least 128 bytes and starts with the magic, and every other
    outcome is [ESP_FAIL] with the caller's header left as it was.  It
    succeeds exactly on the files on which [nsf_open] (with no instance
    active) succeeds, and both then hold the same header, which does not
    depend on what the caller's header held before. *)
Theorem X4_read_header_outcomes {path : Type} (fs : path -> option (list Z))
    (filename : option path) (hdr : option nsf_header_t) :
  let '(ret, out) := nsf_read_header fs filename hdr in
  (ret = ESP_ERR_INVALID_ARG <-> filename = None \/ hdr = None) /\
  (ret = ESP_OK <->
   exists name h bytes,
     filename = Some name /\ hdr = Some h /\ fs name = Some bytes /\
     (128 <= length bytes)%nat /\ take 5 bytes = nsf_magic) /\
  (ret <> ESP_OK ->
   out = hdr /\ (ret = ESP_FAIL \/ ret = ESP_ERR_INVALID_ARG)) /\
  (forall name h bytes,
     filename = Some name -> hdr = Some h -> fs name = Some bytes ->
     (ret = ESP_OK <-> fst (nsf_open None bytes) = ESP_OK) /\
     (ret = ESP_OK ->
      out = Some (header_of_bytes (take 128 bytes)) /\
      header <$> snd (nsf_open None bytes) = out)).
Proof.
  unfold nsf_read_header.
  destruct filename as [name|], hdr as [h|];
    try (split; [split; [auto | done]|];
         split; [split; [done | intros (? & ? & ? & ? & ? & _); done]|];
         split; [auto | done]).
  destruct (fs name) as [bytes|] eqn:Hfs.
  2:{ split; [split; [done | intros [?|?]; done]|].
      split; [split; [done | intros (? & ? & ? & ? & ? & ? & _); congruence]|].
      split; [auto | congruence]. }
  destruct (decide ((128 <= length bytes)%nat /\ take 5 bytes = nsf_magic))
    as [[Hlen Hmagic]|Hbad].
  - assert (Hopen : nsf_open None bytes
              = (ESP_OK,
                 Some (mk_nsf_file {| contents := bytes; fpos := 128; feof := false |}
                         (header_of_bytes (take 128 bytes))
                         (nes_memory zeroed_nsf_file) false))).
    { unfold nsf_open. cbn [file set_file header zeroed_nsf_file].
      by rewrite nsf_read_header_impl_ok. }
    rewrite nsf_read_header_impl_ok by done.
    split; [split; [done | intros [?|?]; done]|].
    split; [split; [intros _; by exists name, h, bytes | done]|].
    split; [done|].
    intros name' h' bytes' ? ? ?. simplify_eq. rewrite Hopen. done.
  - assert (Hbad' : (length bytes < 128)%nat \/ take 5 bytes <> nsf_magic).
    { destruct (decide (length bytes < 128)%nat); [by left | right].
      intros ?. apply Hbad. split; [lia | done]. }
    assert (Hopen : fst (nsf_open None bytes) <> ESP_OK).
    { unfold nsf_open. cbn [file set_file header zeroed_nsf_file].
      match goal with
      | |- context [nsf_read_header_impl (fopen bytes) ?h0] =>
          destruct (nsf_read_header_impl_fail bytes h0 Hbad') as [f ->]
      end. done. }
    destruct (nsf_read_header_impl_fail bytes h Hbad') as [f ->].
    split; [split; [done | intros [?|?]; done]|].
    split; [split; [done | intros (? & ? & ? & ? & ? & ? & ? & ?);
                            simplify_eq; by destruct Hbad]|].
    split; [auto|].
    intros name' h' bytes' ? ? ?. simplify_eq. done.
Qed.

(** X5: [nsf_open] returns [ESP_OK] exactly when no instance is active and
    the file has at least 128 bytes and starts with the magic.  The instance
    it registers then holds the parsed header, the file positioned after the
    header, a zeroed memory image and no callback; and as long as it stays
    registered every further [nsf_open] is refused with
    [ESP_ERR_INVALID_STATE] and changes nothing. *)
Theorem X5_single_instance (active : option nsf_file_t) (bytes bytes' : list Z) :
  let '(ret, active') := nsf_open active bytes in
  (ret = ESP_OK <->
   active = None /\ (128 <= length bytes)%nat /\ take 5 bytes = nsf_magic) /\
  (ret = ESP_OK ->
   exists nsf,
     active' = Some nsf /\
     file nsf = {| contents := bytes; fpos := 128; feof := false |} /\
     header nsf = header_of_bytes (take 128 bytes) /\
     nes_memory nsf = nes_memory zeroed_nsf_file /\
     apu_write_cb nsf = false /\
     nsf_open active' bytes' = (ESP_ERR_INVALID_STATE, active')) /\
  (active <> None -> ret = ESP_ERR_INVALID_STATE /\ active' = active).
Proof.
  unfold nsf_open at 1. destruct active as [a|].
  { split; [split; [done | intros [? _]; done]|]. done. }
  cbn [file set_file header zeroed_nsf_file].
  destruct (decide ((128 <= length bytes)%nat /\ take 5 bytes = nsf_magic))
    as [[Hlen Hmagic]|Hbad].
  - rewrite nsf_read_header_impl_ok by done.
    split; [done|]. split; [|done]. intros _. eexists. by repeat split.
  - assert (Hbad' : (length bytes < 128)%nat \/ take 5 bytes <> nsf_magic).
    { destruct (decide (length bytes < 128)%nat); [by left | right].
      intros ?. apply Hbad. split; [lia | done]. }
    match goal with
    | |- context [nsf_read_header_impl (fopen bytes) ?h0] =>
        destruct (nsf_read_header_impl_fail bytes h0 Hbad') as [f ->]
    end.
    split; [split; [done | intros (_ & ? & ?); by destruct Hbad]|]. done.
Qed.

(** ** The LRU list as a move-to-front list *)

(** Marking a bank that is in the list moves its first occurrence to the
    head. *)
Lemma mark_use_order_front uo bank i :
  length uo = 10%nat -> uo !! i = Some bank ->
  (forall j, (j < i)%nat -> uo !! j <> Some bank) ->
  mark_use_order uo bank = bank :: take i uo ++ drop (S i) uo.
Proof.
  intros Hlen Hi Hfirst.
  pose proof (lookup_lt_Some _ _ _ Hi) as Hilt.
  assert (Hrd : forall k, (k < 10)%nat -> uo !! k = Some (rd uo (Z.of_nat k))).
  { intros k Hk. rewrite <- (Nat2Z.id k) at 1. apply rd_lookup. lia. }
  assert (Hne : forall k, (k < i)%nat -> (rd uo (Z.of_nat k) =? bank) = false).
  { intros k Hk. apply Z.eqb_neq. intros Heq.
    apply (Hfirst k Hk). rewrite Hrd by lia. by rewrite Heq. }
  assert (Hi' : rd uo (Z.of_nat i) = bank).
  { pose proof (Hrd i ltac:(lia)) as H. rewrite Hi in H. congruence. }
  unfold mark_use_order.
  destruct i as [|i].
  - change (Z.of_nat 0) with 0 in Hi'. rewrite Hi', Z.eqb_refl.
    destruct uo as [|x uo]; [done|]. cbn in Hi. simplify_eq.
    cbn [take drop app]. by rewrite drop_0.
  - pose proof (Hne 0%nat ltac:(lia)) as H0.
    change (Z.of_nat 0) with 0 in H0. rewrite H0.
    rewrite (scan_from_first _ 1 (ROM_BANK_COUNT - 1) (Z.of_nat (S i))).
    + rewrite (proj2 (Z.eqb_neq (Z.of_nat (S i)) (-1))) by lia. cbn [negb].
      rewrite Nat2Z.id. apply rotate_use_order. lia.
    + unfold ROM_BANK_COUNT. lia.
    + by rewrite Hi', Z.eqb_refl.
    + intros k Hk. replace k with (Z.of_nat (Z.to_nat k)) by lia.
      apply Hne. lia.
Qed.

(** Marking a bank that is not in the list puts it at the head when the last
    entry is empty, and changes nothing otherwise. *)
Lemma mark_use_order_absent uo bank :
  length uo = 10%nat -> bank ∉ uo ->
  mark_use_order uo bank
  = if decide (rd uo 9 = -1) then bank :: take 9 uo else uo.
Proof.
  intros Hlen Hnew. case_decide as Htail.
  - by apply mark_use_order_insert.
  - unfold mark_use_order.
    assert (Hne : forall k, 0 <= k < 10 -> (rd uo k =? bank) = false).
    { intros k Hk. apply Z.eqb_neq. intros <-. apply Hnew, rd_elem_of. lia. }
    rewrite (Hne 0) by lia.
    rewrite scan_from_all_false
      by (intros k Hk; apply Hne; unfold ROM_BANK_COUNT in Hk; lia).
    change (negb (-1 =? -1)) with false. cbv iota.
    change (Z.of_nat ROM_BANK_COUNT - 1) with 9.
    by rewrite (proj2 (Z.eqb_neq _ _) Htail).
Qed.

Lemma first_occurrence (uo : list Z) bank :
  bank ∈ uo ->
  exists i, uo !! i = Some bank /\ forall j, (j < i)%nat -> uo !! j <> Some bank.
Proof.
  intros Hin.
  destruct (list_find_elem_of (fun x => x = bank) uo bank Hin eq_refl)
    as [[i x] Hfind].
  apply list_find_Some in Hfind as (Hi & -> & Hfirst).
  exists i. split; [done|]. intros j Hj Hl. by apply (Hfirst j bank).
Qed.

Lemma length_mark_use_order uo bank :
  length uo = 10%nat -> length (mark_use_order uo bank) = 10%nat.
Proof.
  intros Hlen. destruct (decide (bank ∈ uo)) as [Hin|Hnin].
  - destruct (first_occurrence uo bank Hin) as (i & Hi & Hfirst).
    pose proof (lookup_lt_Some _ _ _ Hi).
    rewrite (mark_use_order_front uo bank i) by done.
    cbn [length]. rewrite length_app, length_take, length_drop. lia.
  - rewrite mark_use_order_absent by done. case_decide; [|done].
    cbn [length]. rewrite length_take. lia.
Qed.

(** After marking, the bank is at the head, unless it was absent from a list
    without an empty entry. *)
Lemma mark_use_order_head uo bank :
  length uo = 10%nat -> bank ∈ uo \/ rd uo 9 = -1 ->
  rd (mark_use_order uo bank) 0 = bank.
Proof.
  intros Hlen Hor. destruct (decide (bank ∈ uo)) as [Hin|Hnin].
  - destruct (first_occurrence uo bank Hin) as (i & Hi & Hfirst).
    by rewrite (mark_use_order_front uo bank i).
  - destruct Hor as [?|Htail]; [done|].
    rewrite mark_use_order_absent by done. by rewrite decide_True.
Qed.

(** X6: [mark_rom_bank_used] treats the ten LRU entries as a move-to-front
    list.  A bank that is in the list is taken out at its first occurrence
    and put at the head, the entries before it moving down by one and those
    after it staying; a bank that is not in the list is put at the head with
    all entries moving down when the last entry is empty (-1), and otherwise
    the list is left as it is.  The list keeps its ten entries. *)
Theorem X6_mark_rom_bank_used_law (m : nsf_nes_memory_t) (bank : Z) :
  length (rom_bank_use_order m) = 10%nat ->
  let uo := rom_bank_use_order m in
  let uo' := rom_bank_use_order (mark_rom_bank_used m bank) in
  (forall i, uo !! i = Some bank ->
             (forall j, (j < i)%nat -> uo !! j <> Some bank) ->
             uo' = bank :: take i uo ++ drop (S i) uo /\ uo' ≡ₚ uo) /\
  (bank ∉ uo -> rd uo 9 = -1 -> uo' = bank :: take 9 uo) /\
  (bank ∉ uo -> rd uo 9 <> -1 -> uo' = uo) /\
  length uo' = 10%nat.
Proof.
  intros Hlen uo uo'. unfold uo', mark_rom_bank_used.
  cbn [rom_bank_use_order set_rom_bank_use_order]. fold uo.
  split; [|split; [|split]].
  - intros i Hi Hfirst.
    rewrite (mark_use_order_front uo bank i) by done. split; [done|].
    rewrite <- (take_drop_middle uo i bank Hi) at 3.
    by rewrite Permutation_middle.
  - intros Hnew Htail. rewrite mark_use_order_absent by done.
    by rewrite decide_True.
  - intros Hnew Htail. rewrite mark_use_order_absent by done.
    by rewrite decide_False.
  - by apply length_mark_use_order.
Qed.

Lemma X6_mark_rom_bank_used_law_witness :
  length
    (rom_bank_use_order
       (mark_rom_bank_used
          (set_rom_bank_use_order [3; 1; 2; -1; -1; -1; -1; -1; -1; -1]
             (nes_memory zeroed_nsf_file)) 2)) = 10%nat.
Proof.
  exact (proj2 (proj2 (proj2
    (X6_mark_rom_bank_used_law
       (set_rom_bank_use_order [3; 1; 2; -1; -1; -1; -1; -1; -1; -1]
          (nes_memory zeroed_nsf_file)) 2 eq_refl)))).
Defined.

(** X7: marking is idempotent, and after it the bank is at the head of the
    list unless the bank was absent from a list without an empty entry. *)
Theorem X7_mark_rom_bank_used_idempotent (m : nsf_nes_memory_t) (bank : Z) :
  length (rom_bank_use_order m) = 10%nat ->
  let m' := mark_rom_bank_used m bank in
  mark_rom_bank_used m' bank = m' /\
  (bank ∈ rom_bank_use_order m \/ rd (rom_bank_use_order m) 9 = -1 ->
   rd (rom_bank_use_order m') 0 = bank).
Proof.
  intros Hlen m'. unfold m', mark_rom_bank_used.
  cbn [rom_bank_use_order set_rom_bank_use_order].
  set (uo := rom_bank_use_order m) in *.
  assert (Hhead : forall l, length (bank :: l) = 10%nat ->
            mark_use_order (bank :: l) bank = bank :: l).
  { intros l Hl. rewrite (mark_use_order_front _ bank 0) by (done || lia).
    cbn [take drop app]. by rewrite drop_0. }
  assert (Hcases : (exists l, mark_use_order uo bank = bank :: l)
                   \/ (mark_use_order uo bank = uo /\ (bank ∉ uo)
                       /\ rd uo 9 <> -1)).
  { destruct (decide (bank ∈ uo)) as [Hin|Hnin].
    - destruct (first_occurrence uo bank Hin) as (i & Hi & Hfirst).
      left. rewrite (mark_use_order_front uo bank i) by done. eauto.
    - rewrite mark_use_order_absent by done. case_decide; [eauto | by right]. }
  pose proof (length_mark_use_order uo bank Hlen) as Hl'.
  split.
  - apply nes_memory_ext; cbn [ram prg apu_regs bank_regs int_vecs rom_block
      rom_block_bank_id rom rom_bank_id rom_bank_loaded rom_bank_use_order
      set_rom_bank_use_order]; try reflexivity.
    destruct Hcases as [[l Hl]|(Hsame & _)].
    + rewrite Hl in *. by apply Hhead.
    + by rewrite !Hsame.
  - intros Hor. destruct Hcases as [[l Hl]|(_ & Hnin & Htail)].
    + by rewrite Hl.
    + by destruct Hor.
Qed.

Lemma X7_mark_rom_bank_used_idempotent_witness :
  let m := set_rom_bank_use_order [3; 1; 2; -1; -1; -1; -1; -1; -1; -1]
             (nes_memory zeroed_nsf_file) in
  mark_rom_bank_used (mark_rom_bank_used m 2) 2 = mark_rom_bank_used m 2.
Proof.
  exact (proj1
    (X7_mark_rom_bank_used_idempotent
       (set_rom_bank_use_order [3; 1; 2; -1; -1; -1; -1; -1; -1; -1]
          (nes_memory zeroed_nsf_file)) 2 eq_refl)).
Defined.

(** ** The memory map seen from the bus *)

(** The value of a read depends on the byte it addresses only. *)
Lemma read6502_congr nsf1 nsf2 a :
  let m1 := nes_memory nsf1 in
  let m2 := nes_memory nsf2 in
  (a <= 0x07FF -> rd (ram m1) a = rd (ram m2) a) ->
  prg m1 = prg m2 ->
  (0x4000 <= a <= 0x4017 ->
   rd (apu_regs m1) (a - 0x4000) = rd (apu_regs m2) (a - 0x4000)) ->
  (0x5FF8 <= a <= 0x5FFF ->
   rd (bank_regs m1) (a - 0x5FF8) = rd (bank_regs m2) (a - 0x5FF8)) ->
  int_vecs m1 = int_vecs m2 ->
  (0x8000 <= a < 0xFFFA -> rom_block m1 = rom_block m2 /\ rom m1 = rom m2) ->
  fst (read6502 (Some nsf1) a) = fst (read6502 (Some nsf2) a).
Proof.
  intros m1 m2 Hram Hprg Hapu Hbank Hvec Hrom. unfold read6502.
  fold m1 m2.
  destruct (a <=? 0x07FF) eqn:H1; [cbn [fst]; apply Hram; lia|].
  destruct ((0x1000 <=? a) && (a <=? 0x107F)); [cbn [fst]; congruence|].
  destruct ((0x4000 <=? a) && (a <=? 0x4017)) eqn:H3;
    [cbn [fst]; apply Hapu; lia|].
  destruct ((0x5FF8 <=? a) && (a <=? 0x5FFF)) eqn:H4;
    [cbn [fst]; apply Hbank; lia|].
  destruct ((0x8000 <=? a) && (a <? 0xFFFA)) eqn:H5.
  { destruct Hrom as [-> ->]; [lia|].
    by destruct (rd_ptr (rom_block m2) _). }
  destruct (0xFFFA <=? a); cbn [fst]; congruence.
Qed.

(** Outside the ROM area a read returns a value that depends on the regions
    behind the bus only. *)
Lemma read6502_bus_regions nsf1 nsf2 a :
  ~ (0x8000 <= a < 0xFFFA) ->
  bus_regions nsf1 = bus_regions nsf2 ->
  fst (read6502 (Some nsf1) a) = fst (read6502 (Some nsf2) a).
Proof.
  intros Ha Hr. unfold bus_regions in Hr. simplify_eq.
  apply read6502_congr; (congruence || lia).
Qed.

(** X8: a store to an address outside the bank registers is seen by the bus
    at that address only.  In RAM ($0000-$07FF) and in the APU registers
    ($4000-$4017) a read of the address returns the stored value; anywhere
    else (the bootstrap program, the ROM area, the vectors, the unmapped
    ranges) the store is dropped, with no event.  A read of any other address
    returns what it returned before the store. *)
Theorem X8_store_visibility (nsf : nsf_file_t) (a v a' : Z) :
  length (ram (nes_memory nsf)) = 2048%nat ->
  length (apu_regs (nes_memory nsf)) = 24%nat ->
  0 <= a < 65536 -> 0 <= a' < 65536 ->
  ~ (0x5FF8 <= a <= 0x5FFF) ->
  let after := fst (write6502 (Some nsf) a v) in
  (a <= 0x07FF \/ 0x4000 <= a <= 0x4017 -> fst (read6502 after a) = v) /\
  (~ (a <= 0x07FF \/ 0x4000 <= a <= 0x4017) ->
   write6502 (Some nsf) a v = (Some nsf, [])) /\
  (a' <> a -> fst (read6502 after a') = fst (read6502 (Some nsf) a')).
Proof.
  intros Hram Hapu Ha Ha' Hbank after. unfold after, write6502.
  destruct (a <=? 0x07FF) eqn:Hlo.
  { cbn [fst]. split; [|split; [lia|]].
    - intros _. unfold read6502. mem_fields. rewrite Hlo. cbn [fst].
      apply rd_wr_eq. lia.
    - intros Hne. apply read6502_congr; mem_fields; try done.
      intros _. apply rd_wr_ne. lia. }
  destruct ((0x4000 <=? a) && (a <=? 0x4017)) eqn:Hapur.
  { assert (Hafter : forall evs1 evs2 evs3 (b1 b2 : bool) x,
              fst (if b1 then if b2 then (x, evs1) else (x, evs2)
                   else (x, evs3) : option nsf_file_t * list bus_event) = x).
    { by intros ? ? ? [] [] ?. }
    rewrite Hafter.
    split; [|split; [lia|]].
    - intros _. unfold read6502. mem_fields. rewrite Hlo, Hapur.
      replace ((0x1000 <=? a) && (a <=? 0x107F)) with false by lia.
      cbn [fst]. apply rd_wr_eq. lia.
    - intros Hne. apply read6502_congr; mem_fields; try done.
      intros Hin. apply rd_wr_ne. lia. }
  replace ((0x5FF8 <=? a) && (a <=? 0x5FFF)) with false by lia.
  cbn [fst]. split; [lia|]. done.
Qed.

Lemma X8_store_visibility_witness :
  fst (read6502 (fst (write6502 (Some zeroed_nsf_file) 0x4015 0x0F)) 0x4015)
  = 0x0F.
Proof.
  refine (proj1 (X8_store_visibility zeroed_nsf_file 0x4015 0x0F 0
                   eq_refl eq_refl _ _ _) _); lia.
Defined.

(** X9: on an instance whose ROM buffer is the bank cache of ten slots, a
    store to a bank register ($5FF8-$5FFF) is read back from the register,
    whether or not it loads a bank, and it changes what a read returns
    nowhere else outside the ROM area. *)
Theorem X9_bank_register_readback (nsf : nsf_file_t) (a v a' : Z) :
  length (rom (nes_memory nsf)) = Z.to_nat 40960 ->
  length (bank_regs (nes_memory nsf)) = 8%nat ->
  0x5FF8 <= a <= 0x5FFF ->
  let after := fst (write6502 (Some nsf) a v) in
  fst (read6502 after a) = v /\
  (0 <= a' < 65536 -> ~ (0x8000 <= a' < 0xFFFA) -> a' <> a ->
   fst (read6502 after a') = fst (read6502 (Some nsf) a')).
Proof.
  intros _ Hlen Ha after.
  assert (Hbr : forall n, bank_regs (nes_memory n) = bank_regs (nes_memory nsf) ->
            fst (read6502 (Some n) a) = rd (bank_regs (nes_memory nsf)) (a - 0x5FF8)).
  { intros n Hn. unfold read6502.
    replace (a <=? 0x07FF) with false by lia.
    replace ((0x1000 <=? a) && (a <=? 0x107F)) with false by lia.
    replace ((0x4000 <=? a) && (a <=? 0x4017)) with false by lia.
    replace ((0x5FF8 <=? a) && (a <=? 0x5FFF)) with true by lia.
    cbn [fst]. by rewrite Hn. }
  unfold after, write6502.
  replace (a <=? 0x07FF) with false by lia.
  replace ((0x4000 <=? a) && (a <=? 0x4017)) with false by lia.
  replace ((0x5FF8 <=? a) && (a <=? 0x5FFF)) with true by lia.
  destruct (rd (bank_regs (nes_memory nsf)) (a - 0x5FF8) =? v) eqn:Hsame;
    cbn [negb fst].
  - apply Z.eqb_eq in Hsame. split; [by rewrite Hbr | done].
  - set (nsf1 := set_nes_memory _ nsf).
    assert (Hregs : bus_regions (snd (nsf_load_rom_bank nsf1 a v))
                    = bus_regions nsf1) by apply nsf_load_rom_bank_regions.
    split.
    + transitivity (fst (read6502 (Some nsf1) a)).
      * apply read6502_bus_regions; [lia | done].
      * unfold read6502, nsf1. mem_fields.
        replace (a <=? 0x07FF) with false by lia.
        replace ((0x1000 <=? a) && (a <=? 0x107F)) with false by lia.
        replace ((0x4000 <=? a) && (a <=? 0x4017)) with false by lia.
        replace ((0x5FF8 <=? a) && (a <=? 0x5FFF)) with true by lia.
        cbn [fst]. apply rd_wr_eq. lia.
    + intros Ha' Hrom Hne.
      transitivity (fst (read6502 (Some nsf1) a')).
      * apply read6502_bus_regions; [lia | done].
      * unfold nsf1. apply read6502_congr; mem_fields; try done.
        intros Hin. apply rd_wr_ne. lia.
Qed.

(** ** Events of a run *)

Lemma write6502_events nsf address value :
  Forall (bus_event_ok (apu_write_cb nsf))
    (snd (write6502 (Some nsf) address value)).
Proof.
  unfold write6502.
  destruct (address <=? 0x07FF); [by constructor|].
  destruct ((0x4000 <=? address) && (address <=? 0x4017)) eqn:Hapu.
  { destruct (address =? 0x4016) eqn:Hs; cbn [negb]; [by constructor|].
    cbn [apu_write_cb set_nes_memory].
    destruct (apu_write_cb nsf) eqn:Hcb; [|by constructor].
    repeat constructor. lia. lia. lia. }
  destruct ((0x5FF8 <=? address) && (address <=? 0x5FFF)) eqn:Hbank;
    [|by constructor].
  destruct (negb _); [|by constructor].
  repeat constructor; lia.
Qed.

Lemma run_cpu_events cpu nsf :
  Forall (bus_event_ok (apu_write_cb nsf)) (snd (run_cpu cpu (Some nsf))).
Proof.
  revert nsf.
  induction cpu as [|address k IH|address value k IH]; intros nsf; cbn [run_cpu].
  - by constructor.
  - destruct (read6502_fixed nsf address) as (nsf1 & H1 & F1).
    destruct (read6502 (Some nsf) address) as [value active].
    cbn [snd] in H1. subst active.
    unfold fixed_regions in F1. simplify_eq.
    replace (apu_write_cb nsf) with (apu_write_cb nsf1) by congruence.
    apply IH.
  - pose proof (write6502_events nsf address value) as Hev.
    destruct (write6502_fixed nsf address value) as (nsf1 & H1 & F1).
    destruct (write6502 (Some nsf) address value) as [active ev].
    cbn [fst snd] in *. subst active.
    specialize (IH nsf1).
    destruct (run_cpu k (Some nsf1)) as [active evs]. cbn [snd] in *.
    apply Forall_app. split; [done|].
    unfold fixed_regions in F1. simplify_eq.
    replace (apu_write_cb nsf) with (apu_write_cb nsf1) by congruence.
    done.
Qed.

(** X10: whatever the core does, the bus calls the APU callback only when
    one is installed and only for a register of $4000-$4017 other than $4016
    (the controller strobe), and it asks for a bank load only with a bank
    register of $5FF8-$5FFF, so that no load issued by the bus is rejected
    for its register.  This holds for the events of any run, of
    [nsf_playback_init] and of [nsf_playback_frame]. *)
Theorem X10_bus_events (nsf : nsf_file_t) (song pc : Z) (cb : bool)
    (cpu : cpu_run) :
  Forall (bus_event_ok (apu_write_cb nsf)) (snd (run_cpu cpu (Some nsf))) /\
  Forall (bus_event_ok cb) (snd (nsf_playback_init nsf song cb cpu)) /\
  Forall (bus_event_ok (apu_write_cb nsf))
    (snd (nsf_playback_frame (Some nsf) pc cpu)) /\
  (forall reg bank, BankLoad reg bank ∈ snd (run_cpu cpu (Some nsf)) ->
     forall n, fst (nsf_load_rom_bank n reg bank) <> ESP_ERR_INVALID_ARG).
Proof.
  split; [apply run_cpu_events|]. split; [|split].
  - unfold nsf_playback_init.
    set (nsf0 := nsf_init_nes_prg _ song 0).
    assert (Hcb : apu_write_cb nsf0 = cb) by reflexivity.
    destruct (if nsf_has_bank_switching nsf0 then _ else _) as [ret nsf1] eqn:Hload.
    assert (Hcb1 : apu_write_cb nsf1 = cb).
    { assert (Hf : fixed_regions nsf1 = fixed_regions nsf0).
      { destruct (nsf_has_bank_switching nsf0).
        - pose proof (nsf_init_load_nes_rom_banks_fixed nsf0) as H.
          by rewrite Hload in H.
        - pose proof (nsf_init_load_nes_rom_fixed nsf0) as H.
          by rewrite Hload in H. }
      unfold fixed_regions in Hf. simplify_eq. congruence. }
    destruct (bool_decide (ret <> ESP_OK)); [by constructor|].
    pose proof (run_cpu_events cpu nsf1) as Hev.
    destruct (run_cpu cpu (Some nsf1)) as [active evs]. cbn [snd] in *.
    by rewrite Hcb1 in Hev.
  - unfold nsf_playback_frame.
    destruct (negb (pc =? 0x1007)); [by constructor|].
    pose proof (run_cpu_events cpu nsf) as Hev.
    by destruct (run_cpu cpu (Some nsf)) as [active evs].
  - intros reg bank Hin n.
    pose proof (run_cpu_events cpu nsf) as Hev.
    rewrite Forall_forall in Hev. specialize (Hev _ Hin). cbn in Hev.
    unfold nsf_load_rom_bank.
    replace ((reg <? 0x5FF8) || (reg >? 0x5FFF)) with false by lia.
    destruct (negb (find_loaded_bank (nes_memory n) bank =? -1));
      [by cbn|].
    destruct (if find_empty_slot (nes_memory n) =? -1 then _ else _)
      as [err|[s m1]] eqn:Hslot.
    + destruct (find_empty_slot (nes_memory n) =? -1); [|done].
      apply evict_oldest_bank_err in Hslot. subst err. by cbn.
    + unfold load_bank_into_slot. repeat case_match; by cbn.
Qed.

(** ** Contiguous mode *)

Lemma mark_rom_bank_used_idle m :
  rom_bank_use_order m = replicate 10 0 -> mark_rom_bank_used m 0 = m.
Proof.
  intros Huo. unfold mark_rom_bank_used. rewrite Huo.
  change (mark_use_order (replicate 10 0) 0) with (replicate 10 0).
  rewrite <- Huo. by destruct m.
Qed.

Lemma read6502_idle nsf a :
  rom_bank_use_order (nes_memory nsf) = replicate 10 0 ->
  rom_block_bank_id (nes_memory nsf) = replicate 8 0 ->
  snd (read6502 (Some nsf) a) = Some nsf.
Proof.
  intros Huo Hid. unfold read6502. rewrite Hid.
  repeat case_match; cbn [snd]; try done.
  rewrite rd_replicate by (pose proof (block_index_range a); lia).
  rewrite mark_rom_bank_used_idle by done. by destruct nsf.
Qed.

Lemma write6502_idle nsf a v :
  ~ (0x5FF8 <= a <= 0x5FFF) ->
  exists nsf', fst (write6502 (Some nsf) a v) = Some nsf' /\
    rom_bank_use_order (nes_memory nsf') = rom_bank_use_order (nes_memory nsf) /\
    rom_block_bank_id (nes_memory nsf') = rom_block_bank_id (nes_memory nsf) /\
    rom_bank_loaded (nes_memory nsf') = rom_bank_loaded (nes_memory nsf) /\
    rom_bank_id (nes_memory nsf') = rom_bank_id (nes_memory nsf).
Proof.
  intros Ha. unfold write6502.
  destruct (a <=? 0x07FF); [eauto 10|].
  destruct ((0x4000 <=? a) && (a <=? 0x4017)).
  { repeat case_match; eauto 10. }
  replace ((0x5FF8 <=? a) && (a <=? 0x5FFF)) with false by lia. eauto 10.
Qed.

Lemma run_cpu_idle cpu nsf :
  no_bank_write cpu ->
  rom_bank_use_order (nes_memory nsf) = replicate 10 0 ->
  rom_block_bank_id (nes_memory nsf) = replicate 8 0 ->
  exists nsf', fst (run_cpu cpu (Some nsf)) = Some nsf' /\
    rom_bank_use_order (nes_memory nsf') = replicate 10 0 /\
    rom_block_bank_id (nes_memory nsf') = replicate 8 0 /\
    rom_bank_loaded (nes_memory nsf') = rom_bank_loaded (nes_memory nsf) /\
    rom_bank_id (nes_memory nsf') = rom_bank_id (nes_memory nsf).
Proof.
  intros Hcpu. revert nsf.
  induction Hcpu as [|address k _ IH|address value k Ha _ IH];
    intros nsf Huo Hid; cbn [run_cpu].
  - eauto 10.
  - pose proof (read6502_idle nsf address Huo Hid) as Hr.
    destruct (read6502 (Some nsf) address) as [value active].
    cbn [snd] in Hr. subst active. by apply IH.
  - destruct (write6502_idle nsf address value Ha)
      as (nsf1 & H1 & Huo1 & Hid1 & Hl1 & Hi1).
    destruct (write6502 (Some nsf) address value) as [active ev].
    cbn [fst] in H1. subst active.
    destruct (IH nsf1) as (nsf2 & H2 & Huo2 & Hid2 & Hl2 & Hi2);
      [congruence | congruence|].
    destruct (run_cpu k (Some nsf1)) as [active evs]. cbn [fst] in *.
    exists nsf2. repeat split; congruence.
Qed.

(** X11: without bank switching the bank cache stays idle.  After
    [nsf_playback_init] of a file whose initial bank numbers are all zero,
    and a run of the core that stores to no bank register, no slot is marked
    loaded, the LRU list is as the initialisation left it, and a read of any
    address, the ROM area included, leaves the instance exactly as it was. *)
Theorem X11_contiguous_cache_idle (nsf : nsf_file_t) (song : Z) (cb : bool)
    (cpu : cpu_run) :
  nsf_has_bank_switching nsf = false ->
  no_bank_write cpu ->
  let nsf' := snd (fst (nsf_playback_init nsf song cb cpu)) in
  rom_bank_loaded (nes_memory nsf') = replicate 10 0 /\
  rom_bank_use_order (nes_memory nsf') = replicate 10 0 /\
  forall a, snd (read6502 (Some nsf') a) = Some nsf'.
Proof.
  intros Hbs Hcpu nsf'.
  assert (Hidle : rom_bank_loaded (nes_memory nsf') = replicate 10 0 /\
                  rom_bank_use_order (nes_memory nsf') = replicate 10 0 /\
                  rom_block_bank_id (nes_memory nsf') = replicate 8 0).
  { unfold nsf', nsf_playback_init.
    set (nsf0 := nsf_init_nes_prg _ song 0).
    assert (H0 : rom_bank_loaded (nes_memory nsf0) = replicate 10 0 /\
                 rom_bank_use_order (nes_memory nsf0) = replicate 10 0 /\
                 rom_block_bank_id (nes_memory nsf0) = replicate 8 0)
      by (by repeat split).
    assert (Hbs0 : nsf_has_bank_switching nsf0 = false) by exact Hbs.
    rewrite Hbs0.
    assert (H1 : rom_bank_loaded (nes_memory (snd (nsf_init_load_nes_rom nsf0)))
                 = replicate 10 0 /\
                 rom_bank_use_order (nes_memory (snd (nsf_init_load_nes_rom nsf0)))
                 = replicate 10 0 /\
                 rom_block_bank_id (nes_memory (snd (nsf_init_load_nes_rom nsf0)))
                 = replicate 8 0).
    { clearbody nsf0. unfold nsf_init_load_nes_rom.
      repeat case_match; cbn [snd]; done. }
    destruct (nsf_init_load_nes_rom nsf0) as [ret nsf1]. cbn [snd] in H1.
    destruct H1 as (Hl1 & Huo1 & Hid1).
    destruct (bool_decide (ret <> ESP_OK)); [done|].
    destruct (run_cpu_idle cpu nsf1 Hcpu Huo1 Hid1)
      as (nsf2 & H2 & Huo2 & Hid2 & Hl2 & _).
    destruct (run_cpu cpu (Some nsf1)) as [active evs]. cbn [fst] in H2.
    subst active. cbn [fst snd default from_option id].
    repeat split; congruence. }
  destruct Hidle as (Hl & Huo & Hid).
  split; [done|]. split; [done|].
  intros a. by apply read6502_idle.
Qed.

Lemma X11_contiguous_cache_idle_witness :
  rom_bank_loaded (nes_memory (playing contiguous_sample 0 CpuDone))
  = replicate 10 0.
Proof.
  refine (proj1 (X11_contiguous_cache_idle (opened contiguous_sample) 0 true
                   CpuDone _ _)).
  - vm_compute. reflexivity.
  - constructor.
Defined.

(** ** Restarting playback *)

(** X12: [nsf_playback_init] starts from a clean image: its result depends
    on the header, the file and the arguments only, not on the memory image
    and the callback the instance held before. *)
Theorem X12_playback_init_resets (nsf1 nsf2 : nsf_file_t) (song : Z)
    (cb : bool) (cpu : cpu_run) :
  header nsf1 = header nsf2 ->
  file nsf1 = file nsf2 ->
  nsf_playback_init nsf1 song cb cpu = nsf_playback_init nsf2 song cb cpu.
Proof.
  intros Hh Hf.
  assert (H : nsf_init_nes_memory (set_apu_write_cb cb nsf1)
              = nsf_init_nes_memory (set_apu_write_cb cb nsf2)).
  { destruct nsf1, nsf2. cbn in Hh, Hf. subst. reflexivity. }
  unfold nsf_playback_init. by rewrite H.
Qed.

Lemma X12_playback_init_resets_witness :
  nsf_playback_init (playing banked_sample 0 fill_cache) 0 true CpuDone
  = nsf_playback_init
      (set_file (file (playing banked_sample 0 fill_cache)) (opened banked_sample))
      0 true CpuDone.
Proof.
  apply X12_playback_init_resets.
  - vm_compute. reflexivity.
  - reflexivity.
Defined.

(** ** Outcomes of a bank load *)

(** A load of a cached bank: the window is pointed at the slot of the bank
    and the bank is marked used; nothing else changes. *)
Lemma nsf_load_rom_bank_hit nsf reg bank :
  0x5FF8 <= reg <= 0x5FFF ->
  find_loaded_bank (nes_memory nsf) bank <> -1 ->
  let m := nes_memory nsf in
  let s := find_loaded_bank m bank in
  0 <= s < 10 /\ rd (rom_bank_loaded m) s <> 0 /\ rd (rom_bank_id m) s = bank /\
  nsf_load_rom_bank nsf reg bank
  = (ESP_OK,
     set_nes_memory
       (mark_rom_bank_used
          (set_rom_block_bank_id (wr (rom_block_bank_id m) (reg - 0x5FF8) bank)
             (set_rom_block
                (wr_ptr (rom_block m) (reg - 0x5FF8) (Some (s * 4096))) m))
          bank) nsf).
Proof.
  intros Hreg Hfind m s.
  destruct (scan_from_found _ _ _ _ eq_refl Hfind) as (Hr & Hp & _).
  fold (find_loaded_bank (nes_memory nsf) bank) in Hr, Hp. cbn beta in Hp.
  unfold ROM_BANK_COUNT in Hr.
  apply andb_true_iff in Hp as [Hl Hb].
  apply negb_true_iff, Z.eqb_neq in Hl. apply Z.eqb_eq in Hb.
  split; [unfold s, m; lia|]. split; [done|]. split; [done|].
  unfold nsf_load_rom_bank.
  replace ((reg <? 0x5FF8) || (reg >? 0x5FFF)) with false by lia.
  rewrite (proj2 (Z.eqb_neq _ _) Hfind). cbn [negb].
  assert (Ht : u8 (reg - 0x5FF8) = reg - 0x5FF8)
    by (unfold u8; apply Z.mod_small; lia).
  by rewrite Ht.
Qed.

(** What the eviction removes from the cache. *)
Lemma evict_oldest_bank_perm m s m1 :
  cache_inv m -> find_empty_slot m = -1 ->
  evict_oldest_bank m = inr (s, m1) ->
  cached_banks m ≡ₚ rd (rom_bank_use_order m) 9 :: cached_banks m1.
Proof.
  intros Hinv Hempty Hev.
  pose proof Hinv as [Hli Hll Hlo Hb Hu _].
  pose proof (find_empty_slot_none m Hll Hempty) as Hall.
  pose proof (cache_inv_full m Hinv Hall) as [_ _ _ Hld _ _ _].
  destruct (evict_oldest_bank_slot _ _ _ Hev)
    as (Hs & Hids & _ & _ & Hid1 & Hld1 & _).
  unfold cached_banks. rewrite Hid1, Hld1. rewrite <- Hids.
  apply (cached_banks_of_empty _ _ _ (rd (rom_bank_loaded m) s)).
  - apply rd_lookup. lia.
  - by apply Hld.
  - apply rd_lookup. lia.
Qed.

(** A load of a bank that is not cached, on a memory that satisfies the
    invariants: the slot is the first empty one, or else the one freed by the
    eviction, and the bank is read into it. *)
Lemma nsf_load_rom_bank_miss nsf reg bank :
  memory_inv (nes_memory nsf) ->
  0x5FF8 <= reg <= 0x5FFF -> is_byte bank ->
  find_loaded_bank (nes_memory nsf) bank = -1 ->
  let m := nes_memory nsf in
  exists s m1 f,
    0 <= s < 10 /\
    contents f = contents (file nsf) /\
    nsf_load_rom_bank nsf reg bank
    = (ESP_OK,
       set_file f
         (set_nes_memory
            (mark_rom_bank_used (memory_with_bank nsf m1 reg bank s) bank) nsf)) /\
    cache_inv m1 /\
    rom m1 = rom m /\
    rom_bank_loaded m1 = wr (rom_bank_loaded m) s 0 /\
    (forall s', 0 <= s' -> s' <> s ->
                rd (rom_bank_id m1) s' = rd (rom_bank_id m) s') /\
    ((find_empty_slot m = s /\ m1 = m /\ rd (rom_bank_loaded m) s = 0) \/
     (find_empty_slot m = -1 /\ evict_oldest_bank m = inr (s, m1) /\
      cached_banks m ≡ₚ rd (rom_bank_use_order m) 9 :: cached_banks m1)).
Proof.
  intros [Hc Hw Hrom] Hreg Hbank Hfind m.
  pose proof Hc as [Hli Hll Hlo Hb Hu Ho].
  unfold nsf_load_rom_bank.
  replace ((reg <? 0x5FF8) || (reg >? 0x5FFF)) with false by lia.
  rewrite Hfind. fold m. change (negb (-1 =? -1)) with false. cbv iota.
  destruct (find_empty_slot m =? -1) eqn:Hempty.
  - apply Z.eqb_eq in Hempty.
    destruct (evict_oldest_bank_inv m Hc Hempty)
      as (s & m1 & Hev & Hs & Hc1 & Hs0 & Hrom1 & Hsub & Hlen1).
    rewrite Hev.
    destruct (load_bank_into_slot_ok nsf m1 reg bank s Hs
                ltac:(rewrite Hrom1; exact Hrom) Hbank)
      as (f & Hf & ->).
    destruct (evict_oldest_bank_slot _ _ _ Hev)
      as (_ & _ & _ & _ & Hid1 & Hld1 & _).
    exists s, m1, f. split_and!; try done; try lia.
    + intros s' Hpos Hne. rewrite Hid1. apply rd_wr_ne. lia.
    + right. split; [done|]. split; [done|].
      by apply (evict_oldest_bank_perm m s m1).
  - apply Z.eqb_neq in Hempty.
    destruct (find_empty_slot_some m Hempty) as (Hs & Hs0).
    destruct (load_bank_into_slot_ok nsf m reg bank (find_empty_slot m) Hs Hrom Hbank)
      as (f & Hf & ->).
    specialize (Hs0 Hll).
    assert (Hzero : rd (rom_bank_loaded m) (find_empty_slot m) = 0)
      by (unfold rd; by rewrite Hs0).
    exists (find_empty_slot m), m, f. split_and!; try done; try lia.
    + unfold wr. by rewrite list_insert_id.
    + by left.
Qed.

Lemma cached_banks_of_not_full loaded ids s :
  length loaded = 10%nat -> length ids = 10%nat ->
  loaded !! s = Some 0 ->
  (length (cached_banks_of loaded ids) < 10)%nat.
Proof.
  intros Hll Hli Hs.
  pose proof (lookup_lt_Some _ _ _ Hs) as Hlt.
  pose proof (cached_banks_of_fill loaded ids s 1 0 Hs ltac:(lia) ltac:(lia))
    as Hperm.
  apply Permutation_length in Hperm. cbn [length] in Hperm.
  pose proof (length_cached_banks_of (<[s:=1]> loaded) (<[s:=0]> ids)) as Hle.
  rewrite length_insert in Hle. lia.
Qed.

(** The last LRU entry is empty while a slot is. *)
Lemma lru_inv_tail loaded ids uo s :
  lru_inv loaded ids uo -> loaded !! s = Some 0 -> rd uo 9 = -1.
Proof.
  intros [Hli Hll Hlo Hb Hu (lru & -> & Hp)] Hs.
  pose proof (cached_banks_of_not_full loaded ids s Hll Hli Hs) as Hlt.
  rewrite <- Hp in Hlt. apply rd_app_r_replicate. lia.
Qed.

Lemma lru_inv_elem_of loaded ids uo bank :
  lru_inv loaded ids uo -> bank ∈ cached_banks_of loaded ids -> bank ∈ uo.
Proof.
  intros [_ _ _ _ _ (lru & -> & Hp)] Hin.
  apply elem_of_app. left. by rewrite Hp.
Qed.

(** ** Bank loads under the invariants *)

(** What a bank load leaves behind on a memory that satisfies the
    invariants. *)
Lemma nsf_load_rom_bank_post (nsf : nsf_file_t) (reg bank : Z) :
  memory_inv (nes_memory nsf) ->
  0x5FF8 <= reg <= 0x5FFF ->
  is_byte bank ->
  let m := nes_memory nsf in
  exists nsf' s,
    let m' := nes_memory nsf' in
    nsf_load_rom_bank nsf reg bank = (ESP_OK, nsf') /\
    memory_inv m' /\
    header nsf' = header nsf /\
    contents (file nsf') = contents (file nsf) /\
    0 <= s < 10 /\
    rd_ptr (rom_block m') (reg - 0x5FF8) = Some (s * 4096) /\
    rd (rom_block_bank_id m') (reg - 0x5FF8) = bank /\
    rd (rom_bank_loaded m') s <> 0 /\
    rd (rom_bank_id m') s = bank /\
    bank ∈ cached_banks m' /\
    rd (rom_bank_use_order m') 0 = bank /\
    (bank ∈ cached_banks m ->
     file nsf' = file nsf /\ rom m' = rom m /\
     rom_bank_id m' = rom_bank_id m /\ rom_bank_loaded m' = rom_bank_loaded m).
Proof.
  intros Hinv Hreg Hbank m. subst m.
  destruct (nsf_load_rom_bank_inv nsf reg bank Hinv Hreg Hbank)
    as (nsf' & Hload & Hinv').
  pose proof Hinv as [Hc [Hwb Hwi Hwy Hwc] Hrom].
  pose proof Hc as [Hli Hll Hlo Hb Hu Ho].
  assert (Ht : u8 (reg - 0x5FF8) = reg - 0x5FF8)
    by (unfold u8; apply Z.mod_small; lia).
  destruct (decide (find_loaded_bank (nes_memory nsf) bank = -1)) as [Hfind|Hfind].
  - (* not cached *)
    pose proof (find_loaded_bank_none (nes_memory nsf) bank Hll Hfind) as Hnew.
    destruct (nsf_load_rom_bank_miss nsf reg bank Hinv Hreg Hbank Hfind)
      as (s & m1 & f & Hs & Hf & Hload2 & Hc1 & Hrom1 & Hld1 & Hid1 & Hcase).
    rewrite Hload in Hload2. injection Hload2 as ->.
    pose proof Hc1 as [Hli1 Hll1 Hlo1 _ _ _].
    assert (Hb1 : length (rom_block m1) = 8%nat).
    { destruct Hcase as [(_ & -> & _)|(_ & Hev & _)]; [done|].
      destruct (evict_oldest_bank_windows (nes_memory nsf) s m1 Hev)
        as (-> & _). done. }
    assert (Hi1 : length (rom_block_bank_id m1) = 8%nat).
    { destruct Hcase as [(_ & -> & _)|(_ & Hev & _)]; [done|].
      destruct (evict_oldest_bank_windows (nes_memory nsf) s m1 Hev)
        as (_ & -> & _). done. }
    assert (Hs0 : rom_bank_loaded m1 !! Z.to_nat s = Some 0).
    { rewrite Hld1. apply list_lookup_insert_eq. lia. }
    eexists. exists s. cbv zeta. split; [exact Hload|].
    cache_fields. rewrite ?Ht.
    split_and!; try done; try lia.
    + apply rd_ptr_wr_ptr_eq. lia.
    + apply rd_wr_eq. lia.
    + rewrite !rd_wr_eq by (rewrite ?length_wr; lia). lia.
    + apply rd_wr_eq. lia.
    + unfold cached_banks. cache_fields.
      apply elem_of_cached_banks_of. exists (Z.to_nat s), 1.
      unfold wr. rewrite !list_lookup_insert_eq by (rewrite ?length_insert; lia).
      done.
    + apply mark_use_order_head; [done|]. right.
      by apply (lru_inv_tail _ _ _ (Z.to_nat s) Hc1).
  - (* cached *)
    pose proof (find_loaded_bank_some (nes_memory nsf) bank Hll Hli Hfind) as Hin.
    destruct (nsf_load_rom_bank_hit nsf reg bank Hreg Hfind)
      as (Hs & Hl & Hid & Hload2).
    rewrite Hload in Hload2. injection Hload2 as ->.
    eexists. exists (find_loaded_bank (nes_memory nsf) bank). cbv zeta.
    split; [exact Hload|]. cache_fields.
    split_and!; try done; try lia.
    + apply rd_ptr_wr_ptr_eq. lia.
    + apply rd_wr_eq. lia.
    + apply mark_use_order_head; [done|]. left.
      by apply (lru_inv_elem_of _ _ _ _ Hc).
Qed.

(** X13: on a memory that satisfies the invariants, a bank load with a bank
    register and a bank number of one byte always succeeds: the error exits
    of the eviction are not reachable and the file is never short of a seek.
    Afterwards the invariants hold again, the window of the register points
    at an occupied slot recorded for this bank, and the bank is cached and at
    the head of the LRU list.  A bank that was cached already is not read
    again: file, ROM buffer and slot tables are untouched. *)
Theorem X13_bank_load_succeeds (nsf : nsf_file_t) (reg bank : Z) :
  memory_inv (nes_memory nsf) ->
  0x5FF8 <= reg <= 0x5FFF ->
  is_byte bank ->
  let m := nes_memory nsf in
  exists nsf' s,
    let m' := nes_memory nsf' in
    nsf_load_rom_bank nsf reg bank = (ESP_OK, nsf') /\
    memory_inv m' /\
    header nsf' = header nsf /\
    contents (file nsf') = contents (file nsf) /\
    0 <= s < 10 /\
    rd_ptr (rom_block m') (reg - 0x5FF8) = Some (s * 4096) /\
    rd (rom_block_bank_id m') (reg - 0x5FF8) = bank /\
    rd (rom_bank_loaded m') s <> 0 /\
    rd (rom_bank_id m') s = bank /\
    bank ∈ cached_banks m' /\
    rd (rom_bank_use_order m') 0 = bank /\
    (bank ∈ cached_banks m ->
     file nsf' = file nsf /\ rom m' = rom m /\
     rom_bank_id m' = rom_bank_id m /\ rom_bank_loaded m' = rom_bank_loaded m).
Proof. apply nsf_load_rom_bank_post. Qed.

(** ** Bank images *)

(** Replacing [n] bytes at offset [o] leaves every block of [n] bytes that
    does not overlap them as it was. *)
Lemma take_drop_splice (l img : list Z) (o p n : nat) :
  length img = n -> (o + n <= length l)%nat ->
  (p + n <= o)%nat \/ (o + n <= p)%nat ->
  take n (drop p (take o l ++ img ++ drop (o + n) l)) = take n (drop p l).
Proof.
  intros Himg Hl Hp. apply list_eq. intros i.
  destruct (decide (i < n)%nat) as [Hi|Hi].
  2:{ by rewrite !lookup_take_ge by lia. }
  rewrite !lookup_take_lt, !lookup_drop by lia.
  destruct Hp as [Hlow|Hhigh].
  - rewrite lookup_app_l by (rewrite length_take; lia).
    by rewrite lookup_take_lt by lia.
  - rewrite lookup_app_r by (rewrite length_take; lia).
    rewrite length_take, lookup_app_r by lia.
    rewrite lookup_drop. f_equal. lia.
Qed.

Lemma image_inv_ext nsf1 nsf2 :
  header nsf2 = header nsf1 ->
  contents (file nsf2) = contents (file nsf1) ->
  rom (nes_memory nsf2) = rom (nes_memory nsf1) ->
  rom_bank_id (nes_memory nsf2) = rom_bank_id (nes_memory nsf1) ->
  rom_bank_loaded (nes_memory nsf2) = rom_bank_loaded (nes_memory nsf1) ->
  image_inv nsf1 -> image_inv nsf2.
Proof.
  unfold image_inv, slot_bytes. cbv zeta. intros -> -> -> -> -> H. exact H.
Qed.

(** A bank load keeps every occupied slot equal to the image of its bank. *)
Lemma nsf_load_rom_bank_image nsf reg bank :
  memory_inv (nes_memory nsf) -> image_inv nsf ->
  0x5FF8 <= reg <= 0x5FFF -> is_byte bank ->
  image_inv (snd (nsf_load_rom_bank nsf reg bank)).
Proof.
  intros Hinv Himg Hreg Hbank.
  pose proof Hinv as [Hc _ Hrom].
  pose proof Hc as [Hli Hll _ _ _ _].
  destruct (decide (find_loaded_bank (nes_memory nsf) bank = -1)) as [Hfind|Hfind].
  - destruct (nsf_load_rom_bank_miss nsf reg bank Hinv Hreg Hbank Hfind)
      as (s & m1 & f & Hs & Hf & -> & Hc1 & Hrom1 & Hld1 & Hid1 & _).
    cbn [snd]. unfold image_inv, slot_bytes. cbv zeta. cache_fields.
    rewrite Hf. intros s0 Hs0 Hl0.
    pose proof (padding_range (load_address (header nsf))) as Hpad.
    destruct (decide (s0 = s)) as [->|Hne].
    + rewrite rd_wr_eq by (destruct Hc1; lia).
      pose proof (slot_bytes_memory_with_bank nsf m1 reg bank s Hs
                    ltac:(rewrite Hrom1; exact Hrom)) as Hslot.
      unfold slot_bytes in Hslot |- *. revert Hslot. by cache_fields.
    + rewrite !rd_wr_ne in Hl0 by lia. rewrite rd_wr_ne by lia.
      rewrite Hid1 by lia. rewrite Hld1, rd_wr_ne in Hl0 by lia.
      rewrite <- (Himg s0 Hs0 Hl0). unfold slot_bytes. rewrite Hrom1.
      unfold ROM_BANK_SIZE.
      replace (Z.to_nat (s0 * 4096)) with (Z.to_nat s0 * 4096)%nat by lia.
      replace (Z.to_nat (s * 4096)) with (Z.to_nat s * 4096)%nat by lia.
      apply take_drop_splice.
      * by apply length_bank_image.
      * rewrite Hrom. lia.
      * lia.
  - destruct (nsf_load_rom_bank_hit nsf reg bank Hreg Hfind)
      as (_ & _ & _ & ->).
    cbn [snd]. by apply (image_inv_ext nsf).
Qed.

Lemma read6502_image nsf address :
  image_inv nsf ->
  exists nsf', snd (read6502 (Some nsf) address) = Some nsf' /\ image_inv nsf'.
Proof.
  intros Himg. unfold read6502. repeat case_match; cbn [snd]; eauto.
Qed.

Lemma write6502_image nsf address value :
  memory_inv (nes_memory nsf) -> image_inv nsf -> is_byte value ->
  exists nsf', fst (write6502 (Some nsf) address value) = Some nsf' /\
               image_inv nsf'.
Proof.
  intros Hinv Himg Hv. unfold write6502.
  destruct (address <=? 0x07FF);
    [eexists; split; [done|]; by apply (image_inv_ext nsf)|].
  destruct ((0x4000 <=? address) && (address <=? 0x4017)).
  { repeat case_match;
      (eexists; split; [done|]; by apply (image_inv_ext nsf)). }
  destruct ((0x5FF8 <=? address) && (address <=? 0x5FFF)) eqn:Ha; [|eauto].
  destruct (negb _); [|eauto].
  eexists. split; [done|]. cbn [fst].
  apply nsf_load_rom_bank_image; [| |lia|done].
  - by apply (memory_inv_ext (nes_memory nsf)).
  - by apply (image_inv_ext nsf).
Qed.

Lemma run_cpu_image cpu nsf :
  byte_writes cpu -> memory_inv (nes_memory nsf) -> image_inv nsf ->
  exists nsf', fst (run_cpu cpu (Some nsf)) = Some nsf' /\
               memory_inv (nes_memory nsf') /\ image_inv nsf'.
Proof.
  intros Hcpu. revert nsf.
  induction Hcpu as [|address k _ IH|address value k Hv _ IH];
    intros nsf Hinv Himg; cbn [run_cpu].
  - eauto.
  - destruct (read6502_inv nsf address Hinv) as (nsf1 & H1 & Hinv1).
    destruct (read6502_image nsf address Himg) as (nsf1' & H1' & Himg1).
    destruct (read6502 (Some nsf) address) as [value active].
    cbn [snd] in *. simplify_eq. by apply IH.
  - destruct (write6502_inv nsf address value Hinv Hv) as (nsf1 & H1 & Hinv1).
    destruct (write6502_image nsf address value Hinv Himg Hv)
      as (nsf1' & H1' & Himg1).
    destruct (write6502 (Some nsf) address value) as [active ev].
    cbn [fst] in *. simplify_eq.
    destruct (IH _ Hinv1 Himg1) as (nsf2 & H2 & Hinv2 & Himg2).
    destruct (run_cpu k _) as [active evs]. cbn [fst] in *. eauto.
Qed.

Lemma load_init_banks_image n nsf i :
  memory_inv (nes_memory nsf) -> image_inv nsf ->
  Forall is_byte (bankswitch_init (header nsf)) ->
  0 <= i -> i + Z.of_nat n <= 8 ->
  image_inv (snd (load_init_banks nsf i n)).
Proof.
  revert nsf i. induction n as [|n IH]; intros nsf i Hinv Himg Hb Hi Hn;
    cbn [load_init_banks]; [done|].
  destruct (nsf_load_rom_bank_inv nsf (0x5FF8 + i)
              (rd (bankswitch_init (header nsf)) i) Hinv ltac:(lia)
              ltac:(by apply rd_is_byte)) as (nsf1 & Hl & Hinv1).
  pose proof (nsf_load_rom_bank_image nsf (0x5FF8 + i)
                (rd (bankswitch_init (header nsf)) i) Hinv Himg ltac:(lia)
                ltac:(by apply rd_is_byte)) as Himg1.
  pose proof (nsf_load_rom_bank_regions nsf (0x5FF8 + i)
                (rd (bankswitch_init (header nsf)) i)) as Hreg.
  rewrite Hl in *. cbn [snd] in Hreg, Himg1.
  change (bool_decide (ESP_OK <> ESP_OK)) with false. cbv iota.
  apply IH; [done | done | | lia | lia].
  assert (Hh : header nsf1 = header nsf)
    by (unfold bus_regions in Hreg; by simplify_eq).
  by rewrite Hh.
Qed.

Lemma nsf_init_load_nes_rom_banks_image nsf :
  Forall is_byte (bankswitch_init (header nsf)) ->
  image_inv (snd (nsf_init_load_nes_rom_banks nsf)).
Proof.
  intros Hb. unfold nsf_init_load_nes_rom_banks.
  set (nsf0 := set_nes_memory _ nsf).
  assert (Hinv0 : memory_inv (nes_memory nsf0)).
  { unfold nsf0. cbn [nes_memory set_nes_memory]. split; [split|split|].
    - reflexivity.
    - reflexivity.
    - reflexivity.
    - apply Forall_replicate. unfold is_byte. lia.
    - apply NoDup_nil_2.
    - by exists [].
    - reflexivity.
    - reflexivity.
    - apply Forall_replicate. unfold is_byte. lia.
    - intros _ w Hw Hptr. exfalso. apply Hptr.
      cbn [rom_block set_rom_block_bank_id set_rom_block].
      unfold rd_ptr. rewrite (lookup_replicate_2 8 None) by lia. done.
    - cbn [rom set_rom_block_bank_id set_rom_block set_rom_bank_use_order
           set_rom_bank_loaded set_rom_bank_id set_rom].
      rewrite length_replicate. unfold ROM_BANK_SIZE, ROM_BANK_COUNT. lia. }
  apply load_init_banks_image; [done| |done|lia|lia].
  unfold image_inv, nsf0. cbv zeta. cbn [nes_memory set_nes_memory].
  cbn [rom_bank_loaded set_rom_block_bank_id set_rom_block
       set_rom_bank_use_order set_rom_bank_loaded].
  intros s Hs Hl. exfalso. apply Hl. apply rd_replicate.
  unfold ROM_BANK_COUNT. lia.
Qed.

(** ** The file behind an instance *)

Lemma nsf_load_rom_bank_contents nsf reg bank :
  contents (file (snd (nsf_load_rom_bank nsf reg bank))) = contents (file nsf).
Proof.
  unfold nsf_load_rom_bank, load_bank_into_slot, evict_oldest_bank,
    fseek_set, fread.
  repeat case_match; simplify_eq; done.
Qed.

Lemma read6502_contents nsf address :
  exists nsf', snd (read6502 (Some nsf) address) = Some nsf' /\
               contents (file nsf') = contents (file nsf).
Proof. unfold read6502. repeat case_match; cbn [snd]; eauto. Qed.

Lemma write6502_contents nsf address value :
  exists nsf', fst (write6502 (Some nsf) address value) = Some nsf' /\
               contents (file nsf') = contents (file nsf).
Proof.
  unfold write6502. repeat case_match; cbn [fst]; eauto.
  eexists. split; [done|]. by rewrite nsf_load_rom_bank_contents.
Qed.

Lemma run_cpu_contents cpu nsf :
  exists nsf', fst (run_cpu cpu (Some nsf)) = Some nsf' /\
               contents (file nsf') = contents (file nsf).
Proof.
  revert nsf.
  induction cpu as [|address k IH|address value k IH]; intros nsf; cbn [run_cpu].
  - eauto.
  - destruct (read6502_contents nsf address) as (nsf1 & H1 & F1).
    destruct (read6502 (Some nsf) address) as [value active].
    cbn [snd] in H1. subst active.
    destruct (IH value nsf1) as (nsf2 & H2 & F2).
    exists nsf2. split; [done | congruence].
  - destruct (write6502_contents nsf address value) as (nsf1 & H1 & F1).
    destruct (write6502 (Some nsf) address value) as [active ev].
    cbn [fst] in H1. subst active.
    destruct (IH nsf1) as (nsf2 & H2 & F2).
    destruct (run_cpu k (Some nsf1)) as [active evs]. cbn [fst] in *.
    exists nsf2. split; [done | congruence].
Qed.

Lemma load_init_banks_contents n nsf i :
  contents (file (snd (load_init_banks nsf i n))) = contents (file nsf).
Proof.
  revert nsf i. induction n as [|n IH]; intros nsf i; cbn [load_init_banks];
    [done|].
  pose proof (nsf_load_rom_bank_contents nsf (0x5FF8 + i)
                (rd (bankswitch_init (header nsf)) i)) as H.
  destruct (nsf_load_rom_bank nsf _ _) as [ret nsf1]. cbn [snd] in H.
  case_bool_decide; cbn [snd]; [done|]. by rewrite IH.
Qed.

(** Playback of a bank-switched file establishes the invariants and the
    bank images, and no bus access breaks them. *)
Lemma nsf_playback_init_banked (nsf : nsf_file_t) (song : Z) (cb : bool)
    (cpu : cpu_run) :
  Forall is_byte (bankswitch_init (header nsf)) ->
  nsf_has_bank_switching nsf = true ->
  byte_writes cpu ->
  let '(ret, nsf', _) := nsf_playback_init nsf song cb cpu in
  ret = ESP_OK /\
  header nsf' = header nsf /\
  contents (file nsf') = contents (file nsf) /\
  memory_inv (nes_memory nsf') /\
  image_inv nsf'.
Proof.
  intros Hb Hsw Hcpu. unfold nsf_playback_init.
  set (nsf0 := nsf_init_nes_prg (nsf_init_nes_memory (set_apu_write_cb cb nsf)) song 0).
  change (nsf_has_bank_switching nsf0) with (nsf_has_bank_switching nsf).
  rewrite Hsw.
  assert (Hh0 : header nsf0 = header nsf) by reflexivity.
  assert (Hf0 : file nsf0 = file nsf) by reflexivity.
  pose proof (nsf_init_load_nes_rom_banks_image nsf0 Hb) as Himg1.
  pose proof (nsf_init_load_nes_rom_banks_fixed nsf0) as Hfix1.
  assert (Hc1 : contents (file (snd (nsf_init_load_nes_rom_banks nsf0)))
                = contents (file nsf0)).
  { unfold nsf_init_load_nes_rom_banks. by rewrite load_init_banks_contents. }
  clearbody nsf0. rewrite <- Hh0 in Hb.
  destruct (nsf_init_load_nes_rom_banks_inv nsf0 Hb) as (nsf1 & Hl & Hinv1).
  rewrite Hl in *. cbn [snd] in *.
  change (bool_decide (ESP_OK <> ESP_OK)) with false. cbv iota.
  destruct (run_cpu_image cpu nsf1 Hcpu Hinv1 Himg1) as (nsf2 & H2 & Hinv2 & Himg2).
  destruct (run_cpu_fixed cpu nsf1) as (nsf2' & H2' & Hfix2).
  destruct (run_cpu_contents cpu nsf1) as (nsf2'' & H2'' & Hc2).
  destruct (run_cpu cpu (Some nsf1)) as [active evs]. cbn [fst] in *.
  simplify_eq. cbn [default from_option id].
  unfold fixed_regions in *. simplify_eq.
  split_and!; try done; congruence.
Qed.

(** X14: for a bank-switched file, [nsf_playback_init] succeeds and from then
    on, whatever bytes the core stores and wherever, every occupied slot of
    the cache holds the image of the bank recorded for it, as the offset law
    lays it out from the file of the instance, whose header and contents are
    those the instance was opened with. *)
Theorem X14_slots_hold_bank_images (nsf : nsf_file_t) (song : Z) (cb : bool)
    (cpu : cpu_run) :
  Forall is_byte (bankswitch_init (header nsf)) ->
  nsf_has_bank_switching nsf = true ->
  byte_writes cpu ->
  let '(ret, nsf', _) := nsf_playback_init nsf song cb cpu in
  ret = ESP_OK /\
  header nsf' = header nsf /\
  contents (file nsf') = contents (file nsf) /\
  memory_inv (nes_memory nsf') /\
  image_inv nsf'.
Proof. apply nsf_playback_init_banked. Qed.

Lemma X14_slots_hold_bank_images_witness :
  image_inv (playing banked_sample 0 evict_mapped_bank).
Proof.
  pose proof (X14_slots_hold_bank_images (opened banked_sample) 0 true
                evict_mapped_bank) as H.
  unfold playing.
  destruct (nsf_playback_init (opened banked_sample) 0 true evict_mapped_bank)
    as [[ret nsf'] evs].
  apply H.
  - apply (bool_decide_unpack _). vm_compute. exact I.
  - vm_compute. reflexivity.
  - repeat constructor; unfold is_byte; lia.
Defined.

(** X15: switching a bank through the bus makes its bytes readable.  On a
    memory that satisfies the invariants, a store of a bank number [bank]
    that differs from the shadow register to $5FF8+i, followed by a read of
    $8000 + $1000*i + k, returns byte [k] of the bank as the offset law
    places it in the file: for bank 0 zero below the padding and the file
    byte at [0x80 + (k - padding)] from there, for any other bank the file
    byte at [0x80 + (4096 - padding) + 4096 * (bank - 1) + k], and zero
    beyond the end of the file. *)
Theorem X15_bank_switch_read (nsf : nsf_file_t) (i bank k : Z) :
  memory_inv (nes_memory nsf) ->
  image_inv nsf ->
  0 <= i < 8 ->
  is_byte bank ->
  rd (bank_regs (nes_memory nsf)) i <> bank ->
  0 <= k < 4096 ->
  0x8000 + 4096 * i + k < 0xFFFA ->
  let padding := Z.land (load_address (header nsf)) 0x0FFF in
  let bytes := contents (file nsf) in
  let after := fst (write6502 (Some nsf) (0x5FF8 + i) bank) in
  fst (read6502 after (0x8000 + 4096 * i + k))
  = if bank =? 0 then
      if k <? padding then 0 else rd bytes (0x80 + (k - padding))
    else rd bytes (0x80 + (4096 - padding) + 4096 * (bank - 1) + k).
Proof.
  intros Hinv Himg Hi Hbank Hshadow Hk Ha padding bytes after.
  pose proof (padding_range (load_address (header nsf))) as Hpad.
  fold padding in Hpad.
  rewrite <- (bank_image_byte bytes padding bank k)
    by (done || unfold is_byte in Hbank; lia).
  unfold after, write6502.
  replace (0x5FF8 + i <=? 0x07FF) with false by lia.
  replace ((0x4000 <=? 0x5FF8 + i) && (0x5FF8 + i <=? 0x4017)) with false by lia.
  replace ((0x5FF8 <=? 0x5FF8 + i) && (0x5FF8 + i <=? 0x5FFF)) with true by lia.
  replace (0x5FF8 + i - 0x5FF8) with i by lia.
  rewrite (proj2 (Z.eqb_neq _ _) Hshadow). cbn [negb fst].
  set (nsf1 := set_nes_memory _ nsf).
  assert (Hinv1 : memory_inv (nes_memory nsf1))
    by (by apply (memory_inv_ext (nes_memory nsf))).
  assert (Himg1 : image_inv nsf1) by (by apply (image_inv_ext nsf)).
  pose proof (nsf_load_rom_bank_image nsf1 (0x5FF8 + i) bank Hinv1 Himg1
                ltac:(lia) Hbank) as Himg'.
  destruct (nsf_load_rom_bank_post nsf1 (0x5FF8 + i) bank Hinv1 ltac:(lia) Hbank)
    as (nsf' & s & Hload & Hinv' & Hh & Hc & Hs & Hptr & _ & Hl & Hid & _).
  rewrite Hload in *. cbn [snd] in *.
  replace (0x5FF8 + i - 0x5FF8) with i in Hptr by lia.
  assert (Hh1 : header nsf1 = header nsf) by reflexivity.
  assert (Hc1 : contents (file nsf1) = contents (file nsf)) by reflexivity.
  clearbody nsf1.
  destruct (rom_address_decode (0x8000 + 4096 * i + k) ltac:(lia)) as (Hw & Hoff).
  replace ((0x8000 + 4096 * i + k - 0x8000) / 4096) with i in Hw
    by (apply (Z.div_unique _ _ _ k); lia).
  replace ((0x8000 + 4096 * i + k - 0x8000) mod 4096) with k in Hoff
    by (apply (Z.mod_unique _ _ i); lia).
  unfold read6502.
  replace (0x8000 + 4096 * i + k <=? 0x07FF) with false by lia.
  replace ((0x1000 <=? 0x8000 + 4096 * i + k) && (0x8000 + 4096 * i + k <=? 0x107F))
    with false by lia.
  replace ((0x4000 <=? 0x8000 + 4096 * i + k) && (0x8000 + 4096 * i + k <=? 0x4017))
    with false by lia.
  replace ((0x5FF8 <=? 0x8000 + 4096 * i + k) && (0x8000 + 4096 * i + k <=? 0x5FFF))
    with false by lia.
  replace ((0x8000 <=? 0x8000 + 4096 * i + k) && (0x8000 + 4096 * i + k <? 0xFFFA))
    with true by lia.
  rewrite Hw, Hptr, Hoff. cbn [fst].
  rewrite <- rd_slot_bytes by lia.
  rewrite (Himg' s Hs Hl), Hid, Hc, Hh, Hc1, Hh1. reflexivity.
Qed.

(** The sample file in play satisfies the invariants. *)
Lemma playing_banked_sample_inv cpu :
  byte_writes cpu ->
  memory_inv (nes_memory (playing banked_sample 0 cpu)) /\
  image_inv (playing banked_sample 0 cpu).
Proof.
  intros Hcpu.
  pose proof (nsf_playback_init_banked (opened banked_sample) 0 true cpu) as H.
  unfold playing.
  destruct (nsf_playback_init (opened banked_sample) 0 true cpu)
    as [[ret nsf'] evs].
  destruct H as (_ & _ & _ & Hinv & Himg); [| |done|done].
  - apply (bool_decide_unpack _). vm_compute. exact I.
  - vm_compute. reflexivity.
Qed.

Lemma X9_bank_register_readback_witness :
  fst (read6502
         (fst (write6502 (Some (playing banked_sample 0 CpuDone)) 0x5FFA 9))
         0x5FFA) = 9.
Proof.
  refine (proj1 (X9_bank_register_readback (playing banked_sample 0 CpuDone)
                   0x5FFA 9 0 _ _ _)).
  - apply (playing_banked_sample_inv CpuDone bw_done).
  - vm_compute. reflexivity.
  - lia.
Defined.

Lemma X13_bank_load_succeeds_witness :
  exists nsf',
    nsf_load_rom_bank (playing banked_sample 0 fill_cache) 0x5FF8 11
    = (ESP_OK, nsf').
Proof.
  destruct (X13_bank_load_succeeds (playing banked_sample 0 fill_cache)
              0x5FF8 11) as (nsf' & s & H & _).
  - apply (playing_banked_sample_inv fill_cache).
    repeat constructor; unfold is_byte; lia.
  - lia.
  - unfold is_byte. lia.
  - exists nsf'. exact H.
Defined.

Lemma X15_bank_switch_read_witness :
  let nsf := playing banked_sample 0 CpuDone in
  let padding := Z.land (load_address (header nsf)) 0x0FFF in
  fst (read6502 (fst (write6502 (Some nsf) (0x5FF8 + 0) 11))
         (0x8000 + 4096 * 0 + 5))
  = if 11 =? 0 then
      if 5 <? padding then 0 else rd (contents (file nsf)) (0x80 + (5 - padding))
    else rd (contents (file nsf)) (0x80 + (4096 - padding) + 4096 * (11 - 1) + 5).
Proof.
  intros nsf padding.
  destruct (playing_banked_sample_inv CpuDone bw_done) as [Hinv Himg].
  apply (X15_bank_switch_read nsf 0 11 5 Hinv Himg).
  - lia.
  - unfold is_byte. lia.
  - subst nsf. vm_compute. discriminate.
  - lia.
  - lia.
Defined.

(** ** Window consistency *)

Lemma memory_with_bank_cached nsf m1 reg bank s :
  length (rom_bank_id m1) = 10%nat -> 0 <= s < 10 ->
  rom_bank_loaded m1 !! Z.to_nat s = Some 0 ->
  cached_banks (mark_rom_bank_used (memory_with_bank nsf m1 reg bank s) bank)
  ≡ₚ bank :: cached_banks m1.
Proof.
  intros Hli Hs Hs0. unfold cached_banks. cache_fields.
  unfold wr. rewrite list_insert_insert_eq.
  apply cached_banks_of_fill; [done | lia | lia].
Qed.

(** The executable check of C1 follows from window consistency. *)
Lemma windows_consistent_check m :
  windows_consistent m -> window_consistent m = true.
Proof.
  intros Hcons. unfold window_consistent. apply forallb_forall.
  intros w Hw. apply list_elem_of_In, elem_of_seqZ in Hw.
  destruct (rd_ptr (rom_block m) w) as [block|] eqn:Hptr; [|done].
  destruct (Hcons w block ltac:(lia) Hptr) as (s & Hs & -> & Hl & Hid).
  rewrite Z.div_mul by lia. apply andb_true_iff. split.
  - by apply negb_true_iff, Z.eqb_neq.
  - by apply Z.eqb_eq.
Qed.

(** A slot is empty while fewer than ten banks are cached. *)
Lemma cache_inv_empty_slot m :
  cache_inv m -> (length (cached_banks m) < 10)%nat -> find_empty_slot m <> -1.
Proof.
  intros Hc Hlt Hnone. pose proof Hc as [Hli Hll _ _ _ _].
  pose proof (find_empty_slot_none m Hll Hnone) as Hall.
  unfold cached_banks in Hlt.
  rewrite cached_banks_of_all in Hlt by (done || lia). lia.
Qed.

(** A bank load that evicts nothing: the bank is cached already, or a slot
    is empty. *)
Lemma nsf_load_rom_bank_no_evict nsf reg bank :
  memory_inv (nes_memory nsf) ->
  windows_consistent (nes_memory nsf) ->
  0x5FF8 <= reg <= 0x5FFF -> is_byte bank ->
  bank ∈ cached_banks (nes_memory nsf)
  \/ (length (cached_banks (nes_memory nsf)) < 10)%nat ->
  exists nsf' s,
    nsf_load_rom_bank nsf reg bank = (ESP_OK, nsf') /\
    0 <= s < 10 /\
    rom_block (nes_memory nsf')
    = wr_ptr (rom_block (nes_memory nsf)) (reg - 0x5FF8) (Some (s * 4096)) /\
    rom_block_bank_id (nes_memory nsf')
    = wr (rom_block_bank_id (nes_memory nsf)) (reg - 0x5FF8) bank /\
    windows_consistent (nes_memory nsf') /\
    (length (cached_banks (nes_memory nsf'))
     <= S (length (cached_banks (nes_memory nsf))))%nat /\
    (forall b, b ∈ cached_banks (nes_memory nsf) ->
               b ∈ cached_banks (nes_memory nsf')).
Proof.
  intros Hinv Hcons Hreg Hbank Hroom.
  pose proof Hinv as [Hc [Hwb Hwi Hwy Hwc] Hrom].
  pose proof Hc as [Hli Hll Hlo Hb Hu Ho].
  assert (Ht : u8 (reg - 0x5FF8) = reg - 0x5FF8)
    by (unfold u8; apply Z.mod_small; lia).
  destruct (decide (find_loaded_bank (nes_memory nsf) bank = -1)) as [Hfind|Hfind].
  - (* a slot is empty *)
    pose proof (find_loaded_bank_none _ bank Hll Hfind) as Hnew.
    destruct Hroom as [?|Hlt]; [done|].
    pose proof (cache_inv_empty_slot _ Hc Hlt) as Hempty.
    destruct (nsf_load_rom_bank_miss nsf reg bank Hinv Hreg Hbank Hfind)
      as (s & m1 & f & Hs & Hf & Hload & _ & _ & _ & _ & Hcase).
    destruct Hcase as [(_ & -> & Hs0)|(? & _)]; [|done].
    assert (Hs0' : rom_bank_loaded (nes_memory nsf) !! Z.to_nat s = Some 0).
    { rewrite rd_lookup by lia. by rewrite Hs0. }
    pose proof (memory_with_bank_cached nsf (nes_memory nsf) reg bank s
                  Hli Hs Hs0') as Hperm.
    eexists. exists s. split; [exact Hload|]. cache_fields. rewrite Ht.
    split_and!; try done; try lia.
    + unfold windows_consistent in Hcons |- *. cache_fields. rewrite ?Ht.
      intros w block Hw.
      destruct (decide (w = reg - 0x5FF8)) as [->|Hne].
      * rewrite rd_ptr_wr_ptr_eq by lia. intros [= <-].
        exists s. rewrite !rd_wr_eq by (rewrite ?length_wr; lia).
        split_and!; try done; lia.
      * rewrite rd_ptr_wr_ptr_ne by lia. intros Hptr.
        destruct (Hcons w block Hw Hptr) as (s0 & Hs0r & -> & Hl0 & Hid0).
        assert (s0 <> s) by congruence.
        exists s0. rewrite !rd_wr_ne by lia. done.
    + rewrite Hperm. cbn [length]. lia.
    + intros b Hin. rewrite Hperm. by right.
  - (* the bank is cached *)
    destruct (nsf_load_rom_bank_hit nsf reg bank Hreg Hfind)
      as (Hs & Hl & Hid & Hload).
    eexists. exists (find_loaded_bank (nes_memory nsf) bank).
    split; [exact Hload|]. unfold cached_banks. cache_fields.
    split_and!; try done; try lia.
    unfold windows_consistent in Hcons |- *. cache_fields.
    intros w block Hw.
    destruct (decide (w = reg - 0x5FF8)) as [->|Hne].
    + rewrite rd_ptr_wr_ptr_eq by lia. intros [= <-].
      exists (find_loaded_bank (nes_memory nsf) bank).
      rewrite rd_wr_eq by lia. split_and!; try done; lia.
    + rewrite rd_ptr_wr_ptr_ne, rd_wr_ne by lia. by apply Hcons.
Qed.

(** X16: a bank load that evicts nothing keeps the windows consistent (P3).
    If every ROM window that is not null points at an occupied slot holding
    the bank recorded for the window, and the bank asked for is cached
    already or fewer than ten banks are cached, the same holds after the
    load, and the executable check [window_consistent] accepts the memory. *)
Theorem X16_load_keeps_windows_consistent (nsf : nsf_file_t) (reg bank : Z) :
  memory_inv (nes_memory nsf) ->
  windows_consistent (nes_memory nsf) ->
  0x5FF8 <= reg <= 0x5FFF ->
  is_byte bank ->
  bank ∈ cached_banks (nes_memory nsf)
  \/ (length (cached_banks (nes_memory nsf)) < 10)%nat ->
  let '(ret, nsf') := nsf_load_rom_bank nsf reg bank in
  ret = ESP_OK /\
  windows_consistent (nes_memory nsf') /\
  window_consistent (nes_memory nsf') = true.
Proof.
  intros Hinv Hcons Hreg Hbank Hroom.
  destruct (nsf_load_rom_bank_no_evict nsf reg bank Hinv Hcons Hreg Hbank Hroom)
    as (nsf' & s & -> & _ & _ & _ & Hcons' & _).
  split; [done|]. split; [done|]. by apply windows_consistent_check.
Qed.

(** *** Runs that switch no bank *)

Lemma read6502_switched nsf address :
  exists nsf', snd (read6502 (Some nsf) address) = Some nsf' /\
               switched_state nsf' = switched_state nsf.
Proof. unfold read6502. repeat case_match; cbn [snd]; eauto. Qed.

Lemma write6502_switched nsf address value :
  ~ (0x5FF8 <= address <= 0x5FFF) ->
  exists nsf', fst (write6502 (Some nsf) address value) = Some nsf' /\
               switched_state nsf' = switched_state nsf.
Proof.
  intros Ha. unfold write6502.
  destruct (address <=? 0x07FF); [eauto|].
  destruct ((0x4000 <=? address) && (address <=? 0x4017)).
  { repeat case_match; eauto. }
  replace ((0x5FF8 <=? address) && (address <=? 0x5FFF)) with false by lia.
  eauto.
Qed.

Lemma switched_state_memory_inv nsf1 nsf2 :
  switched_state nsf2 = switched_state nsf1 ->
  rom_bank_use_order (nes_memory nsf2) = rom_bank_use_order (nes_memory nsf1) ->
  memory_inv (nes_memory nsf1) -> memory_inv (nes_memory nsf2).
Proof.
  unfold switched_state. intros [= ? ? ? ? ? ? ? ?] ?.
  by apply memory_inv_ext.
Qed.

Lemma switched_state_image_inv nsf1 nsf2 :
  switched_state nsf2 = switched_state nsf1 -> image_inv nsf1 -> image_inv nsf2.
Proof.
  unfold switched_state. intros [= ? ? ? ? ? ? ? ?]. by apply image_inv_ext.
Qed.

Lemma switched_state_windows nsf1 nsf2 :
  switched_state nsf2 = switched_state nsf1 ->
  windows_consistent (nes_memory nsf1) -> windows_consistent (nes_memory nsf2).
Proof.
  unfold switched_state, windows_consistent.
  intros [= _ _ _ -> -> _ -> ->] H. exact H.
Qed.

Lemma run_cpu_switched cpu nsf :
  no_bank_write cpu -> memory_inv (nes_memory nsf) ->
  exists nsf', fst (run_cpu cpu (Some nsf)) = Some nsf' /\
               memory_inv (nes_memory nsf') /\
               switched_state nsf' = switched_state nsf.
Proof.
  intros Hcpu. revert nsf.
  induction Hcpu as [|address k _ IH|address value k Ha _ IH];
    intros nsf Hinv; cbn [run_cpu].
  - eauto.
  - destruct (read6502_inv nsf address Hinv) as (nsf1 & H1 & Hinv1).
    destruct (read6502_switched nsf address) as (nsf1' & H1' & Hsw1).
    destruct (read6502 (Some nsf) address) as [value active].
    cbn [snd] in H1, H1'. rewrite H1 in H1'. injection H1' as <-.
    subst active.
    destruct (IH value _ Hinv1) as (nsf2 & Hrun2 & Hinv2 & Hsw2).
    exists nsf2. split; [done|]. split; [done | congruence].
  - destruct (write6502_switched nsf address value Ha) as (nsf1 & H1 & Hsw1).
    assert (Hinv1 : memory_inv (nes_memory nsf1)).
    { revert H1. unfold write6502.
      destruct (address <=? 0x07FF);
        [intros [= <-]; by apply (memory_inv_ext (nes_memory nsf))|].
      destruct ((0x4000 <=? address) && (address <=? 0x4017)).
      { repeat case_match; intros [= <-];
          by apply (memory_inv_ext (nes_memory nsf)). }
      replace ((0x5FF8 <=? address) && (address <=? 0x5FFF)) with false by lia.
      by intros [= <-]. }
    destruct (write6502 (Some nsf) address value) as [active ev].
    cbn [fst] in H1. subst active.
    destruct (IH nsf1 Hinv1) as (nsf2 & Hrun2 & Hinv2 & Hsw2).
    destruct (run_cpu k (Some nsf1)) as [active evs]. cbn [fst] in *.
    exists nsf2. split; [done|]. split; [done | congruence].
Qed.

(** *** The initial windows *)

Lemma load_init_banks_windows n nsf i :
  memory_inv (nes_memory nsf) ->
  image_inv nsf ->
  windows_consistent (nes_memory nsf) ->
  Forall is_byte (bankswitch_init (header nsf)) ->
  0 <= i -> i + Z.of_nat n <= 8 ->
  Z.of_nat (length (cached_banks (nes_memory nsf))) <= i ->
  (forall w, 0 <= w < i ->
     rd_ptr (rom_block (nes_memory nsf)) w <> None /\
     rd (rom_block_bank_id (nes_memory nsf)) w
     = rd (bankswitch_init (header nsf)) w) ->
  exists nsf',
    load_init_banks nsf i n = (ESP_OK, nsf') /\
    memory_inv (nes_memory nsf') /\
    image_inv nsf' /\
    windows_consistent (nes_memory nsf') /\
    (forall w, 0 <= w < i + Z.of_nat n ->
       rd_ptr (rom_block (nes_memory nsf')) w <> None /\
       rd (rom_block_bank_id (nes_memory nsf')) w
       = rd (bankswitch_init (header nsf)) w).
Proof.
  revert nsf i.
  induction n as [|n IH]; intros nsf i Hinv Himg Hcons Hb Hi Hn Hlen Hwin;
    cbn [load_init_banks].
  { exists nsf. split_and!; try done. intros w Hw. apply Hwin. lia. }
  set (bank := rd (bankswitch_init (header nsf)) i).
  assert (Hbank : is_byte bank) by (by apply rd_is_byte).
  destruct (nsf_load_rom_bank_no_evict nsf (0x5FF8 + i) bank Hinv Hcons
              ltac:(lia) Hbank ltac:(right; lia))
    as (nsf1 & s & Hl & Hs & Hrb & Hid & Hcons1 & Hlen1 & _).
  destruct (nsf_load_rom_bank_inv nsf (0x5FF8 + i) bank Hinv ltac:(lia) Hbank)
    as (nsf1' & Hl' & Hinv1).
  pose proof (nsf_load_rom_bank_image nsf (0x5FF8 + i) bank Hinv Himg
                ltac:(lia) Hbank) as Himg1.
  pose proof (nsf_load_rom_bank_regions nsf (0x5FF8 + i) bank) as Hreg.
  rewrite Hl in Hl', Himg1, Hreg. cbn [snd] in Himg1, Hreg.
  injection Hl' as <-. rewrite Hl.
  change (bool_decide (ESP_OK <> ESP_OK)) with false. cbv iota.
  assert (Hh : header nsf1 = header nsf)
    by (unfold bus_regions in Hreg; by simplify_eq).
  replace (0x5FF8 + i - 0x5FF8) with i in Hrb, Hid by lia.
  destruct Hinv as [_ [Hwb Hwi _ _] _].
  destruct (IH nsf1 (i + 1)) as (nsf2 & Hl2 & Hinv2 & Himg2 & Hcons2 & Hwin2);
    try done; try lia.
  - by rewrite Hh.
  - intros w Hw. rewrite Hrb, Hid, Hh.
    destruct (decide (w = i)) as [->|Hne].
    + rewrite rd_ptr_wr_ptr_eq, rd_wr_eq by lia. done.
    + rewrite rd_ptr_wr_ptr_ne, rd_wr_ne by lia. apply Hwin. lia.
  - exists nsf2. split_and!; try done.
    intros w Hw. rewrite <- Hh. apply Hwin2. lia.
Qed.

(** A read through a consistent window returns the byte of the bank recorded
    for the window. *)
Lemma read6502_consistent_window nsf w k :
  image_inv nsf -> windows_consistent (nes_memory nsf) ->
  0 <= w < 8 -> 0 <= k < 4096 -> 0x8000 + 4096 * w + k < 0xFFFA ->
  rd_ptr (rom_block (nes_memory nsf)) w <> None ->
  fst (read6502 (Some nsf) (0x8000 + 4096 * w + k))
  = rd (bank_image (contents (file nsf))
          (Z.land (load_address (header nsf)) 0x0FFF)
          (rd (rom_block_bank_id (nes_memory nsf)) w)) k.
Proof.
  intros Himg Hcons Hw Hk Ha Hptr.
  destruct (rd_ptr (rom_block (nes_memory nsf)) w) as [block|] eqn:Hblock;
    [|done].
  destruct (Hcons w block Hw Hblock) as (s & Hs & -> & Hl & Hid).
  destruct (rom_address_decode (0x8000 + 4096 * w + k) ltac:(lia)) as (Hdw & Hoff).
  replace ((0x8000 + 4096 * w + k - 0x8000) / 4096) with w in Hdw
    by (apply (Z.div_unique _ _ _ k); lia).
  replace ((0x8000 + 4096 * w + k - 0x8000) mod 4096) with k in Hoff
    by (apply (Z.mod_unique _ _ w); lia).
  unfold read6502.
  replace (0x8000 + 4096 * w + k <=? 0x07FF) with false by lia.
  replace ((0x1000 <=? 0x8000 + 4096 * w + k) && (0x8000 + 4096 * w + k <=? 0x107F))
    with false by lia.
  replace ((0x4000 <=? 0x8000 + 4096 * w + k) && (0x8000 + 4096 * w + k <=? 0x4017))
    with false by lia.
  replace ((0x5FF8 <=? 0x8000 + 4096 * w + k) && (0x8000 + 4096 * w + k <=? 0x5FFF))
    with false by lia.
  replace ((0x8000 <=? 0x8000 + 4096 * w + k) && (0x8000 + 4096 * w + k <? 0xFFFA))
    with true by lia.
  rewrite Hdw, Hblock, Hoff. cbn [fst].
  rewrite <- rd_slot_bytes by lia.
  by rewrite (Himg s Hs Hl), Hid.
Qed.

(** Playback of a bank-switched file, followed by a run that switches no
    bank. *)
Lemma nsf_playback_init_windows (nsf : nsf_file_t) (song : Z) (cb : bool)
    (cpu : cpu_run) :
  Forall is_byte (bankswitch_init (header nsf)) ->
  nsf_has_bank_switching nsf = true ->
  no_bank_write cpu ->
  exists nsf' evs,
    nsf_playback_init nsf song cb cpu = (ESP_OK, nsf', evs) /\
    header nsf' = header nsf /\
    contents (file nsf') = contents (file nsf) /\
    memory_inv (nes_memory nsf') /\
    image_inv nsf' /\
    windows_consistent (nes_memory nsf') /\
    bank_regs (nes_memory nsf') = replicate 8 0 /\
    (forall w, 0 <= w < 8 ->
       rd_ptr (rom_block (nes_memory nsf')) w <> None /\
       rd (rom_block_bank_id (nes_memory nsf')) w
       = rd (bankswitch_init (header nsf)) w).
Proof.
  intros Hb Hsw Hcpu. unfold nsf_playback_init.
  set (nsf0 := nsf_init_nes_prg (nsf_init_nes_memory (set_apu_write_cb cb nsf)) song 0).
  change (nsf_has_bank_switching nsf0) with (nsf_has_bank_switching nsf).
  rewrite Hsw.
  assert (Hh0 : header nsf0 = header nsf) by reflexivity.
  assert (Hf0 : contents (file nsf0) = contents (file nsf)) by reflexivity.
  assert (Hbr0 : bank_regs (nes_memory nsf0) = replicate 8 0) by reflexivity.
  clearbody nsf0. rewrite <- Hh0 in Hb.
  unfold nsf_init_load_nes_rom_banks.
  set (nsf1 := set_nes_memory _ nsf0).
  assert (Hinv1 : memory_inv (nes_memory nsf1)).
  { unfold nsf1. cbn [nes_memory set_nes_memory]. split; [split|split|].
    - reflexivity.
    - reflexivity.
    - reflexivity.
    - apply Forall_replicate. unfold is_byte. lia.
    - apply NoDup_nil_2.
    - by exists [].
    - reflexivity.
    - reflexivity.
    - apply Forall_replicate. unfold is_byte. lia.
    - intros _ w Hw Hptr. exfalso. apply Hptr.
      cbn [rom_block set_rom_block_bank_id set_rom_block].
      unfold rd_ptr. rewrite (lookup_replicate_2 8 None) by lia. done.
    - cbn [rom set_rom_block_bank_id set_rom_block set_rom_bank_use_order
           set_rom_bank_loaded set_rom_bank_id set_rom].
      rewrite length_replicate. unfold ROM_BANK_SIZE, ROM_BANK_COUNT. lia. }
  assert (Himg1 : image_inv nsf1).
  { unfold image_inv, nsf1. cbv zeta. cbn [nes_memory set_nes_memory].
    cbn [rom_bank_loaded set_rom_block_bank_id set_rom_block
         set_rom_bank_use_order set_rom_bank_loaded].
    intros s Hs Hl. exfalso. apply Hl. apply rd_replicate.
    unfold ROM_BANK_COUNT. lia. }
  assert (Hcons1 : windows_consistent (nes_memory nsf1)).
  { unfold windows_consistent, nsf1. cbn [nes_memory set_nes_memory].
    cbn [rom_block set_rom_block_bank_id set_rom_block].
    intros w block Hw. unfold rd_ptr.
    rewrite (lookup_replicate_2 8 None) by lia. done. }
  assert (Hh1 : header nsf1 = header nsf0) by reflexivity.
  assert (Hf1 : contents (file nsf1) = contents (file nsf0)) by reflexivity.
  assert (Hbr1 : bank_regs (nes_memory nsf1) = bank_regs (nes_memory nsf0))
    by reflexivity.
  assert (Hlen1 : Z.of_nat (length (cached_banks (nes_memory nsf1))) <= 0)
    by (unfold nsf1; cbn; lia).
  clearbody nsf1. rewrite <- Hh1 in Hb.
  destruct (load_init_banks_windows 8 nsf1 0 Hinv1 Himg1 Hcons1 Hb
              ltac:(lia) ltac:(lia) Hlen1 ltac:(intros; lia))
    as (nsf2 & Hl2 & Hinv2 & Himg2 & Hcons2 & Hwin2).
  pose proof (load_init_banks_regions 8 nsf1 0) as Hreg2.
  pose proof (load_init_banks_contents 8 nsf1 0) as Hc2.
  rewrite Hl2 in *. cbn [snd] in Hreg2, Hc2.
  change (bool_decide (ESP_OK <> ESP_OK)) with false. cbv iota.
  destruct (run_cpu_switched cpu nsf2 Hcpu Hinv2) as (nsf3 & H3 & Hinv3 & Hsw3).
  destruct (run_cpu cpu (Some nsf2)) as [active evs]. cbn [fst] in H3.
  subst active. cbn [default from_option id].
  exists nsf3, evs. split; [done|].
  unfold bus_regions in Hreg2. injection Hreg2 as Hh2 _ _ _ _ Hbr2 _.
  pose proof Hsw3 as Hsw3'. unfold switched_state in Hsw3'.
  injection Hsw3' as Hh3 Hc3 Hbr3 Hrb3 Hid3 _ _ _.
  split_and!.
  - congruence.
  - congruence.
  - done.
  - by apply (switched_state_image_inv nsf2).
  - by apply (switched_state_windows nsf2).
  - congruence.
  - intros w Hw. rewrite Hrb3, Hid3.
    replace (header nsf) with (header nsf1) by congruence. by apply Hwin2.
Qed.

(** X17: what a bank-switched file looks like once playback is initialised.
    [nsf_playback_init] succeeds; as long as the core has stored to no bank
    register, every one of the eight ROM windows is mapped (its pointer is
    not null) and records the initial bank number of the header for it, the
    windows are consistent (P3), and a read of $8000 + $1000*w + k returns
    byte [k] of the image of that bank. *)
Theorem X17_initial_windows (nsf : nsf_file_t) (song : Z) (cb : bool)
    (cpu : cpu_run) :
  Forall is_byte (bankswitch_init (header nsf)) ->
  nsf_has_bank_switching nsf = true ->
  no_bank_write cpu ->
  let '(ret, nsf', _) := nsf_playback_init nsf song cb cpu in
  let padding := Z.land (load_address (header nsf)) 0x0FFF in
  ret = ESP_OK /\
  windows_consistent (nes_memory nsf') /\
  window_consistent (nes_memory nsf') = true /\
  (forall w, 0 <= w < 8 ->
     rd_ptr (rom_block (nes_memory nsf')) w <> None /\
     rd (rom_block_bank_id (nes_memory nsf')) w
     = rd (bankswitch_init (header nsf)) w) /\
  forall w k, 0 <= w < 8 -> 0 <= k < 4096 -> 0x8000 + 4096 * w + k < 0xFFFA ->
    fst (read6502 (Some nsf') (0x8000 + 4096 * w + k))
    = rd (bank_image (contents (file nsf)) padding
            (rd (bankswitch_init (header nsf)) w)) k.
Proof.
  intros Hb Hsw Hcpu.
  destruct (nsf_playback_init_windows nsf song cb cpu Hb Hsw Hcpu)
    as (nsf' & evs & -> & Hh & Hc & Hinv & Himg & Hcons & _ & Hwin).
  cbv zeta. split; [done|]. split; [done|].
  split; [by apply windows_consistent_check|].
  split; [exact Hwin|].
  intros w k Hw Hk Ha. destruct (Hwin w Hw) as [Hptr Hid].
  rewrite read6502_consistent_window by done.
  by rewrite Hc, Hh, Hid.
Qed.

Lemma X17_initial_windows_witness :
  window_consistent (nes_memory (playing banked_sample 0 CpuDone)) = true /\
  rd_ptr (rom_block (nes_memory (playing banked_sample 0 CpuDone))) 7 <> None.
Proof.
  pose proof (X17_initial_windows (opened banked_sample) 0 true CpuDone) as H.
  unfold playing.
  destruct (nsf_playback_init (opened banked_sample) 0 true CpuDone)
    as [[ret nsf'] evs].
  cbn [fst snd].
  destruct H as (_ & _ & Hcheck & Hwin & _).
  - apply (bool_decide_unpack _). vm_compute. exact I.
  - vm_compute. reflexivity.
  - constructor.
  - split; [exact Hcheck|]. apply Hwin. lia.
Defined.

(** X18: the shadow bank registers start at zero, not at the initial bank
    numbers.  Right after the initialisation of a bank-switched file a store
    of 0 to the bank register of a window is dropped as a repetition, even
    when the window holds another bank: no load is issued and a read through
    the window still returns the bytes of the initial bank. *)
Theorem X18_initial_shadow_registers (nsf : nsf_file_t) (song : Z) (cb : bool)
    (cpu : cpu_run) (w : Z) :
  Forall is_byte (bankswitch_init (header nsf)) ->
  nsf_has_bank_switching nsf = true ->
  no_bank_write cpu ->
  0 <= w < 8 ->
  let '(_, nsf', _) := nsf_playback_init nsf song cb cpu in
  bank_regs (nes_memory nsf') = replicate 8 0 /\
  rd (rom_block_bank_id (nes_memory nsf')) w
  = rd (bankswitch_init (header nsf)) w /\
  write6502 (Some nsf') (0x5FF8 + w) 0 = (Some nsf', []).
Proof.
  intros Hb Hsw Hcpu Hw.
  destruct (nsf_playback_init_windows nsf song cb cpu Hb Hsw Hcpu)
    as (nsf' & evs & -> & _ & _ & _ & _ & _ & Hbr & Hwin).
  split; [done|]. split; [by apply Hwin|].
  unfold write6502.
  replace (0x5FF8 + w <=? 0x07FF) with false by lia.
  replace ((0x4000 <=? 0x5FF8 + w) && (0x5FF8 + w <=? 0x4017)) with false by lia.
  replace ((0x5FF8 <=? 0x5FF8 + w) && (0x5FF8 + w <=? 0x5FFF)) with true by lia.
  rewrite Hbr, rd_replicate by lia. reflexivity.
Qed.

Lemma X18_initial_shadow_registers_witness :
  let nsf' := playing banked_sample 0 CpuDone in
  rd (rom_block_bank_id (nes_memory nsf')) 0 = 1 /\
  write6502 (Some nsf') (0x5FF8 + 0) 0 = (Some nsf', []).
Proof.
  pose proof (X18_initial_shadow_registers (opened banked_sample) 0 true
                CpuDone 0) as H.
  unfold playing.
  destruct (nsf_playback_init (opened banked_sample) 0 true CpuDone)
    as [[ret nsf'] evs].
  cbv zeta. cbn [fst snd].
  destruct H as (_ & Hid & Hwr).
  - apply (bool_decide_unpack _). vm_compute. exact I.
  - vm_compute. reflexivity.
  - constructor.
  - lia.
  - split; [|done]. rewrite Hid. vm_compute. reflexivity.
Defined.

Lemma playing_banked_sample_windows :
  windows_consistent (nes_memory (playing banked_sample 0 CpuDone)).
Proof.
  destruct (nsf_playback_init_windows (opened banked_sample) 0 true CpuDone)
    as (nsf' & evs & Hinit & _ & _ & _ & _ & Hcons & _).
  - apply (bool_decide_unpack _). vm_compute. exact I.
  - vm_compute. reflexivity.
  - constructor.
  - unfold playing. by rewrite Hinit.
Qed.

Lemma X16_load_keeps_windows_consistent_witness :
  let '(ret, nsf') :=
    nsf_load_rom_bank (playing banked_sample 0 CpuDone) 0x5FF8 9 in
  ret = ESP_OK /\
  windows_consistent (nes_memory nsf') /\
  window_consistent (nes_memory nsf') = true.
Proof.
  apply X16_load_keeps_windows_consistent.
  - apply (playing_banked_sample_inv CpuDone bw_done).
  - apply playing_banked_sample_windows.
  - lia.
  - unfold is_byte. lia.
  - right. apply Nat.ltb_lt. vm_compute. reflexivity.
Defined.

(** ** The most recently used bank *)

Lemma lru_inv_nodup loaded ids uo :
  lru_inv loaded ids uo -> length (cached_banks_of loaded ids) = 10%nat ->
  NoDup uo.
Proof.
  intros [_ _ _ _ Hu (lru & -> & Hp)] Hlen.
  rewrite <- Hp in Hlen. rewrite Hlen. cbn [Nat.sub replicate].
  rewrite app_nil_r. by rewrite Hp.
Qed.

(** The bank at the head of the LRU list stays cached through a load. *)
Lemma nsf_load_rom_bank_keeps_head nsf reg bank b :
  memory_inv (nes_memory nsf) ->
  0x5FF8 <= reg <= 0x5FFF -> is_byte bank ->
  b ∈ cached_banks (nes_memory nsf) ->
  rd (rom_bank_use_order (nes_memory nsf)) 0 = b ->
  b ∈ cached_banks (nes_memory (snd (nsf_load_rom_bank nsf reg bank))).
Proof.
  intros Hinv Hreg Hbank Hin Hhead.
  pose proof Hinv as [Hc _ _].
  pose proof Hc as [Hli Hll Hlo _ _ _].
  destruct (decide (find_loaded_bank (nes_memory nsf) bank = -1)) as [Hfind|Hfind].
  - destruct (nsf_load_rom_bank_miss nsf reg bank Hinv Hreg Hbank Hfind)
      as (s & m1 & f & Hs & _ & -> & Hc1 & _ & Hld1 & _ & Hcase).
    cbn [snd nes_memory set_file set_nes_memory].
    pose proof Hc1 as [Hli1 Hll1 _ _ _ _].
    rewrite memory_with_bank_cached;
      [|done|done|rewrite Hld1; apply list_lookup_insert_eq; lia].
    right. destruct Hcase as [(_ & -> & _)|(Hempty & Hev & Hperm)]; [done|].
    rewrite Hperm in Hin. apply elem_of_cons in Hin as [Heq|?]; [|done].
    exfalso.
    pose proof (find_empty_slot_none _ Hll Hempty) as Hall.
    assert (Hfull : length (cached_banks_of (rom_bank_loaded (nes_memory nsf))
                              (rom_bank_id (nes_memory nsf))) = 10%nat).
    { rewrite cached_banks_of_all by (done || lia). done. }
    pose proof (lru_inv_nodup _ _ _ Hc Hfull) as Hnd.
    assert (H0 : rom_bank_use_order (nes_memory nsf) !! 0%nat = Some b).
    { rewrite <- Hhead. apply (rd_lookup _ 0). lia. }
    assert (H9 : rom_bank_use_order (nes_memory nsf) !! 9%nat = Some b).
    { rewrite Heq. apply (rd_lookup _ 9). lia. }
    pose proof (NoDup_lookup _ _ _ _ Hnd H0 H9). lia.
  - destruct (nsf_load_rom_bank_hit nsf reg bank Hreg Hfind)
      as (_ & _ & _ & ->).
    done.
Qed.

(** X19: the bank read last is not the one evicted next.  A read of a ROM
    address through a mapped window whose bank is cached puts that bank at
    the head of the LRU list, and the bank load that follows, whatever it
    loads and whatever it evicts, succeeds and leaves that bank cached. *)
Theorem X19_read_bank_survives_next_load (nsf : nsf_file_t) (w k reg bank : Z) :
  memory_inv (nes_memory nsf) ->
  0 <= w < 8 -> 0 <= k < 4096 -> 0x8000 + 4096 * w + k < 0xFFFA ->
  rd_ptr (rom_block (nes_memory nsf)) w <> None ->
  rd (rom_block_bank_id (nes_memory nsf)) w ∈ cached_banks (nes_memory nsf) ->
  0x5FF8 <= reg <= 0x5FFF ->
  is_byte bank ->
  let b := rd (rom_block_bank_id (nes_memory nsf)) w in
  exists nsf1 nsf2,
    snd (read6502 (Some nsf) (0x8000 + 4096 * w + k)) = Some nsf1 /\
    rd (rom_bank_use_order (nes_memory nsf1)) 0 = b /\
    nsf_load_rom_bank nsf1 reg bank = (ESP_OK, nsf2) /\
    b ∈ cached_banks (nes_memory nsf2).
Proof.
  intros Hinv Hw Hk Ha Hptr Hin Hreg Hbank b.
  destruct (read6502_inv nsf (0x8000 + 4096 * w + k) Hinv) as (nsf1 & Hr & Hinv1).
  assert (Hnsf1 : nsf1 = set_nes_memory (mark_rom_bank_used (nes_memory nsf) b) nsf).
  { revert Hr. unfold read6502.
    destruct (rom_address_decode (0x8000 + 4096 * w + k) ltac:(lia)) as (Hdw & _).
    replace ((0x8000 + 4096 * w + k - 0x8000) / 4096) with w in Hdw
      by (apply (Z.div_unique _ _ _ k); lia).
    replace (0x8000 + 4096 * w + k <=? 0x07FF) with false by lia.
    replace ((0x1000 <=? 0x8000 + 4096 * w + k) && (0x8000 + 4096 * w + k <=? 0x107F))
      with false by lia.
    replace ((0x4000 <=? 0x8000 + 4096 * w + k) && (0x8000 + 4096 * w + k <=? 0x4017))
      with false by lia.
    replace ((0x5FF8 <=? 0x8000 + 4096 * w + k) && (0x8000 + 4096 * w + k <=? 0x5FFF))
      with false by lia.
    replace ((0x8000 <=? 0x8000 + 4096 * w + k) && (0x8000 + 4096 * w + k <? 0xFFFA))
      with true by lia.
    rewrite Hdw.
    destruct (rd_ptr (rom_block (nes_memory nsf)) w); [|done].
    cbn [snd]. by intros [= <-]. }
  pose proof Hinv as [Hc _ _]. pose proof Hc as [_ _ Hlo _ _ _].
  assert (Hhead : rd (rom_bank_use_order (nes_memory nsf1)) 0 = b).
  { rewrite Hnsf1. cache_fields. apply mark_use_order_head; [done|]. left.
    by apply (lru_inv_elem_of _ _ _ _ Hc). }
  assert (Hin1 : b ∈ cached_banks (nes_memory nsf1)) by (by rewrite Hnsf1).
  destruct (nsf_load_rom_bank_inv nsf1 reg bank Hinv1 Hreg Hbank)
    as (nsf2 & Hload & _).
  exists nsf1, nsf2. split; [done|]. split; [done|]. split; [done|].
  pose proof (nsf_load_rom_bank_keeps_head nsf1 reg bank b Hinv1 Hreg Hbank
                Hin1 Hhead) as Hkeep.
  by rewrite Hload in Hkeep.
Qed.

Lemma X19_read_bank_survives_next_load_witness :
  let nsf := playing banked_sample 0 fill_cache in
  exists nsf1 nsf2,
    snd (read6502 (Some nsf) (0x8000 + 4096 * 0 + 0)) = Some nsf1 /\
    rd (rom_bank_use_order (nes_memory nsf1)) 0
    = rd (rom_block_bank_id (nes_memory nsf)) 0 /\
    nsf_load_rom_bank nsf1 0x5FF9 11 = (ESP_OK, nsf2) /\
    rd (rom_block_bank_id (nes_memory nsf)) 0 ∈ cached_banks (nes_memory nsf2).
Proof.
  intros nsf.
  apply (X19_read_bank_survives_next_load nsf 0 0 0x5FF9 11).
  - apply (playing_banked_sample_inv fill_cache).
    repeat constructor; unfold is_byte; lia.
  - lia.
  - lia.
  - lia.
  - subst nsf. vm_compute. discriminate.
  - subst nsf. apply (bool_decide_unpack _). vm_compute. exact I.
  - lia.
  - unfold is_byte. lia.
Defined.

(** ** Frames *)

(** X20: [nsf_playback_frame] refuses to run, with [ESP_ERR_INVALID_STATE],
    without a bus access and without a change, when the core is not at the
    play call of the bootstrap program ($1007).  When it is, whatever the
    core does on the bus until it is back at $1007 (the run is given; the
    code does not return from a core that never comes back), the frame
    leaves the header, the callback, the bootstrap program and the vectors
    of any instance as they are, so that the next frame starts from the same
    program; it leaves the ROM buffer and the windows as they are if the
    core stores to no bank register; and on a memory that satisfies the
    invariants, a run of byte stores keeps the invariants and the bank
    images. *)
Theorem X20_playback_frame (nsf : nsf_file_t) (pc : Z) (cpu : cpu_run) :
  (pc <> 0x1007 ->
   forall active,
     nsf_playback_frame active pc cpu = (ESP_ERR_INVALID_STATE, active, [])) /\
  exists nsf',
    snd (fst (nsf_playback_frame (Some nsf) 0x1007 cpu)) = Some nsf' /\
    fixed_regions nsf' = fixed_regions nsf /\
    fst (read6502 (Some nsf') 0x1007) = fst (read6502 (Some nsf) 0x1007) /\
    (no_bank_write cpu -> rom_regions nsf' = rom_regions nsf) /\
    (byte_writes cpu -> memory_inv (nes_memory nsf) -> image_inv nsf ->
     memory_inv (nes_memory nsf') /\ image_inv nsf').
Proof.
  split.
  - intros Hpc active. unfold nsf_playback_frame.
    by rewrite (proj2 (Z.eqb_neq _ _) Hpc).
  - unfold nsf_playback_frame.
    change (negb (0x1007 =? 0x1007)) with false. cbv iota.
    destruct (run_cpu_fixed cpu nsf) as (nsf' & Hrun & Hfix).
    assert (Hrom : no_bank_write cpu -> rom_regions nsf' = rom_regions nsf).
    { intros Hcpu. destruct (run_cpu_rom cpu nsf Hcpu) as (n & Hn & Hr).
      rewrite Hrun in Hn. by injection Hn as <-. }
    assert (Hinv : byte_writes cpu -> memory_inv (nes_memory nsf) ->
                   image_inv nsf ->
                   memory_inv (nes_memory nsf') /\ image_inv nsf').
    { intros Hcpu Hi Him.
      destruct (run_cpu_image cpu nsf Hcpu Hi Him) as (n & Hn & Hi' & Him').
      rewrite Hrun in Hn. by injection Hn as <-. }
    destruct (run_cpu cpu (Some nsf)) as [active evs]. cbn [fst snd] in *.
    subst active. exists nsf'. split_and!; try done.
    apply read6502_congr; try lia;
      unfold fixed_regions in Hfix; by simplify_eq.
Qed.

Lemma X20_playback_frame_witness :
  exists nsf',
    snd (fst (nsf_playback_frame (Some (playing banked_sample 0 CpuDone)) 0x1007
                (CpuRead 0x8000 (fun _ => CpuWrite 0x5FF8 9 CpuDone))))
    = Some nsf' /\
    memory_inv (nes_memory nsf') /\ image_inv nsf'.
Proof.
  destruct (proj2 (X20_playback_frame (playing banked_sample 0 CpuDone) 0x1007
              (CpuRead 0x8000 (fun _ => CpuWrite 0x5FF8 9 CpuDone))))
    as (nsf' & H & _ & _ & _ & Hinv).
  exists nsf'. split; [exact H|]. apply Hinv.
  - constructor. intros v. constructor; [unfold is_byte; lia | constructor].
  - apply (playing_banked_sample_inv CpuDone bw_done).
  - apply (playing_banked_sample_inv CpuDone bw_done).
Defined.

(** ** The image the core starts from *)

Lemma nsf_init_load_nes_rom_regions nsf :
  bus_regions (snd (nsf_init_load_nes_rom nsf)) = bus_regions nsf.
Proof. unfold nsf_init_load_nes_rom. repeat case_match; done. Qed.

Lemma nsf_init_load_nes_rom_banks_regions nsf :
  bus_regions (snd (nsf_init_load_nes_rom_banks nsf)) = bus_regions nsf.
Proof.
  unfold nsf_init_load_nes_rom_banks. by rewrite load_init_banks_regions.
Qed.

(** X21: the image [nsf_playback_init] hands to the core, whatever the file
    and whether or not the ROM load succeeds (here the core does nothing
    before it is observed): RAM, the APU registers and the bank registers
    are zero except $4017, which holds $40; header and callback are those
    given. *)
Theorem X21_initial_image (nsf : nsf_file_t) (song : Z) (cb : bool) :
  let nsf' := snd (fst (nsf_playback_init nsf song cb CpuDone)) in
  ram (nes_memory nsf') = replicate 2048 0 /\
  apu_regs (nes_memory nsf') = replicate 23 0 ++ [0x40] /\
  bank_regs (nes_memory nsf') = replicate 8 0 /\
  header nsf' = header nsf /\
  apu_write_cb nsf' = cb /\
  (forall a, 0 <= a <= 0x07FF -> fst (read6502 (Some nsf') a) = 0) /\
  fst (read6502 (Some nsf') 0x4017) = 0x40.
Proof.
  intros nsf'.
  assert (Hregs : bus_regions nsf'
                  = bus_regions (nsf_init_nes_prg
                      (nsf_init_nes_memory (set_apu_write_cb cb nsf)) song 0)).
  { unfold nsf', nsf_playback_init.
    set (nsf0 := nsf_init_nes_prg _ song 0).
    destruct (nsf_has_bank_switching nsf0).
    - pose proof (nsf_init_load_nes_rom_banks_regions nsf0) as H.
      destruct (nsf_init_load_nes_rom_banks nsf0) as [ret nsf1].
      by destruct (bool_decide (ret <> ESP_OK)).
    - pose proof (nsf_init_load_nes_rom_regions nsf0) as H.
      destruct (nsf_init_load_nes_rom nsf0) as [ret nsf1].
      by destruct (bool_decide (ret <> ESP_OK)). }
  clearbody nsf'. unfold bus_regions in Hregs.
  injection Hregs as Hh Hcb Hram _ Hapu Hbr _.
  cbn in Hh, Hcb, Hram, Hapu, Hbr.
  split_and!; try done.
  - intros a Ha. unfold read6502.
    replace (a <=? 0x07FF) with true by lia. cbn [fst].
    rewrite Hram. apply (rd_replicate 2048). lia.
  - unfold read6502. cbn [Z.leb Z.compare Pos.compare Pos.compare_cont
                          andb fst Z.sub Z.add Z.opp Z.pos_sub].
    by rewrite Hapu.
Qed.

(** ** A bank register store without bank switching *)

Lemma run_cpu_switched_state cpu nsf :
  no_bank_write cpu ->
  exists nsf', fst (run_cpu cpu (Some nsf)) = Some nsf' /\
               switched_state nsf' = switched_state nsf.
Proof.
  intros Hcpu. revert nsf.
  induction Hcpu as [|address k _ IH|address value k Ha _ IH];
    intros nsf; cbn [run_cpu].
  - eauto.
  - destruct (read6502_switched nsf address) as (nsf1 & H1 & Hsw1).
    destruct (read6502 (Some nsf) address) as [value active].
    cbn [snd] in H1. subst active.
    destruct (IH value nsf1) as (nsf2 & Hrun & Hsw2).
    exists nsf2. split; [done | congruence].
  - destruct (write6502_switched nsf address value Ha) as (nsf1 & H1 & Hsw1).
    destruct (write6502 (Some nsf) address value) as [active ev].
    cbn [fst] in H1. subst active.
    destruct (IH nsf1) as (nsf2 & Hrun & Hsw2).
    destruct (run_cpu k (Some nsf1)) as [active evs]. cbn [fst] in *.
    exists nsf2. split; [done | congruence].
Qed.

(** Reading a bank into a slot that lies within the ROM buffer. *)
Lemma load_bank_into_slot_fits nsf m reg bank s :
  0 <= s ->
  (Z.to_nat (s * 4096) + Z.to_nat 4096 <= length (rom m))%nat ->
  is_byte bank ->
  exists f,
    contents f = contents (file nsf) /\
    load_bank_into_slot nsf m reg bank s
    = (ESP_OK,
       set_file f
         (set_nes_memory
            (mark_rom_bank_used (memory_with_bank nsf m reg bank s) bank) nsf)).
Proof.
  intros Hs Hrom Hbank. unfold is_byte in Hbank.
  unfold load_bank_into_slot.
  pose proof (padding_range (load_address (header nsf))) as Hp.
  set (padding := Z.land (load_address (header nsf)) 0x0FFF) in *.
  set (off := if bank =? 0 then 0x080
              else 0x080 + (4096 - padding) + 4096 * (bank - 1)).
  set (len := if bank =? 0 then 4096 - padding else 4096).
  set (dst := if bank =? 0 then s * 4096 + padding else s * 4096).
  assert (Hoff : 0 <= off) by (unfold off; destruct (bank =? 0) eqn:?; lia).
  assert (Hlen : 0 < len <= 4096) by (unfold len; destruct (bank =? 0); lia).
  unfold fseek_set. replace (off <? 0) with false by lia.
  cbn [Z.ltb Z.compare]. unfold fread. cbn [contents fpos feof].
  set (d := take (Z.to_nat len) (drop (Z.to_nat off) (contents (file nsf)))).
  assert (Hd : (length d <= Z.to_nat len)%nat)
    by (unfold d; rewrite length_take; lia).
  assert (Heof : (Z.of_nat (length d) =? 0)
                 && negb (false || (Z.of_nat (length d) <? len)) = false).
  { destruct (Z.of_nat (length d) =? 0) eqn:E; [|done].
    replace (Z.of_nat (length d) <? len) with true by lia. done. }
  rewrite Heof.
  eexists. split; [|f_equal; f_equal]; [reflexivity|].
  f_equal. f_equal. apply nes_memory_ext; unfold memory_with_bank;
    cbn [ram prg apu_regs bank_regs int_vecs rom_block rom_block_bank_id rom
         rom_bank_id rom_bank_loaded rom_bank_use_order
         set_rom set_rom_bank_loaded set_rom_bank_id set_rom_block
         set_rom_block_bank_id set_rom_bank_use_order]; try reflexivity.
  fold padding. unfold bank_image, dst, d, len, off.
  set (o := Z.to_nat (s * 4096)) in *.
  replace (s * 4096) with (Z.of_nat o) by lia.
  destruct (bank =? 0) eqn:Hb0; cbv zeta.
  - replace (Z.of_nat o + padding) with (Z.of_nat (o + Z.to_nat padding)) by lia.
    rewrite blit_bzero_slot; [done | lia | rewrite length_take; lia].
  - replace (Z.of_nat o) with (Z.of_nat (o + 0)) at 2 by lia.
    rewrite blit_bzero_slot; [|lia | rewrite length_take; lia].
    cbn [replicate app]. by rewrite Nat.sub_0_r.
Qed.

(** X22: the bank registers are live without bank switching too.  After
    [nsf_playback_init] of a file whose initial bank numbers are all zero,
    the first store of a nonzero bank number to any of $5FF8-$5FFF is not
    ignored: it issues a bank load, which takes the first 4 KiB of the
    contiguous ROM image for cache slot 0; the reads of $8000-$8FFF, which
    returned the start of the contiguous image before, return the bytes of
    that bank afterwards. *)
Theorem X22_contiguous_bank_store (nsf : nsf_file_t) (song : Z) (cb : bool)
    (cpu : cpu_run) (i v k : Z) :
  nsf_has_bank_switching nsf = false ->
  0x8000 <= load_address (header nsf) <= 0xFFFF ->
  let la := load_address (header nsf) in
  let data := take (Z.to_nat (0xFFFF - la)) (drop 128 (contents (file nsf))) in
  data <> [] ->
  no_bank_write cpu ->
  0 <= i < 8 -> is_byte v -> v <> 0 -> 0 <= k < 4096 ->
  let nsf' := snd (fst (nsf_playback_init nsf song cb cpu)) in
  let '(after, evs) := write6502 (Some nsf') (0x5FF8 + i) v in
  evs = [BankLoad (0x5FF8 + i) v] /\
  fst (read6502 (Some nsf') (0x8000 + k)) = rd (contiguous_rom la data) k /\
  fst (read6502 after (0x8000 + k))
  = rd (bank_image (contents (file nsf)) (Z.land la 0x0FFF) v) k.
Proof.
  intros Hbs Hla la data Hdata Hcpu Hi Hv Hv0 Hk nsf'.
  (* the state after the initialisation and the run *)
  assert (Hstate :
    header nsf' = header nsf /\
    contents (file nsf') = contents (file nsf) /\
    bank_regs (nes_memory nsf') = replicate 8 0 /\
    rom_block (nes_memory nsf')
    = [Some 0; Some 4096; Some 8192; Some 12288;
       Some 16384; Some 20480; Some 24576; Some 28672] /\
    rom (nes_memory nsf') = contiguous_rom la data /\
    rom_bank_loaded (nes_memory nsf') = replicate 10 0).
  { unfold nsf', nsf_playback_init.
    set (nsf0 := nsf_init_nes_prg (nsf_init_nes_memory (set_apu_write_cb cb nsf)) song 0).
    change (nsf_has_bank_switching nsf0) with (nsf_has_bank_switching nsf).
    rewrite Hbs.
    destruct (nsf_init_load_nes_rom_image nsf0 Hla Hdata)
      as (nsf1 & Hl & _ & Hrom & Hblk).
    pose proof (nsf_init_load_nes_rom_regions nsf0) as Hregs.
    assert (Hc1 : contents (file (snd (nsf_init_load_nes_rom nsf0)))
                  = contents (file nsf0) /\
                  rom_bank_loaded (nes_memory (snd (nsf_init_load_nes_rom nsf0)))
                  = rom_bank_loaded (nes_memory nsf0)).
    { unfold nsf_init_load_nes_rom, fseek_set, fread.
      repeat case_match; simplify_eq; done. }
    rewrite Hl in *. cbn [snd] in Hregs, Hc1. destruct Hc1 as [Hc1 Hld1].
    change (bool_decide (ESP_OK <> ESP_OK)) with false. cbv iota.
    destruct (run_cpu_switched_state cpu nsf1 Hcpu) as (nsf2 & H2 & Hsw).
    destruct (run_cpu cpu (Some nsf1)) as [active evs]. cbn [fst] in H2.
    subst active. cbn [fst snd default from_option id].
    unfold switched_state in Hsw.
    injection Hsw as Hh2 Hc2 Hbr2 Hrb2 _ Hrom2 _ Hld2.
    unfold bus_regions in Hregs. injection Hregs as Hh1 _ _ _ _ Hbr1 _.
    split_and!.
    - rewrite Hh2, Hh1. reflexivity.
    - rewrite Hc2, Hc1. reflexivity.
    - rewrite Hbr2, Hbr1. reflexivity.
    - by rewrite Hrb2.
    - by rewrite Hrom2.
    - rewrite Hld2, Hld1. reflexivity. }
  clearbody nsf'.
  destruct Hstate as (Hh & Hc & Hbr & Hrb & Hrom & Hld).
  assert (Hlen : (length data <= Z.to_nat (0xFFFF - la))%nat).
  { unfold data. rewrite length_take. lia. }
  assert (Hromlen : length (rom (nes_memory nsf')) = Z.to_nat 32768).
  { rewrite Hrom. unfold contiguous_rom.
    rewrite !length_app, !length_replicate. lia. }
  assert (Hwin : forall n, rom_block (nes_memory n) = rom_block (nes_memory nsf')
                           \/ rom_block (nes_memory n)
                              = wr_ptr (rom_block (nes_memory nsf')) i (Some 0) ->
            rd_ptr (rom_block (nes_memory n)) 0 = Some 0).
  { intros n [->| ->]; rewrite Hrb; [reflexivity|].
    destruct (decide (i = 0)) as [->|Hne]; [reflexivity|].
    by rewrite rd_ptr_wr_ptr_ne by lia. }
  assert (Hread : forall n, rd_ptr (rom_block (nes_memory n)) 0 = Some 0 ->
            fst (read6502 (Some n) (0x8000 + k)) = rd (rom (nes_memory n)) k).
  { intros n Hn. unfold read6502.
    replace (0x8000 + k <=? 0x07FF) with false by lia.
    replace ((0x1000 <=? 0x8000 + k) && (0x8000 + k <=? 0x107F)) with false by lia.
    replace ((0x4000 <=? 0x8000 + k) && (0x8000 + k <=? 0x4017)) with false by lia.
    replace ((0x5FF8 <=? 0x8000 + k) && (0x8000 + k <=? 0x5FFF)) with false by lia.
    replace ((0x8000 <=? 0x8000 + k) && (0x8000 + k <? 0xFFFA)) with true by lia.
    destruct (rom_address_decode (0x8000 + k) ltac:(lia)) as (Hdw & Hoff).
    replace ((0x8000 + k - 0x8000) / 4096) with 0 in Hdw
      by (apply (Z.div_unique _ _ _ k); lia).
    replace ((0x8000 + k - 0x8000) mod 4096) with k in Hoff
      by (apply (Z.mod_unique _ _ 0); lia).
    rewrite Hdw, Hn, Hoff. reflexivity. }
  unfold write6502.
  replace (0x5FF8 + i <=? 0x07FF) with false by lia.
  replace ((0x4000 <=? 0x5FF8 + i) && (0x5FF8 + i <=? 0x4017)) with false by lia.
  replace ((0x5FF8 <=? 0x5FF8 + i) && (0x5FF8 + i <=? 0x5FFF)) with true by lia.
  replace (0x5FF8 + i - 0x5FF8) with i by lia.
  rewrite Hbr, rd_replicate by lia.
  rewrite (proj2 (Z.eqb_neq 0 v)) by lia. cbn [negb].
  split; [done|]. split.
  { rewrite Hread by (apply Hwin; by left). by rewrite Hrom. }
  set (nsf1 := set_nes_memory _ nsf').
  assert (Hm1 : rom_bank_loaded (nes_memory nsf1) = replicate 10 0) by exact Hld.
  assert (Hfind : find_loaded_bank (nes_memory nsf1) v = -1).
  { apply scan_from_all_false. intros j Hj. unfold ROM_BANK_COUNT in Hj.
    rewrite Hm1, rd_replicate by lia. reflexivity. }
  assert (Hempty : find_empty_slot (nes_memory nsf1) = 0).
  { unfold find_empty_slot. rewrite Hm1. reflexivity. }
  destruct (load_bank_into_slot_fits nsf1 (nes_memory nsf1) (0x5FF8 + i) v 0)
    as (f & Hf & Hload); [lia | | done |].
  { change (rom (nes_memory nsf1)) with (rom (nes_memory nsf')).
    rewrite Hromlen. lia. }
  assert (Hl : nsf_load_rom_bank nsf1 (0x5FF8 + i) v
               = (ESP_OK,
                  set_file f
                    (set_nes_memory
                       (mark_rom_bank_used
                          (memory_with_bank nsf1 (nes_memory nsf1) (0x5FF8 + i) v 0)
                          v) nsf1))).
  { unfold nsf_load_rom_bank.
    replace ((0x5FF8 + i <? 0x5FF8) || (0x5FF8 + i >? 0x5FFF)) with false by lia.
    rewrite Hfind, Hempty. exact Hload. }
  rewrite Hl. cbn [fst snd].
  rewrite Hread.
  - cache_fields. change (Z.to_nat (0 * 4096)) with 0%nat.
    rewrite take_0. cbn [app]. rewrite rd_app_l.
    + change (header nsf1) with (header nsf').
      change (contents (file nsf1)) with (contents (file nsf')).
      by rewrite Hh, Hc.
    + rewrite length_bank_image by apply padding_range. lia.
  - apply Hwin. right. cache_fields.
    replace (u8 (0x5FF8 + i - 0x5FF8)) with i
      by (unfold u8; rewrite Z.mod_small; lia).
    reflexivity.
Qed.

Lemma X22_contiguous_bank_store_witness :
  let nsf' := playing contiguous_sample 0 CpuDone in
  let '(after, evs) := write6502 (Some nsf') (0x5FF8 + 3) 1 in
  evs = [BankLoad (0x5FF8 + 3) 1] /\
  fst (read6502 (Some nsf') (0x8000 + 0))
  = rd (contiguous_rom (load_address (header (opened contiguous_sample)))
          (take (Z.to_nat (0xFFFF - load_address (header (opened contiguous_sample))))
             (drop 128 (contents (file (opened contiguous_sample)))))) 0 /\
  fst (read6502 after (0x8000 + 0))
  = rd (bank_image (contents (file (opened contiguous_sample)))
          (Z.land (load_address (header (opened contiguous_sample))) 0x0FFF) 1) 0.
Proof.
  apply (X22_contiguous_bank_store (opened contiguous_sample) 0 true CpuDone 3 1 0).
  - vm_compute. reflexivity.
  - vm_compute. split; discriminate.
  - vm_compute. discriminate.
  - constructor.
  - lia.
  - unfold is_byte. lia.
  - lia.
  - lia.
Defined.

(** ** Windows the eviction leaves behind *)

(** The eviction compares the bank recorded for a window with the index of
    the freed slot: a window whose recorded bank is another number is left
    as it is. *)
Lemma evict_oldest_bank_window_other m s m1 w :
  evict_oldest_bank m = inr (s, m1) ->
  0 <= w -> rd (rom_block_bank_id m) w <> s ->
  rd_ptr (rom_block m1) w = rd_ptr (rom_block m) w /\
  rd (rom_block_bank_id m1) w = rd (rom_block_bank_id m) w.
Proof.
  unfold evict_oldest_bank. change (Z.of_nat ROM_BANK_COUNT - 1) with 9.
  set (oldest := rd (rom_bank_use_order m) 9).
  destruct (oldest =? -1); [done|].
  set (s0 := scan_from (fun i => rd (rom_bank_id m) i =? oldest) 0 ROM_BANK_COUNT).
  destruct (s0 =? -1); [done|]. clearbody s0.
  cbn [rom_block rom_block_bank_id set_rom_bank_use_order set_rom_bank_loaded
       set_rom_bank_id].
  set (i := scan_from _ 0 8).
  destruct (i =? -1) eqn:Hi.
  - intros [= <- <-] _ _. done.
  - apply Z.eqb_neq in Hi.
    destruct (scan_from_found _ _ _ _ eq_refl Hi) as (Hr & Hp & _).
    fold i in Hr, Hp. cbn beta in Hp.
    apply andb_true_iff in Hp as [_ Hp]. apply Z.eqb_eq in Hp.
    clearbody i.
    intros [= <- <-] Hw Hne.
    cbn [rom_block rom_block_bank_id set_rom_block set_rom_block_bank_id].
    assert (i <> w) by congruence.
    rewrite rd_ptr_wr_ptr_ne, rd_wr_ne by lia. done.
Qed.

(** X23: when stale windows arise.  In a full cache that satisfies the
    invariants and whose windows are consistent, let a window other than the
    one being switched record the oldest bank (the LRU tail), and let that
    bank not sit in the slot that carries its own number.  Then the load of a
    bank that is not cached evicts the oldest bank but leaves this window as
    it is: it still points at the freed slot and still records the evicted
    bank while the slot now holds the new bank, so P3 fails afterwards and
    the executable check [window_consistent] rejects the memory. *)
Theorem X23_stale_window (nsf : nsf_file_t) (reg bank w : Z) :
  memory_inv (nes_memory nsf) ->
  windows_consistent (nes_memory nsf) ->
  find_empty_slot (nes_memory nsf) = -1 ->
  0x5FF8 <= reg <= 0x5FFF ->
  is_byte bank ->
  bank ∉ cached_banks (nes_memory nsf) ->
  let m := nes_memory nsf in
  let oldest := rd (rom_bank_use_order m) 9 in
  0 <= w < 8 -> w <> reg - 0x5FF8 ->
  rd_ptr (rom_block m) w <> None ->
  rd (rom_block_bank_id m) w = oldest ->
  rd (rom_bank_id m) oldest <> oldest ->
  exists nsf' s,
    nsf_load_rom_bank nsf reg bank = (ESP_OK, nsf') /\
    rd_ptr (rom_block (nes_memory nsf')) w = Some (s * 4096) /\
    rd (rom_block_bank_id (nes_memory nsf')) w = oldest /\
    rd (rom_bank_id (nes_memory nsf')) s = bank /\
    bank <> oldest /\
    ~ windows_consistent (nes_memory nsf') /\
    window_consistent (nes_memory nsf') = false.
Proof.
  intros Hinv Hcons Hfull Hreg Hbank Hnew m oldest Hw Hne Hptr Hrec Hslot.
  subst oldest m.
  pose proof Hinv as [Hc [Hwb Hwi _ _] _].
  pose proof Hc as [Hli Hll Hlo Hb Hu _].
  assert (Hfind : find_loaded_bank (nes_memory nsf) bank = -1).
  { destruct (decide (find_loaded_bank (nes_memory nsf) bank = -1)) as [|Hf];
      [done|].
    exfalso. apply Hnew. by apply find_loaded_bank_some. }
  destruct (nsf_load_rom_bank_miss nsf reg bank Hinv Hreg Hbank Hfind)
    as (s & m1 & f & Hs & _ & Hload & Hc1 & _ & Hld1 & _ & Hcase).
  destruct Hcase as [(Hempty & _)|(_ & Hev & Hperm)]; [lia|].
  destruct (evict_oldest_bank_slot _ _ _ Hev) as (_ & Hids & _ & Hlb1 & _).
  (* the window points at the slot of the oldest bank *)
  destruct (rd_ptr (rom_block (nes_memory nsf)) w) as [block|] eqn:Hblock; [|done].
  destruct (Hcons w block Hw Hblock) as (s' & Hs' & -> & Hl' & Hid').
  rewrite Hrec in Hid'.
  pose proof (find_empty_slot_none _ Hll Hfull) as Hall.
  assert (Hnd : NoDup (rom_bank_id (nes_memory nsf))).
  { rewrite <- (cached_banks_of_all (rom_bank_loaded (nes_memory nsf)))
      by (done || lia). done. }
  assert (s' = s).
  { pose proof (NoDup_lookup _ (Z.to_nat s') (Z.to_nat s)
                  (rd (rom_bank_use_order (nes_memory nsf)) 9) Hnd) as Heq.
    rewrite <- Hid' in Heq at 1. rewrite <- Hids in Heq.
    rewrite !rd_lookup in Heq by lia.
    specialize (Heq eq_refl eq_refl). lia. }
  subst s'.
  assert (Hos : rd (rom_bank_use_order (nes_memory nsf)) 9 <> s)
    by (intros Heq; apply Hslot; congruence).
  destruct (evict_oldest_bank_window_other (nes_memory nsf) s m1 w Hev ltac:(lia)
              ltac:(by rewrite Hrec)) as (Hrb1 & Hid1).
  assert (Hbo : bank <> rd (rom_bank_use_order (nes_memory nsf)) 9).
  { intros ->. apply Hnew. rewrite Hperm. by left. }
  assert (Ht : u8 (reg - 0x5FF8) = reg - 0x5FF8)
    by (unfold u8; apply Z.mod_small; lia).
  pose proof Hc1 as [Hli1 Hll1 _ _ _ _].
  assert (Hwin : rd_ptr
            (rom_block (mark_rom_bank_used (memory_with_bank nsf m1 reg bank s) bank))
            w = Some (s * 4096) /\
          rd (rom_block_bank_id
                (mark_rom_bank_used (memory_with_bank nsf m1 reg bank s) bank)) w
          = rd (rom_bank_use_order (nes_memory nsf)) 9 /\
          rd (rom_bank_id
                (mark_rom_bank_used (memory_with_bank nsf m1 reg bank s) bank)) s
          = bank /\
          rd (rom_bank_loaded
                (mark_rom_bank_used (memory_with_bank nsf m1 reg bank s) bank)) s
          = 1).
  { cache_fields. rewrite Ht.
    rewrite rd_ptr_wr_ptr_ne, rd_wr_ne by lia.
    rewrite !rd_wr_eq by (rewrite ?length_wr; lia).
    rewrite Hrb1, Hid1, Hblock. done. }
  destruct Hwin as (Hw1 & Hw2 & Hw3 & Hw4).
  eexists. exists s. split; [exact Hload|].
  cbn [nes_memory set_file set_nes_memory].
  split_and!; try done.
  - intros Hcons'. destruct (Hcons' w _ Hw Hw1) as (s2 & Hs2 & Heq & _ & Hid2).
    assert (s2 = s) by lia. subst s2. congruence.
  - unfold window_consistent. apply not_true_iff_false. intros Hall'.
    rewrite forallb_forall in Hall'.
    specialize (Hall' w ltac:(apply list_elem_of_In, elem_of_seqZ; lia)).
    cbn beta in Hall'. rewrite Hw1 in Hall'. rewrite Z.div_mul in Hall' by lia.
    apply andb_true_iff in Hall' as [_ Hall'].
    apply Z.eqb_eq in Hall'. congruence.
Qed.

Lemma windows_consistentb_sound m :
  windows_consistentb m = true -> windows_consistent m.
Proof.
  unfold windows_consistentb. rewrite forallb_forall.
  intros Hall w block Hw Hptr.
  specialize (Hall w ltac:(apply list_elem_of_In, elem_of_seqZ; lia)).
  cbn beta in Hall. rewrite Hptr in Hall. cbv zeta in Hall.
  repeat (apply andb_true_iff in Hall as [Hall ?]).
  exists (block / 4096). split_and!; lia.
Qed.

Lemma X23_stale_window_witness :
  let nsf := playing banked_sample 0 fill_cache in
  exists nsf' s,
    nsf_load_rom_bank nsf 0x5FF9 11 = (ESP_OK, nsf') /\
    rd_ptr (rom_block (nes_memory nsf')) 0 = Some (s * 4096) /\
    rd (rom_block_bank_id (nes_memory nsf')) 0
    = rd (rom_bank_use_order (nes_memory nsf)) 9 /\
    rd (rom_bank_id (nes_memory nsf')) s = 11 /\
    11 <> rd (rom_bank_use_order (nes_memory nsf)) 9 /\
    ~ windows_consistent (nes_memory nsf') /\
    window_consistent (nes_memory nsf') = false.
Proof.
  intros nsf.
  apply (X23_stale_window nsf 0x5FF9 11 0).
  - apply (playing_banked_sample_inv fill_cache).
    repeat constructor; unfold is_byte; lia.
  - apply windows_consistentb_sound. vm_compute. reflexivity.
  - vm_compute. reflexivity.
  - lia.
  - unfold is_byte. lia.
  - apply (bool_decide_unpack _). vm_compute. exact I.
  - lia.
  - lia.
  - vm_compute. discriminate.
  - vm_compute. reflexivity.
  - vm_compute. discriminate.
Defined.

(** The window the eviction clears: the first mapped one whose recorded
    bank number equals the index of the freed slot. *)
Lemma evict_oldest_bank_window_hit m s m1 w :
  evict_oldest_bank m = inr (s, m1) ->
  0 <= w < 8 ->
  rd_ptr (rom_block m) w <> None ->
  rd (rom_block_bank_id m) w = s ->
  (forall w', 0 <= w' < w ->
     rd_ptr (rom_block m) w' = None \/ rd (rom_block_bank_id m) w' <> s) ->
  rom_block m1 = wr_ptr (rom_block m) w None /\
  rom_block_bank_id m1 = wr (rom_block_bank_id m) w 0.
Proof.
  unfold evict_oldest_bank. change (Z.of_nat ROM_BANK_COUNT - 1) with 9.
  set (oldest := rd (rom_bank_use_order m) 9).
  destruct (oldest =? -1); [done|].
  set (s0 := scan_from (fun i => rd (rom_bank_id m) i =? oldest) 0 ROM_BANK_COUNT).
  destruct (s0 =? -1); [done|]. clearbody s0.
  cbn [rom_block rom_block_bank_id set_rom_bank_use_order set_rom_bank_loaded
       set_rom_bank_id].
  intros Hev Hw Hptr Hrec Hfirst.
  assert (Hs0 : s0 = s) by (destruct (scan_from _ 0 8 =? -1); congruence).
  subst s0.
  rewrite (scan_from_first _ 0 8 w) in Hev.
  - rewrite (proj2 (Z.eqb_neq w (-1))) in Hev by lia.
    injection Hev as <-.
    by cbn [rom_block rom_block_bank_id set_rom_block set_rom_block_bank_id].
  - lia.
  - cbn beta. rewrite bool_decide_eq_true_2 by done.
    by rewrite Hrec, Z.eqb_refl.
  - intros w' Hw'. cbn beta. apply andb_false_iff.
    destruct (Hfirst w' Hw') as [Hnull|Hne].
    + left. by apply bool_decide_eq_false_2; intros Hnn.
    + right. by apply Z.eqb_neq.
Qed.

(** X24: the window the eviction does clear.  The eviction compares the bank
    number recorded for a window with the index of the freed slot.  In a
    full cache that satisfies the invariants, let the first mapped window
    whose recorded bank number equals the index of the slot of the oldest
    bank be a window [w] other than the one being switched, recording a
    cached bank that is not the oldest.  Then the load of a bank that is not
    cached unmaps window [w]: afterwards its pointer is null and reads
    through it return 0, although its bank is still in the cache. *)
Theorem X24_cached_bank_unmapped (nsf : nsf_file_t) (reg bank w k : Z) :
  memory_inv (nes_memory nsf) ->
  find_empty_slot (nes_memory nsf) = -1 ->
  0x5FF8 <= reg <= 0x5FFF ->
  is_byte bank ->
  bank ∉ cached_banks (nes_memory nsf) ->
  let m := nes_memory nsf in
  let oldest := rd (rom_bank_use_order m) 9 in
  let b := rd (rom_block_bank_id m) w in
  0 <= w < 8 -> w <> reg - 0x5FF8 ->
  rd_ptr (rom_block m) w <> None ->
  b ∈ cached_banks m ->
  b <> oldest ->
  0 <= b < 10 -> rd (rom_bank_id m) b = oldest ->
  (forall w', 0 <= w' < w ->
     rd_ptr (rom_block m) w' = None \/ rd (rom_block_bank_id m) w' <> b) ->
  0 <= k < 4096 -> 0x8000 + 4096 * w + k < 0xFFFA ->
  exists nsf',
    nsf_load_rom_bank nsf reg bank = (ESP_OK, nsf') /\
    rd_ptr (rom_block (nes_memory nsf')) w = None /\
    b ∈ cached_banks (nes_memory nsf') /\
    fst (read6502 (Some nsf') (0x8000 + 4096 * w + k)) = 0.
Proof.
  intros Hinv Hfull Hreg Hbank Hnew m oldest b Hw Hne Hptr Hin Hbo Hb Hslot
    Hfirst Hk Ha.
  subst b oldest m.
  pose proof Hinv as [Hc [Hwb Hwi _ _] _].
  pose proof Hc as [Hli Hll Hlo _ Hu _].
  assert (Hfind : find_loaded_bank (nes_memory nsf) bank = -1).
  { destruct (decide (find_loaded_bank (nes_memory nsf) bank = -1)) as [|Hf];
      [done|].
    exfalso. apply Hnew. by apply find_loaded_bank_some. }
  destruct (nsf_load_rom_bank_miss nsf reg bank Hinv Hreg Hbank Hfind)
    as (s & m1 & f & Hs & _ & Hload & Hc1 & _ & Hld1 & _ & Hcase).
  destruct Hcase as [(Hempty & _)|(_ & Hev & Hperm)]; [lia|].
  destruct (evict_oldest_bank_slot _ _ _ Hev) as (_ & Hids & _).
  pose proof (find_empty_slot_none _ Hll Hfull) as Hall.
  assert (Hnd : NoDup (rom_bank_id (nes_memory nsf))).
  { rewrite <- (cached_banks_of_all (rom_bank_loaded (nes_memory nsf)))
      by (done || lia). done. }
  assert (Hbs : rd (rom_block_bank_id (nes_memory nsf)) w = s).
  { pose proof (NoDup_lookup _
                  (Z.to_nat (rd (rom_block_bank_id (nes_memory nsf)) w))
                  (Z.to_nat s) (rd (rom_bank_use_order (nes_memory nsf)) 9)
                  Hnd) as Heq.
    rewrite <- Hslot in Heq at 1. rewrite <- Hids in Heq.
    rewrite !rd_lookup in Heq by lia.
    specialize (Heq eq_refl eq_refl). lia. }
  destruct (evict_oldest_bank_window_hit (nes_memory nsf) s m1 w Hev Hw Hptr Hbs)
    as (Hrb1 & Hid1).
  { intros w' Hw'. rewrite <- Hbs. by apply Hfirst. }
  assert (Ht : u8 (reg - 0x5FF8) = reg - 0x5FF8)
    by (unfold u8; apply Z.mod_small; lia).
  pose proof Hc1 as [Hli1 Hll1 _ _ _ _].
  assert (Hnull : rd_ptr
            (rom_block (mark_rom_bank_used (memory_with_bank nsf m1 reg bank s) bank))
            w = None).
  { cache_fields. rewrite Ht, Hrb1.
    rewrite rd_ptr_wr_ptr_ne by lia. apply rd_ptr_wr_ptr_eq. lia. }
  eexists. split; [exact Hload|].
  cbn [nes_memory set_file set_nes_memory].
  split; [done|]. split.
  - rewrite memory_with_bank_cached;
      [|done|done|rewrite Hld1; apply list_lookup_insert_eq; lia].
    right. rewrite Hperm in Hin. by apply elem_of_cons in Hin as [?|?].
  - destruct (rom_address_decode (0x8000 + 4096 * w + k) ltac:(lia)) as (Hdw & _).
    replace ((0x8000 + 4096 * w + k - 0x8000) / 4096) with w in Hdw
      by (apply (Z.div_unique _ _ _ k); lia).
    unfold read6502.
    replace (0x8000 + 4096 * w + k <=? 0x07FF) with false by lia.
    replace ((0x1000 <=? 0x8000 + 4096 * w + k) && (0x8000 + 4096 * w + k <=? 0x107F))
      with false by lia.
    replace ((0x4000 <=? 0x8000 + 4096 * w + k) && (0x8000 + 4096 * w + k <=? 0x4017))
      with false by lia.
    replace ((0x5FF8 <=? 0x8000 + 4096 * w + k) && (0x8000 + 4096 * w + k <=? 0x5FFF))
      with false by lia.
    replace ((0x8000 <=? 0x8000 + 4096 * w + k) && (0x8000 + 4096 * w + k <? 0xFFFA))
      with true by lia.
    rewrite Hdw. cbn [nes_memory set_file set_nes_memory]. by rewrite Hnull.
Qed.

Lemma X24_cached_bank_unmapped_witness :
  let nsf := playing banked_sample 0 fill_cache_bank0 in
  exists nsf',
    nsf_load_rom_bank nsf 0x5FF9 11 = (ESP_OK, nsf') /\
    rd_ptr (rom_block (nes_memory nsf')) 7 = None /\
    rd (rom_block_bank_id (nes_memory nsf)) 7 ∈ cached_banks (nes_memory nsf') /\
    fst (read6502 (Some nsf') (0x8000 + 4096 * 7 + 0)) = 0.
Proof.
  intros nsf.
  apply (X24_cached_bank_unmapped nsf 0x5FF9 11 7 0).
  - apply (playing_banked_sample_inv fill_cache_bank0).
    repeat constructor; unfold is_byte; lia.
  - vm_compute. reflexivity.
  - lia.
  - unfold is_byte. lia.
  - apply (bool_decide_unpack _). vm_compute. exact I.
  - lia.
  - lia.
  - vm_compute. discriminate.
  - apply (bool_decide_unpack _). vm_compute. exact I.
  - vm_compute. discriminate.
  - vm_compute. split; [discriminate | reflexivity].
  - vm_compute. reflexivity.
  - intros w' Hw'. right.
    assert (Hcase : w' = 0 \/ w' = 1 \/ w' = 2 \/ w' = 3 \/ w' = 4 \/ w' = 5
                    \/ w' = 6) by lia.
    destruct Hcase as [->|[->|[->|[->|[->|[->| ->]]]]]];
      vm_compute; discriminate.
  - lia.
  - lia.
Defined.

(** ** The header of an instance *)

(** A property of bytes that holds for each of the 256 values. *)
Lemma byte_cases (P : Z -> bool) :
  forallb P (seqZ 0 256) = true -> forall b, is_byte b -> P b = true.
Proof.
  intros Hall b Hb. rewrite forallb_forall in Hall. apply Hall.
  apply list_elem_of_In, elem_of_seqZ. unfold is_byte in Hb. lia.
Qed.

Lemma log_decoders_bytes b : is_byte b -> log_decoders_check b = true.
Proof. apply byte_cases. vm_compute. reflexivity. Qed.

(** X25: what [nsf_log_header_fields] reports.  For a header of bytes the
    TV system line says NTSC exactly for PAL/NTSC bits 0, PAL for 1, dual
    for 2 and 3, and invalid from 4 on; the chip lines name, in the order
    VRC6, VRC7, FDS, MMC5, Nameco 163, Sunsoft 5B, the chips whose bit (0 to
    5) is set in the sound chip byte, followed by an error line exactly when
    the byte is 64 or more; the log has 17 lines besides the chip lines, and
    the three strings are printed up to their first NUL. *)
Theorem X25_log_header_fields (nsf : nsf_file_t) :
  is_byte (pal_ntsc_bits (header nsf)) ->
  is_byte (extra_sound_chips (header nsf)) ->
  let h := header nsf in
  let lines := nsf_log_header_fields nsf in
  let chips := log_sound_chips (extra_sound_chips h) in
  let bit n := Z.testbit (extra_sound_chips h) n in
  (exists before after,
     lines = before ++ [LogTvSystem (log_pal_ntsc (pal_ntsc_bits h));
                        LogChipsTitle] ++ map LogChip chips ++ after /\
     length before = 14%nat /\ length after = 1%nat) /\
  (log_pal_ntsc (pal_ntsc_bits h) = TvNtsc <-> pal_ntsc_bits h = 0) /\
  (log_pal_ntsc (pal_ntsc_bits h) = TvPal <-> pal_ntsc_bits h = 1) /\
  (log_pal_ntsc (pal_ntsc_bits h) = TvDual <-> 2 <= pal_ntsc_bits h <= 3) /\
  (log_pal_ntsc (pal_ntsc_bits h) = TvInvalid <-> 4 <= pal_ntsc_bits h) /\
  chips
  = List.filter
      (fun c => match c with
                | VRC6 => bit 0 | VRC7 => bit 1 | FDS => bit 2 | MMC5 => bit 3
                | Nameco_163 => bit 4 | Sunsoft_5B => bit 5
                | ChipError => 64 <=? extra_sound_chips h
                end)
      [VRC6; VRC7; FDS; MMC5; Nameco_163; Sunsoft_5B; ChipError] /\
  LogName (cstr (name h)) ∈ lines /\
  LogArtist (cstr (artist h)) ∈ lines /\
  LogCopyright (cstr (copyright h)) ∈ lines.
Proof.
  intros Hpal Hchips h lines chips bit.
  subst lines chips bit h.
  pose proof (log_decoders_bytes _ Hpal) as Hp.
  pose proof (log_decoders_bytes _ Hchips) as Hc.
  unfold log_decoders_check in Hp, Hc.
  apply andb_true_iff in Hp as [Hp _].
  apply andb_true_iff in Hp as [Hp Hp4]. apply andb_true_iff in Hp as [Hp Hp3].
  apply andb_true_iff in Hp as [Hp1 Hp2].
  apply andb_true_iff in Hc as [_ Hc].
  apply Bool.eqb_prop in Hp1, Hp2, Hp3, Hp4.
  apply bool_decide_eq_true in Hc.
  set (pal := pal_ntsc_bits (header nsf)) in *.
  set (ch := extra_sound_chips (header nsf)) in *.
  split_and!.
  - unfold nsf_log_header_fields. cbv zeta.
    eexists [_; _; _; _; _; _; _; _; _; _; _; _; _; _], [_].
    split; [reflexivity | done].
  - rewrite <- (bool_decide_eq_true (log_pal_ntsc pal = TvNtsc)), Hp1. lia.
  - rewrite <- (bool_decide_eq_true (log_pal_ntsc pal = TvPal)), Hp2. lia.
  - rewrite <- (bool_decide_eq_true (log_pal_ntsc pal = TvDual)), Hp3. lia.
  - rewrite <- (bool_decide_eq_true (log_pal_ntsc pal = TvInvalid)), Hp4. lia.
  - exact Hc.
  - by apply (list_elem_of_lookup_2 _ 8%nat).
  - by apply (list_elem_of_lookup_2 _ 9%nat).
  - by apply (list_elem_of_lookup_2 _ 10%nat).
Qed.

Lemma X25_log_header_fields_witness :
  log_pal_ntsc (pal_ntsc_bits (header (opened banked_sample))) = TvNtsc
  <-> pal_ntsc_bits (header (opened banked_sample)) = 0.
Proof.
  refine (proj1 (proj2 (X25_log_header_fields (opened banked_sample) _ _))).
  - vm_compute. split; [discriminate | reflexivity].
  - vm_compute. split; [discriminate | reflexivity].
Defined.

(** X26: the header of an instance is fixed when the file is opened.
    [nsf_get_header] of the instance [nsf_open] registers is the header
    [nsf_read_header] stores for the same file, and [nsf_playback_init] and
    [nsf_playback_frame] leave it as it is, whatever the core does. *)
Theorem X26_header_is_stable {path : Type} (fs : path -> option (list Z))
    (name : path) (bytes : list Z) (h0 : nsf_header_t) (nsf : nsf_file_t)
    (song pc : Z) (cb : bool) (cpu cpu' : cpu_run) :
  fs name = Some bytes ->
  nsf_open None bytes = (ESP_OK, Some nsf) ->
  let '(_, playing, _) := nsf_playback_init nsf song cb cpu in
  let '(_, active, _) := nsf_playback_frame (Some playing) pc cpu' in
  nsf_read_header fs (Some name) (Some h0) = (ESP_OK, Some (nsf_get_header nsf)) /\
  nsf_get_header playing = nsf_get_header nsf /\
  nsf_get_header <$> active = Some (nsf_get_header nsf).
Proof.
  intros Hfs Hopen.
  assert (Hvalid : (128 <= length bytes)%nat /\ take 5 bytes = nsf_magic /\
                   header nsf = header_of_bytes (take 128 bytes)).
  { revert Hopen. unfold nsf_open.
    cbn [file set_file header zeroed_nsf_file].
    destruct (decide ((128 <= length bytes)%nat /\ take 5 bytes = nsf_magic))
      as [[Hlen Hmagic]|Hbad].
    - rewrite nsf_read_header_impl_ok by done. by intros [= <-].
    - assert (Hbad' : (length bytes < 128)%nat \/ take 5 bytes <> nsf_magic).
      { destruct (decide (length bytes < 128)%nat); [by left | right].
        intros ?. apply Hbad. split; [lia | done]. }
      match goal with
      | |- context [nsf_read_header_impl (fopen bytes) ?h] =>
          destruct (nsf_read_header_impl_fail bytes h Hbad') as [f ->]
      end. done. }
  destruct Hvalid as (Hlen & Hmagic & Hh).
  assert (Hinit : header (snd (fst (nsf_playback_init nsf song cb cpu)))
                  = header nsf).
  { unfold nsf_playback_init.
    set (nsf0 := nsf_init_nes_prg _ song 0).
    assert (Hhd : header nsf0 = header nsf) by reflexivity.
    destruct (if nsf_has_bank_switching nsf0 then _ else _) as [ret nsf1] eqn:Hl.
    assert (Hf : fixed_regions nsf1 = fixed_regions nsf0).
    { destruct (nsf_has_bank_switching nsf0).
      - pose proof (nsf_init_load_nes_rom_banks_fixed nsf0) as H.
        by rewrite Hl in H.
      - pose proof (nsf_init_load_nes_rom_fixed nsf0) as H.
        by rewrite Hl in H. }
    assert (Hh1 : header nsf1 = header nsf).
    { unfold fixed_regions in Hf. injection Hf as -> _ _ _. done. }
    destruct (bool_decide (ret <> ESP_OK)); [done|].
    destruct (run_cpu_fixed cpu nsf1) as (nsf2 & H2 & Hf2).
    destruct (run_cpu cpu (Some nsf1)) as [active evs]. cbn [fst] in H2.
    subst active. cbn [fst snd default from_option id].
    unfold fixed_regions in Hf2. injection Hf2 as -> _ _ _. done. }
  destruct (nsf_playback_init nsf song cb cpu) as [[ret playing] evs].
  cbn [fst snd] in Hinit.
  assert (Hframe : header <$> snd (fst (nsf_playback_frame (Some playing) pc cpu'))
                   = Some (header nsf)).
  { unfold nsf_playback_frame. destruct (negb (pc =? 0x1007)).
    - cbn. by rewrite Hinit.
    - destruct (run_cpu_fixed cpu' playing) as (nsf2 & H2 & Hf2).
      destruct (run_cpu cpu' (Some playing)) as [active evs2]. cbn [fst] in H2.
      subst active. cbn.
      unfold fixed_regions in Hf2. injection Hf2 as -> _ _ _. by rewrite Hinit. }
  destruct (nsf_playback_frame (Some playing) pc cpu') as [[ret' active] evs'].
  cbn [fst snd] in Hframe. unfold nsf_get_header.
  split; [|done].
  unfold nsf_read_header. rewrite Hfs.
  rewrite nsf_read_header_impl_ok by done. by rewrite Hh.
Qed.

Lemma X26_header_is_stable_witness :
  let nsf := opened banked_sample in
  let '(_, playing, _) := nsf_playback_init nsf 0 true fill_cache in
  let '(_, active, _) := nsf_playback_frame (Some playing) 0x1007 CpuDone in
  nsf_read_header (fun _ : unit => Some banked_sample) (Some tt)
    (Some (header zeroed_nsf_file))
  = (ESP_OK, Some (nsf_get_header nsf)) /\
  nsf_get_header playing = nsf_get_header nsf /\
  nsf_get_header <$> active = Some (nsf_get_header nsf).
Proof.
  apply (X26_header_is_stable (fun _ : unit => Some banked_sample) tt
           banked_sample).
  - reflexivity.
  - unfold opened.
    assert (Hret : fst (nsf_open None banked_sample) = ESP_OK)
      by (vm_compute; reflexivity).
    assert (Hsome : bool_decide (snd (nsf_open None banked_sample) <> None) = true).
    { unfold nsf_open. cbn [file set_file header zeroed_nsf_file].
      rewrite nsf_read_header_impl_ok; [done| |reflexivity].
      apply Nat2Z.inj_le. vm_compute. discriminate. }
    destruct (nsf_open None banked_sample) as [ret [n|]]; cbn [fst snd] in *.
    + by rewrite Hret.
    + done.
Defined.
